(** * silx.math.specfit / silx.math.fit.specfitfunctions

    A shallow embedding of the fit driver [Specfit] (src/silx/math/specfit.py)
    and of the estimator class [SpecfitFunctions]
    (src/silx/math/fit/specfitfunctions.py), followed by the properties of
    the specification that were checked against it.

    Conventions.
    - Python floats (and numpy float64 arrays) are values of an abstract
      numeric interface [Numeric].  Two instances are given: IEEE binary64
      ([Float64], Rocq's primitive floats, used to run the code on concrete
      inputs) and the real numbers ([Reals], used where a statement speaks
      about the mathematical value of a formula).
    - numpy 1-D arrays are lists; numpy 2-D arrays are lists of rows.
    - A Python exception is a value [Raise e] of the result type [res];
      methods that assign to attributes of [self] return the new object
      next to their result, so what an exception leaves behind is visible.
    - Python dictionaries are insertion-ordered association lists; objects
      that are shared by reference (the configuration dictionary of
      [SpecfitFunctions]) live in a store and are named by their address.
    - Routines that are imported from outside the two source files
      (peak_search, guess_fwhm, leastsq, PyMca's subac and the least-squares
      solver) are fields of the record [Externals]. *)

From Stdlib Require Import ZArith List String Ascii Bool Lia.
From Stdlib Require Import Floats Reals Lra.
Import ListNotations.
Open Scope string_scope.
Open Scope list_scope.

Set Implicit Arguments.

(* ================================================================== *)
(** * Numbers *)

(** The arithmetic the two source files use on floats. *)
Class Numeric : Type := {
  num : Type;
  of_Z : Z -> num;                 (* float(n) of a Python int *)
  add : num -> num -> num;
  sub : num -> num -> num;
  mul : num -> num -> num;
  div : num -> num -> num;
  nsqrt : num -> num;              (* numpy.sqrt *)
  nabs : num -> num;               (* abs, numpy.fabs *)
  npi : num;                       (* numpy.pi *)
  nlog2 : num;                     (* numpy.log(2) *)
  ltb : num -> num -> bool;        (* a < b *)
  leb : num -> num -> bool;        (* a <= b *)
  eqb : num -> num -> bool;        (* a == b *)
  trunc : num -> option Z          (* int(a); None when it raises *)
}.

Declare Scope num_scope.
Delimit Scope num_scope with num.
Infix "+" := add : num_scope.
Infix "-" := sub : num_scope.
Infix "*" := mul : num_scope.
Infix "/" := div : num_scope.
Infix "<?" := ltb : num_scope.
Infix "<=?" := leb : num_scope.
Infix "=?" := eqb : num_scope.

Section Literals.
Context {N : Numeric}.

(** The decimal literal [m]e-[k], e.g. [dec 5 1] is [0.5] and
    [dec 1 5] is [0.00001].  In binary64 the quotient of two exactly
    represented integers is the correctly rounded value of the literal. *)
Definition dec (m : Z) (k : nat) : num := div (of_Z m) (of_Z (10 ^ Z.of_nat k)).

Definition zero : num := of_Z 0.
Definition one : num := of_Z 1.
Definition two : num := of_Z 2.

(** [a > b], [a >= b] and [a != b] as Python evaluates them. *)
Definition gtb (a b : num) : bool := ltb b a.
Definition geb (a b : num) : bool := leb b a.
Definition neqb (a b : num) : bool := negb (eqb a b).
End Literals.

(** ** IEEE binary64 *)

Module Float64.
Definition float_of_Z (z : Z) : float := SF2Prim (binary_normalize prec emax z 0 false).

(** [int(f)]: truncation toward zero; raises on NaN and infinities. *)
Definition float_trunc (f : float) : option Z :=
  match Prim2SF f with
  | S754_zero _ => Some 0%Z
  | S754_finite s m e =>
      let a := if (0 <=? e)%Z then (Zpos m * 2 ^ e)%Z
               else (Zpos m / 2 ^ (- e))%Z in
      Some (if s then (- a)%Z else a)
  | S754_infinity _ => None
  | S754_nan => None
  end.

Definition float_pi : float := 0x1.921fb54442d18p+1%float.     (* 3.141592653589793 *)
Definition float_log2 : float := 0x1.62e42fefa39efp-1%float.   (* 0.6931471805599453 *)

#[export] Instance numeric : Numeric := {|
  num := float;
  of_Z := float_of_Z;
  add := PrimFloat.add;
  sub := PrimFloat.sub;
  mul := PrimFloat.mul;
  div := PrimFloat.div;
  nsqrt := PrimFloat.sqrt;
  nabs := PrimFloat.abs;
  npi := float_pi;
  nlog2 := float_log2;
  ltb := PrimFloat.ltb;
  leb := PrimFloat.leb;
  eqb := PrimFloat.eqb;
  trunc := float_trunc
|}.
End Float64.

(** ** Real numbers *)

Module Reals.
Definition real_ltb (a b : R) : bool := if Rlt_dec a b then true else false.
Definition real_leb (a b : R) : bool := if Rle_dec a b then true else false.
Definition real_eqb (a b : R) : bool := if Req_dec_T a b then true else false.

Definition real_trunc (a : R) : option Z :=
  Some (if Rle_dec 0 a then Int_part a else (- Int_part (- a))%Z).

#[export] Instance numeric : Numeric := {|
  num := R;
  of_Z := IZR;
  add := Rplus;
  sub := Rminus;
  mul := Rmult;
  div := Rdiv;
  nsqrt := sqrt;
  nabs := Rabs;
  npi := PI;
  nlog2 := ln 2;
  ltb := real_ltb;
  leb := real_leb;
  eqb := real_eqb;
  trunc := real_trunc
|}.
End Reals.

(* ================================================================== *)
(** * Python values, exceptions and dictionaries *)

Inductive exn : Type :=
| KeyError (key : string)
| IndexError
| TypeError (what : string)
| ValueError (what : string)
| OverflowError
| ZeroDivisionError
| AttributeError (attr : string)
| NameError (name : string)
| Diverges.        (* not an exception: the call does not return *)

Inductive res (A : Type) : Type :=
| Ok (a : A)
| Raise (e : exn).
Arguments Ok {A} a.
Arguments Raise {A} e.

Definition bind {A B} (r : res A) (k : A -> res B) : res B :=
  match r with
  | Ok a => k a
  | Raise e => Raise e
  end.

Declare Scope py_scope.
Delimit Scope py_scope with py.
Notation "x <- r ;; k" := (bind r (fun x => k))
  (at level 100, r at next level, right associativity) : py_scope.
Notation "' p <- r ;; k" := (bind r (fun p => k))
  (at level 100, p pattern, r at next level, right associativity) : py_scope.
Open Scope py_scope.

Definition of_option {A} (e : exn) (o : option A) : res A :=
  match o with
  | Some a => Ok a
  | None => Raise e
  end.

(** [for a in l: acc = f(acc, a)] where the body may raise. *)
Fixpoint foldM {A B} (f : B -> A -> res B) (l : list A) (acc : B) : res B :=
  match l with
  | [] => Ok acc
  | a :: l' => acc' <- f acc a ;; foldM f l' acc'
  end.

Fixpoint mapM {A B} (f : A -> res B) (l : list A) : res (list B) :=
  match l with
  | [] => Ok []
  | a :: l' => b <- f a ;; bs <- mapM f l' ;; Ok (b :: bs)
  end.

(** ** Strings *)

Definition lower_ascii (c : ascii) : ascii :=
  let n := nat_of_ascii c in
  if andb (65 <=? n)%nat (n <=? 90)%nat then ascii_of_nat (n + 32) else c.

(** [s.lower()] on ASCII text. *)
Fixpoint lower (s : string) : string :=
  match s with
  | EmptyString => EmptyString
  | String c s' => String (lower_ascii c) (lower s')
  end.

Fixpoint starts_with (p s : string) : bool :=
  match p, s with
  | EmptyString, _ => true
  | String a p', String b s' => if Ascii.eqb a b then starts_with p' s' else false
  | String _ _, EmptyString => false
  end.

(** [sub in s], i.e. [s.find(sub) != -1]. *)
Fixpoint contains (sub s : string) : bool :=
  if starts_with sub s then true
  else match s with
       | EmptyString => false
       | String _ s' => contains sub s'
       end.

(** ["%d" % n] for the group numbers, which are positive. *)
Fixpoint digits (fuel : nat) (n : nat) (acc : string) : string :=
  match fuel with
  | O => acc
  | S fuel' =>
      let d := ascii_of_nat (48 + n mod 10) in
      if (n <? 10)%nat then String d acc
      else digits fuel' (n / 10) (String d acc)
  end.

Definition str_of_Z (z : Z) : string :=
  if (z <? 0)%Z then String "-"%char (digits (S (Z.to_nat (- z))) (Z.to_nat (- z)) EmptyString)
  else digits (S (Z.to_nat z)) (Z.to_nat z) EmptyString.

(** ** Dictionaries *)

Definition dict (V : Type) : Type := list (string * V).

Fixpoint dget {V} (d : dict V) (k : string) : option V :=
  match d with
  | [] => None
  | (k', v) :: d' => if String.eqb k' k then Some v else dget d' k
  end.

(** [k in d] *)
Definition dmem {V} (d : dict V) (k : string) : bool :=
  match dget d k with Some _ => true | None => false end.

(** [d[k] = v]: an existing key keeps its place, a new one goes last. *)
Fixpoint dset {V} (d : dict V) (k : string) (v : V) : dict V :=
  match d with
  | [] => [(k, v)]
  | (k', v') :: d' => if String.eqb k' k then (k', v) :: d' else (k', v') :: dset d' k v
  end.

Definition dkeys {V} (d : dict V) : list string := map fst d.

(** [d[k]], raising [KeyError]. *)
Definition ditem {V} (d : dict V) (k : string) : res V :=
  of_option (KeyError k) (dget d k).

(** ** Sequences *)

(** [l[i]] with Python's negative indices. *)
Definition py_index {A} (l : list A) (i : Z) : res A :=
  let n := Z.of_nat (List.length l) in
  if (0 <=? i)%Z then of_option IndexError (nth_error l (Z.to_nat i))
  else if (- n <=? i)%Z then of_option IndexError (nth_error l (Z.to_nat (n + i)))
  else Raise IndexError.

(** [l[i] = v] for [0 <= i < len(l)]. *)
Fixpoint set_nth {A} (l : list A) (i : nat) (v : A) : list A :=
  match l, i with
  | [], _ => []
  | _ :: l', O => v :: l'
  | a :: l', S i' => a :: set_nth l' i' v
  end.

Definition py_setitem {A} (l : list A) (i : Z) (v : A) : res (list A) :=
  let n := Z.of_nat (List.length l) in
  if andb (0 <=? i)%Z (i <? n)%Z then Ok (set_nth l (Z.to_nat i) v)
  else if andb (- n <=? i)%Z (i <? 0)%Z then Ok (set_nth l (Z.to_nat (n + i)) v)
  else Raise IndexError.

(** [l[-1]] *)
Definition py_last {A} (l : list A) : res A := of_option IndexError (nth_error (rev l) 0).

(** [l[a:b]] for [0 <= a], [0 <= b]. *)
Definition slice {A} (l : list A) (a b : nat) : list A := firstn (b - a) (skipn a l).

Section Values.
Context {N : Numeric}.
Local Open Scope num_scope.

Inductive pyval : Type :=
| VNone
| VBool (b : bool)
| VInt (z : Z)
| VFloat (x : num)
| VStr (s : string).

(** [bool(v)] *)
Definition truthy (v : pyval) : bool :=
  match v with
  | VNone => false
  | VBool b => b
  | VInt z => negb (z =? 0)%Z
  | VFloat x => neqb x zero
  | VStr s => negb (String.eqb s "")
  end.

(** [float(v)].  A string that spells a number is not modelled: the
    configuration values of the two files are numbers and flags. *)
Definition py_float (v : pyval) : res num :=
  match v with
  | VNone => Raise (TypeError "float() argument must be a string or a number")
  | VBool b => Ok (if b then one else zero)
  | VInt z => Ok (of_Z z)
  | VFloat x => Ok x
  | VStr _ => Raise (ValueError "could not convert string to float")
  end.

(** [int(x)] of a float. *)
Definition py_int (x : num) : res Z :=
  of_option (ValueError "cannot convert float to integer") (trunc x).

(** [v == 0] *)
Definition is_zero (v : pyval) : bool :=
  match v with
  | VBool b => negb b
  | VInt z => (z =? 0)%Z
  | VFloat x => x =? zero
  | VNone | VStr _ => false
  end.

(** The float a number stands for in arithmetic with a float array. *)
Definition as_num (v : pyval) : res num :=
  match v with
  | VBool b => Ok (if b then one else zero)
  | VInt z => Ok (of_Z z)
  | VFloat x => Ok x
  | VNone => Raise (TypeError "unsupported operand type: NoneType")
  | VStr _ => Raise (TypeError "unsupported operand type: str")
  end.

(** ** numpy on 1-D arrays *)

(** Elementwise binary operation on arrays of one shape. *)
Fixpoint zip_with (f : num -> num -> num) (a b : list num) : res (list num) :=
  match a, b with
  | [], [] => Ok []
  | x :: a', y :: b' => r <- zip_with f a' b' ;; Ok (f x y :: r)
  | _, _ => Raise (ValueError "operands could not be broadcast together")
  end.

Definition vadd := zip_with add.
Definition vsub := zip_with sub.
Definition vmul := zip_with mul.
Definition vdiv := zip_with div.

Definition zeros (n : nat) : list num := repeat zero n.
Definition ones (n : nat) : list num := repeat one n.

(** [numpy.zeros((rows, cols))] *)
Definition zeros2 (rows cols : nat) : list (list num) := repeat (zeros cols) rows.

Definition vsum (a : list num) : num := fold_left add a zero.

(** [min(a)] and [max(a)] of Python on a non-empty sequence: the first
    element is kept unless a later one compares strictly below (above). *)
Definition py_min (a : list num) : res num :=
  match a with
  | [] => Raise (ValueError "min() arg is an empty sequence")
  | x :: a' => Ok (fold_left (fun m y => if y <? m then y else m) a' x)
  end.

Definition py_max (a : list num) : res num :=
  match a with
  | [] => Raise (ValueError "max() arg is an empty sequence")
  | x :: a' => Ok (fold_left (fun m y => if m <? y then y else m) a' x)
  end.

(** [numpy.nonzero(mask)[0]] *)
Fixpoint nonzero_from (i : Z) (mask : list bool) : list Z :=
  match mask with
  | [] => []
  | b :: mask' => if b then i :: nonzero_from (i + 1)%Z mask' else nonzero_from (i + 1)%Z mask'
  end.
Definition nonzero (mask : list bool) : list Z := nonzero_from 0%Z mask.

(** [a[mask]] with a boolean array: the shapes must agree. *)
Fixpoint bool_index {A} (a : list A) (mask : list bool) : res (list A) :=
  match a, mask with
  | [], [] => Ok []
  | x :: a', b :: mask' => r <- bool_index a' mask' ;; Ok (if b then x :: r else r)
  | _, _ => Raise IndexError
  end.

(** [numpy.take(a, idx)] *)
Definition take (a : list num) (idx : list Z) : res (list num) :=
  mapM (py_index a) idx.
End Values.
Arguments VFloat {N} & x.

(* ================================================================== *)
(** * State and exceptions *)

(** A method of an object whose attributes have type [S]: it returns a
    value or raises, and leaves a (possibly modified) object behind in
    both cases. *)
Definition M (S A : Type) : Type := S -> res A * S.

Definition ret {S A} (a : A) : M S A := fun s => (Ok a, s).
Definition raise {S A} (e : exn) : M S A := fun s => (Raise e, s).
Definition lift {S A} (r : res A) : M S A := fun s => (r, s).
Definition get {S} : M S S := fun s => (Ok s, s).
Definition put {S} (s' : S) : M S unit := fun _ => (Ok tt, s').

Definition bindM {S A B} (m : M S A) (k : A -> M S B) : M S B :=
  fun s => match m s with
           | (Ok a, s') => k a s'
           | (Raise e, s') => (Raise e, s')
           end.

Notation "x <~ m ;; k" := (bindM m (fun x => k))
  (at level 100, m at next level, right associativity) : py_scope.
Notation "' p <~ m ;; k" := (bindM m (fun p => k))
  (at level 100, p pattern, m at next level, right associativity) : py_scope.
Notation "m ;;; k" := (bindM m (fun _ => k))
  (at level 100, right associativity) : py_scope.

(** [for a in l: body(a)] *)
Fixpoint forM {S A} (l : list A) (body : A -> M S unit) : M S unit :=
  match l with
  | [] => ret tt
  | a :: l' => body a ;;; forM l' body
  end.

(* ================================================================== *)
(** * Imported routines *)

Section Imported.
Context {N : Numeric}.

(** A fit function [f(params, x) -> y] on arrays. *)
Definition model_fun : Type := list num -> list num -> res (list num).

(** The constraints handed to the solver by [startfit]: three parallel
    lists holding the code names, [cons1] and [cons2]. *)
Definition solver_constraints : Type := (list string * list num * list num)%type.

Record Externals : Type := {
  (** silx.math.fit.peaks.peak_search(y, fwhm, sensitivity): the indices
      of the peaks, already passed through [int]. *)
  peak_search : list num -> Z -> num -> res (list Z);
  (** silx.math.fit.peaks.guess_fwhm(y) *)
  guess_fwhm : list num -> res Z;
  (** silx.math.fit.leastsq.leastsq(functions.sum_gauss, xw, yw, p0,
      max_iter=4, constraints=cons): the fitted parameters. *)
  leastsq : list num -> list num -> list num -> list (list num) -> res (list num);
  (** PyMca5 SpecfitFuns.subac(y, c, niter) *)
  subac : list num -> num -> num -> res (list num);
  (** PyMca5 Gefit.LeastSquaresFit through [curve_fit(model, xdata,
      ydata, p0, constraints=..., model_deriv=...)]: fitted parameters,
      chi square and uncertainties. *)
  curve_fit : model_fun -> list num -> list num -> list num ->
              option solver_constraints ->
              option (list num -> Z -> list num -> res (list num)) ->
              res (list num * num * list num)
}.
End Imported.

(* ================================================================== *)
(** * specfitfunctions.py *)

Module SpecfitFunctions.
Section Defs.
Context {N : Numeric}.
Variable ext : Externals.
Local Open Scope num_scope.

Definition CPOSITIVE : Z := 1.
Definition CQUOTED : Z := 2.
Definition CFIXED : Z := 3.
Definition CFACTOR : Z := 4.
Definition CDELTA : Z := 5.
Definition CSUM : Z := 6.
Definition CIGNORED : Z := 7.

(** The module-level dictionary. *)
Definition SPECFITFUNCTIONS_DEFAULTS : dict pyval :=
  [ ("NoConstraintsFlag", VBool false);
    ("PositiveFwhmFlag", VBool true);
    ("PositiveHeightAreaFlag", VBool true);
    ("SameFwhmFlag", VBool false);
    ("QuotedPositionFlag", VBool false);
    ("QuotedEtaFlag", VBool false);
    ("Yscaling", VFloat one);
    ("Xscaling", VFloat one);
    ("FwhmPoints", VInt 8);
    ("AutoFwhm", VBool false);
    ("Sensitivity", VFloat (dec 25 1));
    ("ForcePeakPresence", VBool false);
    ("HypermetTails", VInt 15);
    ("QuotedFwhmFlag", VInt 0);
    ("MaxFwhm2InputRatio", VFloat (dec 15 1));
    ("MinFwhm2InputRatio", VFloat (dec 4 1));
    ("MinGaussArea4ShortTail", VFloat (of_Z 50000));
    ("InitialShortTailAreaRatio", VFloat (dec 50 3));
    ("MaxShortTailAreaRatio", VFloat (dec 100 3));
    ("MinShortTailAreaRatio", VFloat (dec 10 4));
    ("InitialShortTailSlopeRatio", VFloat (dec 70 2));
    ("MaxShortTailSlopeRatio", VFloat (dec 200 2));
    ("MinShortTailSlopeRatio", VFloat (dec 50 2));
    ("MinGaussArea4LongTail", VFloat (of_Z 1000));
    ("InitialLongTailAreaRatio", VFloat (dec 50 3));
    ("MaxLongTailAreaRatio", VFloat (dec 300 3));
    ("MinLongTailAreaRatio", VFloat (dec 10 3));
    ("InitialLongTailSlopeRatio", VFloat (of_Z 20));
    ("MaxLongTailSlopeRatio", VFloat (of_Z 50));
    ("MinLongTailSlopeRatio", VFloat (of_Z 5));
    ("MinGaussHeight4StepTail", VFloat (of_Z 5000));
    ("InitialStepTailHeightRatio", VFloat (dec 2 3));
    ("MaxStepTailHeightRatio", VFloat (dec 100 4));
    ("MinStepTailHeightRatio", VFloat (dec 1 4));
    ("HypermetQuotedPositionFlag", VBool true);
    ("DeltaPositionFwhmUnits", VFloat (dec 5 1));
    ("SameSlopeRatioFlag", VInt 1);
    ("SameAreaRatioFlag", VInt 1) ].

(** ** The object store

    Dictionaries are Python objects: an attribute holds the address of
    one, and two attributes holding the same address see each other's
    writes.  Address [0] is the module-level
    [SPECFITFUNCTIONS_DEFAULTS]. *)
Definition loc : Type := nat.
Definition store : Type := list (dict pyval).

Definition DEFAULTS_loc : loc := 0%nat.
(** The store once the module is imported. *)
Definition module_store : store := [SPECFITFUNCTIONS_DEFAULTS].

Definition load (h : store) (l : loc) : dict pyval := nth l h [].
Definition write (h : store) (l : loc) (d : dict pyval) : store := set_nth h l d.
(** A dictionary display [{...}] evaluated by a caller. *)
Definition alloc (h : store) (d : dict pyval) : loc * store := (List.length h, h ++ [d]).

(** An instance: its only attribute is [config]. *)
Record t : Type := { config : loc }.

(** [SpecfitFunctions(config)]: [None] stores the module dictionary
    itself, not a copy. *)
Definition init (cfg : option loc) : t :=
  match cfg with
  | None => {| config := DEFAULTS_loc |}
  | Some l => {| config := l |}
  end.

(** [self.config[key]] and [self.config[key] = v] *)
Definition config_item (self : t) (key : string) : M store pyval :=
  fun h => (ditem (load h (config self)) key, h).
Definition config_set (self : t) (key : string) (v : pyval) : M store unit :=
  fun h => (Ok tt, write h (config self) (dset (load h (config self)) key v)).

(** ** configure *)

(** One turn of the loop over [kw.keys()]: every key of the dictionary
    that equals [key] up to case takes the value; when there is none the
    key is added as given. *)
Definition configure_key (d : dict pyval) (key : string) (v : pyval) : dict pyval :=
  let hit (k : string) := String.eqb (lower k) (lower key) in
  let d' := map (fun kv => if hit (fst kv) then (fst kv, v) else kv) d in
  if existsb (fun kv => hit (fst kv)) d then d' else dset d' key v.

(** [self.configure] called with the keyword arguments [kw]; the result is [self.config]. *)
Definition configure (self : t) (kw : dict pyval) : M store (dict pyval) :=
  fun h =>
    match kw with
    | [] => (Ok (load h (config self)), h)
    | _ =>
        let d := fold_left (fun d kv => configure_key d (fst kv) (snd kv)) kw
                           (load h (config self)) in
        (Ok d, write h (config self) d)
    end.

(** ** estimate_height_position_fwhm *)

(** [numpy.resize(a, (n, 1))]: [a] repeated or cut to [n] entries. *)
Definition resize (a : list num) (n : nat) : list num :=
  match a with
  | [] => zeros n
  | _ => firstn n (List.concat (repeat a n))
  end.

(** [cons[row, col] = v] on a 2-D array. *)
Definition set2 (c : list (list num)) (row : Z) (col : Z) (v : num)
  : res (list (list num)) :=
  r <- py_index c row ;;
  r' <- py_setitem r col v ;;
  py_setitem c row r'.

(** [cons[row, 0] = code; cons[row, 1] = c1; cons[row, 2] = c2] *)
Definition set_row (c : list (list num)) (row : Z) (code c1 c2 : num)
  : res (list (list num)) :=
  c <- set2 c row 0 code ;;
  c <- set2 c row 1 c1 ;;
  set2 c row 2 c2.

(** Lines 301-307: the scaling applied to [y] for the peak search. *)
Definition resolve_yscaling (cfg : dict pyval) (yscaling : pyval) : pyval :=
  let yscaling :=
    match yscaling with
    | VNone => match dget cfg "Yscaling" with
               | Some v => v
               | None => VFloat one
               end
    | v => v
    end in
  if is_zero yscaling then VFloat one else yscaling.

(** Lines 314-326: the width and the sensitivity of the peak search,
    with the writes to [self.config] that the clamping makes. *)
Definition search_settings (self : t) (y : list num) : M store (Z * num) :=
  auto <~ config_item self "AutoFwhm" ;;
  search_fwhm <~ (if truthy auto then lift (guess_fwhm ext y)
                  else (v <~ config_item self "FwhmPoints" ;;
                        lift (f <- py_float v ;; py_int f))) ;;
  v <~ config_item self "Sensitivity" ;;
  search_sens <~ lift (py_float v) ;;
  search_fwhm <~ (if (search_fwhm <? 3)%Z
                  then (config_set self "FwhmPoints" (VInt 3) ;;; ret 3%Z)
                  else ret search_fwhm) ;;
  search_sens <~ (if search_sens <? one
                  then (config_set self "Sensitivity" (VInt 1) ;;; ret one)
                  else ret search_sens) ;;
  ret (search_fwhm, search_sens).

(** Lines 328-344: the indices of the peaks. *)
Definition find_peaks (cfg : dict pyval) (y bg : list num) (yscaling : pyval)
           (search_fwhm : Z) (search_sens : num) : res (list Z) :=
  let npoints := Z.of_nat (List.length y) in
  peaks <- (if gtb (of_Z npoints) (dec 15 1 * of_Z search_fwhm)
            then (s <- as_num yscaling ;;
                  peak_search ext (map (fun v => s * nabs v) y) search_fwhm search_sens)
            else Ok []) ;;
  match peaks with
  | _ :: _ => Ok peaks
  | [] =>
      f <- py_float (match dget cfg "ForcePeakPresence" with
                     | Some v => v
                     | None => VInt 0
                     end) ;;
      forcePeak <- py_int f ;;
      if negb (forcePeak =? 0)%Z then
        delta <- vsub y bg ;;
        m <- py_max delta ;;
        match nonzero (map (fun d => d =? m) delta) with
        | [i] => Ok [i]
        | _ => Raise (TypeError "only size-1 arrays can be converted to Python scalars")
        end
      else Ok []
  end.

(** Lines 358-365: one turn of the loop over [peaks[1:]].  The state is
    [(param, height_largest_peak, index_largest_peak, peak_index)]. *)
Definition seed_step (x y bg : list num) (sig : num)
           (st : list num * num * Z * Z) (i : Z) : res (list num * num * Z * Z) :=
  let '(param, height_largest_peak, index_largest_peak, peak_index) := st in
  yi <- py_index y i ;;
  bi <- py_index bg i ;;
  xi <- py_index x i ;;
  let h := yi - bi in
  let param := param ++ [h; xi; sig] in
  if gtb h height_largest_peak
  then Ok (param, h, peak_index, (peak_index + 1)%Z)
  else Ok (param, height_largest_peak, index_largest_peak, (peak_index + 1)%Z).

(** Lines 347-365: the seeds [(height, position, fwhm)] of every peak and
    the index of the largest one. *)
Definition seeds (x y bg : list num) (peaks : list Z) : res (list num * Z) :=
  match peaks with
  | [] => Ok ([], 0%Z)
  | p0 :: rest =>
      let npoints := Z.of_nat (List.length y) in
      xl <- py_index x (npoints - 1) ;;
      x0 <- py_index x 0 ;;
      let sig := of_Z 5 * nabs (xl - x0) / of_Z npoints in
      peakpos <- py_index x p0 ;;
      let peakpos := if nabs peakpos <? dec 1 16 then zero else peakpos in
      y0 <- py_index y p0 ;;
      b0 <- py_index bg p0 ;;
      let param := [y0 - b0; peakpos; sig] in
      '(param, _, index_largest_peak, _) <-
         foldM (seed_step x y bg sig) rest (param, y0 - b0, 0%Z, 1%Z) ;;
      Ok (param, index_largest_peak)
  end.

(** Lines 371-392: the constraints of the preliminary fit, one group of
    three rows per peak. *)
Fixpoint prefit_rows (param : list num) (fwhmx : num) : list (list num) :=
  match param with
  | _ :: pos :: _ :: rest =>
      [of_Z CPOSITIVE; zero; zero]
        :: [of_Z CQUOTED; pos - dec 5 1 * fwhmx; pos + dec 5 1 * fwhmx]
        :: [of_Z CPOSITIVE; zero; zero]
        :: prefit_rows rest fwhmx
  | _ => []
  end.

Definition prefit_constraints (x y param : list num) (search_fwhm : Z)
  : res (list (list num)) :=
  let xw := resize x (List.length y) in
  if (search_fwhm <? Z.of_nat (List.length xw))%Z then
    a <- py_index xw search_fwhm ;;
    b <- py_index xw 0 ;;
    Ok (prefit_rows param (nabs (a - b)))
  else
    (* numpy.ones is given an array of floats as its shape *)
    Raise (TypeError "'numpy.float64' object cannot be interpreted as an integer").

(** Lines 402-430: one turn of the final loop, for peak [i]; the three
    rows of the peak start at [3 * i]. *)
Definition final_step (cfg : dict pyval) (x : list num) (index_largest_peak : Z)
           (cons : list (list num)) (i : Z) : res (list (list num)) :=
  let peak_index := (3 * i)%Z in
  (* height / area *)
  noc <- ditem cfg "NoConstraintsFlag" ;;
  cons <- (if negb (truthy noc) then
             f <- ditem cfg "PositiveHeightAreaFlag" ;;
             if truthy f then set_row cons peak_index (of_Z CPOSITIVE) zero zero
             else Ok cons
           else Ok cons) ;;
  let peak_index := (peak_index + 1)%Z in
  (* position *)
  noc <- ditem cfg "NoConstraintsFlag" ;;
  cons <- (if negb (truthy noc) then
             f <- ditem cfg "QuotedPositionFlag" ;;
             if truthy f then
               c <- set2 cons peak_index 0 (of_Z CQUOTED) ;;
               lo <- py_min x ;;
               c <- set2 c peak_index 1 lo ;;
               hi <- py_max x ;;
               set2 c peak_index 2 hi
             else Ok cons
           else Ok cons) ;;
  let peak_index := (peak_index + 1)%Z in
  (* fwhm *)
  noc <- ditem cfg "NoConstraintsFlag" ;;
  if negb (truthy noc) then
    f <- ditem cfg "PositiveFwhmFlag" ;;
    cons <- (if truthy f then set_row cons peak_index (of_Z CPOSITIVE) zero zero
             else Ok cons) ;;
    s <- ditem cfg "SameFwhmFlag" ;;
    if truthy s then
      if negb (i =? index_largest_peak)%Z then
        set_row cons peak_index (of_Z CFACTOR) (of_Z (3 * index_largest_peak + 2)) one
      else Ok cons
    else Ok cons
  else Ok cons.

(** [range(n)] *)
Definition range (n : nat) : list Z := map Z.of_nat (seq 0 n).

(** Lines 399-430. *)
Definition final_constraints (cfg : dict pyval) (x : list num) (npeaks : nat)
           (index_largest_peak : Z) (nfitted : nat) : res (list (list num)) :=
  foldM (final_step cfg x index_largest_peak) (range npeaks) (zeros2 nfitted 3).

Definition estimate_height_position_fwhm (self : t) (x y : list num)
           (bg : option (list num)) (yscaling : pyval)
  : M store (list num * list (list num)) :=
  cfg <~ (fun h => (Ok (load h (config self)), h)) ;;
  let yscaling := resolve_yscaling cfg yscaling in
  let bg := match bg with Some b => b | None => zeros (List.length y) end in
  '(search_fwhm, search_sens) <~ search_settings self y ;;
  cfg <~ (fun h => (Ok (load h (config self)), h)) ;;
  peaks <~ lift (find_peaks cfg y bg yscaling search_fwhm search_sens) ;;
  '(fittedpar, index_largest_peak) <~
     lift (match peaks with
           | [] => Ok ([], 0%Z)
           | _ =>
               '(param, index_largest_peak) <- seeds x y bg peaks ;;
               d <- vsub y bg ;;
               cons <- prefit_constraints x y param search_fwhm ;;
               fittedpar <- leastsq ext (resize x (List.length y))
                                    (resize d (List.length y)) param cons ;;
               Ok (fittedpar, index_largest_peak)
           end) ;;
  cons <~ lift (final_constraints cfg x (List.length peaks) index_largest_peak
                                  (List.length fittedpar)) ;;
  ret (fittedpar, cons).

(** ** estimate_agauss, estimate_alorentz *)

(** [for i in range(npeaks): fittedpar[3 * i] = area(height, fwhm)] *)
Definition heights_to_areas (area : num -> num -> num) (fittedpar : list num) : list num :=
  let npeaks := (List.length fittedpar / 3)%nat in
  fold_left
    (fun fp i =>
       let height := nth (3 * i) fp zero in
       let fwhm := nth (3 * i + 2) fp zero in
       set_nth fp (3 * i) (area height fwhm))
    (seq 0 npeaks) fittedpar.

Definition gauss_area (height fwhm : num) : num :=
  nsqrt (two * npi) * height * fwhm / (two * nsqrt (two * nlog2)).

Definition lorentz_area (height fwhm : num) : num :=
  height * fwhm * dec 5 1 * npi.

Definition estimate_agauss (self : t) (x y : list num) (bg : option (list num))
           (yscaling : pyval) : M store (list num * list (list num)) :=
  '(fittedpar, constraints) <~ estimate_height_position_fwhm self x y bg yscaling ;;
  ret (heights_to_areas gauss_area fittedpar, constraints).

Definition estimate_alorentz (self : t) (x y : list num) (bg : option (list num))
           (yscaling : pyval) : M store (list num * list (list num)) :=
  '(fittedpar, constraints) <~ estimate_height_position_fwhm self x y bg yscaling ;;
  ret (heights_to_areas lorentz_area fittedpar, constraints).

(** ** estimate_splitgauss, estimate_pvoigt, estimate_splitpvoigt *)

(** [c[row, col]] on a 2-D array. *)
Definition get2 (c : list (list num)) (row col : Z) : res num :=
  r <- py_index c row ;;
  py_index r col.

(** [dst[drow, col] = src[srow, col]] *)
Definition copy2 (dst : list (list num)) (drow : Z) (src : list (list num)) (srow col : Z)
  : res (list (list num)) :=
  v <- get2 src srow col ;;
  set2 dst drow col v.

(** Lines 520-541: one turn of the loop of [estimate_splitgauss], on
    [(estimated_parameters, estimated_constraints)]. *)
Definition splitgauss_step (fittedpar : list num) (cons : list (list num))
           (st : list num * list (list num)) (i : Z)
  : res (list num * list (list num)) :=
  let '(estimated_parameters, ec) := st in
  three <- mapM (fun j => py_index fittedpar (3 * i + j)) (range 3) ;;
  w <- py_index fittedpar (3 * i + 2) ;;
  let estimated_parameters := estimated_parameters ++ three ++ [w] in
  ec <- copy2 ec (4 * i) cons (3 * i) 0 ;;
  ec <- copy2 ec (4 * i + 1) cons (3 * i + 1) 0 ;;
  ec <- copy2 ec (4 * i + 2) cons (3 * i + 2) 0 ;;
  ec <- copy2 ec (4 * i + 3) cons (3 * i + 2) 0 ;;
  ec <- copy2 ec (4 * i) cons (3 * i) 1 ;;
  ec <- copy2 ec (4 * i + 1) cons (3 * i + 1) 1 ;;
  ec <- copy2 ec (4 * i + 2) cons (3 * i + 2) 1 ;;
  ec <- copy2 ec (4 * i + 3) cons (3 * i + 2) 1 ;;
  ec <- copy2 ec (4 * i) cons (3 * i) 2 ;;
  ec <- copy2 ec (4 * i + 1) cons (3 * i + 1) 2 ;;
  ec <- copy2 ec (4 * i + 2) cons (3 * i + 2) 2 ;;
  ec <- copy2 ec (4 * i + 3) cons (3 * i + 2) 2 ;;
  code <- get2 cons (3 * i + 2) 0 ;;
  if code =? of_Z 4 then
    (* same FWHM case *)
    c1 <- get2 cons (3 * i + 2) 1 ;;
    q <- py_int (c1 / of_Z 3) ;;
    ec <- set2 ec (4 * i + 2) 1 (of_Z (q * 4 + 2)) ;;
    c1 <- get2 cons (3 * i + 2) 1 ;;
    q <- py_int (c1 / of_Z 3) ;;
    ec <- set2 ec (4 * i + 3) 1 (of_Z (q * 4 + 3)) ;;
    Ok (estimated_parameters, ec)
  else Ok (estimated_parameters, ec).

Definition estimate_splitgauss (self : t) (x y : list num) (bg : option (list num))
           (yscaling : pyval) : M store (list num * list (list num)) :=
  r <~ estimate_height_position_fwhm self x y bg yscaling ;;
  let fittedpar := fst r in
  let cons := snd r in
  (* get the number of found peaks *)
  let npeaks := (List.length fittedpar / 3)%nat in
  lift (foldM (splitgauss_step fittedpar cons) (range npeaks)
              ([], zeros2 (4 * npeaks) 3)).

(** Lines 577-581 (and 641-645): the index of the free FWHM, the last
    peak whose width has not the code 4. *)
Definition free_fwhm (cons : list (list num)) (npeaks : nat) : res Z :=
  foldM (fun j i => code <- get2 cons (3 * i + 2) 0 ;;
                    Ok (if neqb code (of_Z 4) then i else j))
        (range npeaks) 0%Z.

(** Lines 575-584 (and 639-648): find out related parameters proper
    index. *)
Definition related_index (cfg : dict pyval) (cons : list (list num)) (npeaks : nat)
  : res (list (list num)) :=
  noc <- ditem cfg "NoConstraintsFlag" ;;
  if negb (truthy noc) then
    s <- ditem cfg "SameFwhmFlag" ;;
    if truthy s then
      j <- free_fwhm cons npeaks ;;
      foldM (fun c i => if negb (i =? j)%Z
                        then set2 c (3 * i + 2) 1 (of_Z (4 * j + 2))
                        else Ok c)
            (range npeaks) cons
    else Ok cons
  else Ok cons.

(** Lines 600-607 (and 675-682): the constraints of eta, in the given
    row. *)
Definition eta_constraints (cfg : dict pyval) (nc : list (list num)) (row : Z)
  : res (list (list num)) :=
  nc <- set2 nc row 0 zero ;;
  nc <- set2 nc row 1 zero ;;
  nc <- set2 nc row 2 zero ;;
  q <- ditem cfg "QuotedEtaFlag" ;;
  if truthy q then
    (* QUOTED=2 *)
    nc <- set2 nc row 0 (of_Z CQUOTED) ;;
    nc <- set2 nc row 1 zero ;;
    set2 nc row 2 one
  else Ok nc.

(** Lines 585-607: one turn of the last loop of [estimate_pvoigt], on
    [(newpar, newcons)]. *)
Definition pvoigt_step (cfg : dict pyval) (fittedpar : list num) (cons : list (list num))
           (st : list num * list (list num)) (i : Z)
  : res (list num * list (list num)) :=
  let '(newpar, nc) := st in
  p0 <- py_index fittedpar (3 * i) ;;
  p1 <- py_index fittedpar (3 * i + 1) ;;
  p2 <- py_index fittedpar (3 * i + 2) ;;
  let newpar := newpar ++ [p0; p1; p2; dec 5 1] in
  nc <- copy2 nc (4 * i) cons (3 * i) 0 ;;
  nc <- copy2 nc (4 * i + 1) cons (3 * i + 1) 0 ;;
  nc <- copy2 nc (4 * i + 2) cons (3 * i + 2) 0 ;;
  nc <- copy2 nc (4 * i) cons (3 * i) 1 ;;
  nc <- copy2 nc (4 * i + 1) cons (3 * i + 1) 1 ;;
  nc <- copy2 nc (4 * i + 2) cons (3 * i + 2) 1 ;;
  nc <- copy2 nc (4 * i) cons (3 * i) 2 ;;
  nc <- copy2 nc (4 * i + 1) cons (3 * i + 1) 2 ;;
  nc <- copy2 nc (4 * i + 2) cons (3 * i + 2) 2 ;;
  (* Eta constrains *)
  nc <- eta_constraints cfg nc (4 * i + 3) ;;
  Ok (newpar, nc).

Definition estimate_pvoigt (self : t) (x y : list num) (bg : option (list num))
           (yscaling : pyval) : M store (list num * list (list num)) :=
  r <~ estimate_height_position_fwhm self x y bg yscaling ;;
  let fittedpar := fst r in
  let cons := snd r in
  let npeaks := (List.length fittedpar / 3)%nat in
  cfg <~ (fun h => (Ok (load h (config self)), h)) ;;
  lift (cons <- related_index cfg cons npeaks ;;
        foldM (pvoigt_step cfg fittedpar cons) (range npeaks)
              ([], zeros2 (4 * npeaks) 3)).

(** Lines 649-682: one turn of the last loop of
    [estimate_splitpvoigt]. *)
Definition splitpvoigt_step (cfg : dict pyval) (fittedpar : list num)
           (cons : list (list num)) (st : list num * list (list num)) (i : Z)
  : res (list num * list (list num)) :=
  let '(newpar, nc) := st in
  (* height *)
  p0 <- py_index fittedpar (3 * i) ;;
  (* position *)
  p1 <- py_index fittedpar (3 * i + 1) ;;
  (* fwhm1 *)
  p2 <- py_index fittedpar (3 * i + 2) ;;
  (* fwhm2 equal to the first *)
  p3 <- py_index fittedpar (3 * i + 2) ;;
  (* eta *)
  let newpar := newpar ++ [p0; p1; p2; p3; dec 5 1] in
  nc <- copy2 nc (5 * i) cons (3 * i) 0 ;;
  nc <- copy2 nc (5 * i + 1) cons (3 * i + 1) 0 ;;
  nc <- copy2 nc (5 * i + 2) cons (3 * i + 2) 0 ;;
  nc <- copy2 nc (5 * i + 3) cons (3 * i + 2) 0 ;;
  nc <- copy2 nc (5 * i) cons (3 * i) 1 ;;
  nc <- copy2 nc (5 * i + 1) cons (3 * i + 1) 1 ;;
  nc <- copy2 nc (5 * i + 2) cons (3 * i + 2) 1 ;;
  nc <- copy2 nc (5 * i + 3) cons (3 * i + 2) 1 ;;
  nc <- copy2 nc (5 * i) cons (3 * i) 2 ;;
  nc <- copy2 nc (5 * i + 1) cons (3 * i + 1) 2 ;;
  nc <- copy2 nc (5 * i + 2) cons (3 * i + 2) 2 ;;
  nc <- copy2 nc (5 * i + 3) cons (3 * i + 2) 2 ;;
  code <- get2 cons (3 * i + 2) 0 ;;
  nc <- (if code =? of_Z 4 then
           v <- get2 nc (5 * i + 2) 1 ;;
           set2 nc (5 * i + 3) 1 (v + one)
         else Ok nc) ;;
  (* Eta constrains *)
  nc <- eta_constraints cfg nc (5 * i + 4) ;;
  Ok (newpar, nc).

Definition estimate_splitpvoigt (self : t) (x y : list num) (bg : option (list num))
           (yscaling : pyval) : M store (list num * list (list num)) :=
  r <~ estimate_height_position_fwhm self x y bg yscaling ;;
  let fittedpar := fst r in
  let cons := snd r in
  let npeaks := (List.length fittedpar / 3)%nat in
  cfg <~ (fun h => (Ok (load h (config self)), h)) ;;
  lift (cons <- related_index cfg cons npeaks ;;
        foldM (splitpvoigt_step cfg fittedpar cons) (range npeaks)
              ([], zeros2 (5 * npeaks) 3)).
End Defs.
End SpecfitFunctions.

(* ================================================================== *)
(** * specfit.py *)

Module Specfit.
Section Defs.
Context {N : Numeric}.
Variable ext : Externals.
Local Open Scope num_scope.

(** The names of the constraint codes, local to [estimate]. *)
Definition CONS : list string :=
  ["FREE"; "POSITIVE"; "QUOTED"; "FIXED"; "FACTOR"; "DELTA"; "SUM"; "IGNORE"].

(** The background functions an entry of [bkgdict] can hold: the bound
    methods of the class, or a function given to [addbackground]. *)
Inductive bkg_function : Type :=
| BkgNone
| BkgConstant
| BkgLinear
| BkgInternal
| BkgSquareFilter
| BkgUser (f : model_fun).

(** What a background estimator returns: the parameters, the constraint
    block and, for the built-in one, the baseline [zz]. *)
Definition bkg_estimation : Type :=
  (list num * list (list num) * option (list num))%type.

Inductive bkg_estimator : Type :=
| BuiltinBkg
| UserBkg (f : list num -> list num -> res bkg_estimation).

(** A peak estimator as [estimate_fun] calls it:
    [estimatefunction(x, y, z, xscaling=..., yscaling=...)].
    [est_keywords] are the parameter names of the callable; the call
    raises [TypeError] when a keyword it passes is not among them. *)
Record estimator : Type := {
  est_keywords : list string;
  est_call : list num -> list num -> list num -> num -> pyval ->
             M SpecfitFunctions.store (list num * list (list num))
}.

(** A method [m(self, x, y, bg=None, yscaling=None)] of
    [SpecfitFunctions], bound to an instance, as it stands in the module's
    [ESTIMATE] list. *)
Definition bound_estimator
           (m : list num -> list num -> option (list num) -> pyval ->
                M SpecfitFunctions.store (list num * list (list num)))
  : estimator :=
  {| est_keywords := ["x"; "y"; "bg"; "yscaling"];
     est_call := fun x y z _ yscaling => m x y (Some z) yscaling |}.

(** An entry of [theorydict]:
    [[function, parameters, estimate, configure, derivative]]. *)
Record theory : Type := {
  t_function : model_fun;
  t_parameters : list string;
  t_estimate : option estimator;
  t_configure : option (dict pyval -> M SpecfitFunctions.store (dict pyval));
  t_derivative : option (list num -> Z -> list num -> res (list num))
}.
(** [len(entry)] of such a list. *)
Definition theory_len : Z := 5.

(** An entry of [bkgdict]: [[function, parameters, estimate]]. *)
Record background : Type := {
  b_function : bkg_function;
  b_parameters : list string;
  b_estimate : option bkg_estimator
}.

(** An entry of [paramlist].  Python ints stored in [cons1], [cons2]
    or [estimation] are represented by their float value. *)
Record param : Type := {
  name : string;
  estimation : num;
  group : Z;
  code : string;
  cons1 : num;
  cons2 : num;
  fitresult : num;
  sigma : num;
  xmin : option num;       (* absent in the entries [mcafit] appends *)
  xmax : option num
}.

(** The attributes of a [Specfit] object. *)
Record t : Type := mk {
  fitconfig : dict pyval;   (* the configuration dictionary *)
  theorydict : dict theory;   (* registered peak theories, in registration order *)
  bkgdict : dict background;   (* registered backgrounds *)
  xdata0 : list num;
  ydata0 : list num;
  sigmay0 : list num;
  xdata : list num;
  ydata : list num;
  sigmay : list num;
  bkg_internal_oldx : list num;
  bkg_internal_oldy : list num;
  bkg_internal_oldpars : list num;
  bkg_internal_oldbkg : list num;
  theoryfun : option model_fun;   (* None: the attribute is not set yet *)
  bkgfun : option bkg_function;   (* None: the attribute is not set yet *)
  modelderiv : option bool;   (* Some false: Python None; Some true: self.myderiv *)
  final_theory : list string;
  paramlist : list param;   (* empty until estimate has run *)
  state : option string;
  chisq : option num;   (* None: Python None *)
  zz : list num;
  events : list (option num * string);   (* the FitStatusChanged events sent so far *)
  objects : SpecfitFunctions.store   (* the dictionaries the registered estimators hold *)
}.

(** [self.attr = v] for each attribute. *)
Definition set_fitconfig (v : dict pyval) (self : t) : t :=
  mk v (self.(theorydict)) (self.(bkgdict)) (self.(xdata0)) (self.(ydata0)) (self.(sigmay0)) (self.(xdata)) (self.(ydata)) (self.(sigmay)) (self.(bkg_internal_oldx)) (self.(bkg_internal_oldy)) (self.(bkg_internal_oldpars)) (self.(bkg_internal_oldbkg)) (self.(theoryfun)) (self.(bkgfun)) (self.(modelderiv)) (self.(final_theory)) (self.(paramlist)) (self.(state)) (self.(chisq)) (self.(zz)) (self.(events)) (self.(objects)).
Definition set_theorydict (v : dict theory) (self : t) : t :=
  mk (self.(fitconfig)) v (self.(bkgdict)) (self.(xdata0)) (self.(ydata0)) (self.(sigmay0)) (self.(xdata)) (self.(ydata)) (self.(sigmay)) (self.(bkg_internal_oldx)) (self.(bkg_internal_oldy)) (self.(bkg_internal_oldpars)) (self.(bkg_internal_oldbkg)) (self.(theoryfun)) (self.(bkgfun)) (self.(modelderiv)) (self.(final_theory)) (self.(paramlist)) (self.(state)) (self.(chisq)) (self.(zz)) (self.(events)) (self.(objects)).
Definition set_bkgdict (v : dict background) (self : t) : t :=
  mk (self.(fitconfig)) (self.(theorydict)) v (self.(xdata0)) (self.(ydata0)) (self.(sigmay0)) (self.(xdata)) (self.(ydata)) (self.(sigmay)) (self.(bkg_internal_oldx)) (self.(bkg_internal_oldy)) (self.(bkg_internal_oldpars)) (self.(bkg_internal_oldbkg)) (self.(theoryfun)) (self.(bkgfun)) (self.(modelderiv)) (self.(final_theory)) (self.(paramlist)) (self.(state)) (self.(chisq)) (self.(zz)) (self.(events)) (self.(objects)).
Definition set_xdata0 (v : list num) (self : t) : t :=
  mk (self.(fitconfig)) (self.(theorydict)) (self.(bkgdict)) v (self.(ydata0)) (self.(sigmay0)) (self.(xdata)) (self.(ydata)) (self.(sigmay)) (self.(bkg_internal_oldx)) (self.(bkg_internal_oldy)) (self.(bkg_internal_oldpars)) (self.(bkg_internal_oldbkg)) (self.(theoryfun)) (self.(bkgfun)) (self.(modelderiv)) (self.(final_theory)) (self.(paramlist)) (self.(state)) (self.(chisq)) (self.(zz)) (self.(events)) (self.(objects)).
Definition set_ydata0 (v : list num) (self : t) : t :=
  mk (self.(fitconfig)) (self.(theorydict)) (self.(bkgdict)) (self.(xdata0)) v (self.(sigmay0)) (self.(xdata)) (self.(ydata)) (self.(sigmay)) (self.(bkg_internal_oldx)) (self.(bkg_internal_oldy)) (self.(bkg_internal_oldpars)) (self.(bkg_internal_oldbkg)) (self.(theoryfun)) (self.(bkgfun)) (self.(modelderiv)) (self.(final_theory)) (self.(paramlist)) (self.(state)) (self.(chisq)) (self.(zz)) (self.(events)) (self.(objects)).
Definition set_sigmay0 (v : list num) (self : t) : t :=
  mk (self.(fitconfig)) (self.(theorydict)) (self.(bkgdict)) (self.(xdata0)) (self.(ydata0)) v (self.(xdata)) (self.(ydata)) (self.(sigmay)) (self.(bkg_internal_oldx)) (self.(bkg_internal_oldy)) (self.(bkg_internal_oldpars)) (self.(bkg_internal_oldbkg)) (self.(theoryfun)) (self.(bkgfun)) (self.(modelderiv)) (self.(final_theory)) (self.(paramlist)) (self.(state)) (self.(chisq)) (self.(zz)) (self.(events)) (self.(objects)).
Definition set_xdata (v : list num) (self : t) : t :=
  mk (self.(fitconfig)) (self.(theorydict)) (self.(bkgdict)) (self.(xdata0)) (self.(ydata0)) (self.(sigmay0)) v (self.(ydata)) (self.(sigmay)) (self.(bkg_internal_oldx)) (self.(bkg_internal_oldy)) (self.(bkg_internal_oldpars)) (self.(bkg_internal_oldbkg)) (self.(theoryfun)) (self.(bkgfun)) (self.(modelderiv)) (self.(final_theory)) (self.(paramlist)) (self.(state)) (self.(chisq)) (self.(zz)) (self.(events)) (self.(objects)).
Definition set_ydata (v : list num) (self : t) : t :=
  mk (self.(fitconfig)) (self.(theorydict)) (self.(bkgdict)) (self.(xdata0)) (self.(ydata0)) (self.(sigmay0)) (self.(xdata)) v (self.(sigmay)) (self.(bkg_internal_oldx)) (self.(bkg_internal_oldy)) (self.(bkg_internal_oldpars)) (self.(bkg_internal_oldbkg)) (self.(theoryfun)) (self.(bkgfun)) (self.(modelderiv)) (self.(final_theory)) (self.(paramlist)) (self.(state)) (self.(chisq)) (self.(zz)) (self.(events)) (self.(objects)).
Definition set_sigmay (v : list num) (self : t) : t :=
  mk (self.(fitconfig)) (self.(theorydict)) (self.(bkgdict)) (self.(xdata0)) (self.(ydata0)) (self.(sigmay0)) (self.(xdata)) (self.(ydata)) v (self.(bkg_internal_oldx)) (self.(bkg_internal_oldy)) (self.(bkg_internal_oldpars)) (self.(bkg_internal_oldbkg)) (self.(theoryfun)) (self.(bkgfun)) (self.(modelderiv)) (self.(final_theory)) (self.(paramlist)) (self.(state)) (self.(chisq)) (self.(zz)) (self.(events)) (self.(objects)).
Definition set_bkg_internal_oldx (v : list num) (self : t) : t :=
  mk (self.(fitconfig)) (self.(theorydict)) (self.(bkgdict)) (self.(xdata0)) (self.(ydata0)) (self.(sigmay0)) (self.(xdata)) (self.(ydata)) (self.(sigmay)) v (self.(bkg_internal_oldy)) (self.(bkg_internal_oldpars)) (self.(bkg_internal_oldbkg)) (self.(theoryfun)) (self.(bkgfun)) (self.(modelderiv)) (self.(final_theory)) (self.(paramlist)) (self.(state)) (self.(chisq)) (self.(zz)) (self.(events)) (self.(objects)).
Definition set_bkg_internal_oldy (v : list num) (self : t) : t :=
  mk (self.(fitconfig)) (self.(theorydict)) (self.(bkgdict)) (self.(xdata0)) (self.(ydata0)) (self.(sigmay0)) (self.(xdata)) (self.(ydata)) (self.(sigmay)) (self.(bkg_internal_oldx)) v (self.(bkg_internal_oldpars)) (self.(bkg_internal_oldbkg)) (self.(theoryfun)) (self.(bkgfun)) (self.(modelderiv)) (self.(final_theory)) (self.(paramlist)) (self.(state)) (self.(chisq)) (self.(zz)) (self.(events)) (self.(objects)).
Definition set_bkg_internal_oldpars (v : list num) (self : t) : t :=
  mk (self.(fitconfig)) (self.(theorydict)) (self.(bkgdict)) (self.(xdata0)) (self.(ydata0)) (self.(sigmay0)) (self.(xdata)) (self.(ydata)) (self.(sigmay)) (self.(bkg_internal_oldx)) (self.(bkg_internal_oldy)) v (self.(bkg_internal_oldbkg)) (self.(theoryfun)) (self.(bkgfun)) (self.(modelderiv)) (self.(final_theory)) (self.(paramlist)) (self.(state)) (self.(chisq)) (self.(zz)) (self.(events)) (self.(objects)).
Definition set_bkg_internal_oldbkg (v : list num) (self : t) : t :=
  mk (self.(fitconfig)) (self.(theorydict)) (self.(bkgdict)) (self.(xdata0)) (self.(ydata0)) (self.(sigmay0)) (self.(xdata)) (self.(ydata)) (self.(sigmay)) (self.(bkg_internal_oldx)) (self.(bkg_internal_oldy)) (self.(bkg_internal_oldpars)) v (self.(theoryfun)) (self.(bkgfun)) (self.(modelderiv)) (self.(final_theory)) (self.(paramlist)) (self.(state)) (self.(chisq)) (self.(zz)) (self.(events)) (self.(objects)).
Definition set_theoryfun (v : option model_fun) (self : t) : t :=
  mk (self.(fitconfig)) (self.(theorydict)) (self.(bkgdict)) (self.(xdata0)) (self.(ydata0)) (self.(sigmay0)) (self.(xdata)) (self.(ydata)) (self.(sigmay)) (self.(bkg_internal_oldx)) (self.(bkg_internal_oldy)) (self.(bkg_internal_oldpars)) (self.(bkg_internal_oldbkg)) v (self.(bkgfun)) (self.(modelderiv)) (self.(final_theory)) (self.(paramlist)) (self.(state)) (self.(chisq)) (self.(zz)) (self.(events)) (self.(objects)).
Definition set_bkgfun (v : option bkg_function) (self : t) : t :=
  mk (self.(fitconfig)) (self.(theorydict)) (self.(bkgdict)) (self.(xdata0)) (self.(ydata0)) (self.(sigmay0)) (self.(xdata)) (self.(ydata)) (self.(sigmay)) (self.(bkg_internal_oldx)) (self.(bkg_internal_oldy)) (self.(bkg_internal_oldpars)) (self.(bkg_internal_oldbkg)) (self.(theoryfun)) v (self.(modelderiv)) (self.(final_theory)) (self.(paramlist)) (self.(state)) (self.(chisq)) (self.(zz)) (self.(events)) (self.(objects)).
Definition set_modelderiv (v : option bool) (self : t) : t :=
  mk (self.(fitconfig)) (self.(theorydict)) (self.(bkgdict)) (self.(xdata0)) (self.(ydata0)) (self.(sigmay0)) (self.(xdata)) (self.(ydata)) (self.(sigmay)) (self.(bkg_internal_oldx)) (self.(bkg_internal_oldy)) (self.(bkg_internal_oldpars)) (self.(bkg_internal_oldbkg)) (self.(theoryfun)) (self.(bkgfun)) v (self.(final_theory)) (self.(paramlist)) (self.(state)) (self.(chisq)) (self.(zz)) (self.(events)) (self.(objects)).
Definition set_final_theory (v : list string) (self : t) : t :=
  mk (self.(fitconfig)) (self.(theorydict)) (self.(bkgdict)) (self.(xdata0)) (self.(ydata0)) (self.(sigmay0)) (self.(xdata)) (self.(ydata)) (self.(sigmay)) (self.(bkg_internal_oldx)) (self.(bkg_internal_oldy)) (self.(bkg_internal_oldpars)) (self.(bkg_internal_oldbkg)) (self.(theoryfun)) (self.(bkgfun)) (self.(modelderiv)) v (self.(paramlist)) (self.(state)) (self.(chisq)) (self.(zz)) (self.(events)) (self.(objects)).
Definition set_paramlist (v : list param) (self : t) : t :=
  mk (self.(fitconfig)) (self.(theorydict)) (self.(bkgdict)) (self.(xdata0)) (self.(ydata0)) (self.(sigmay0)) (self.(xdata)) (self.(ydata)) (self.(sigmay)) (self.(bkg_internal_oldx)) (self.(bkg_internal_oldy)) (self.(bkg_internal_oldpars)) (self.(bkg_internal_oldbkg)) (self.(theoryfun)) (self.(bkgfun)) (self.(modelderiv)) (self.(final_theory)) v (self.(state)) (self.(chisq)) (self.(zz)) (self.(events)) (self.(objects)).
Definition set_state (v : option string) (self : t) : t :=
  mk (self.(fitconfig)) (self.(theorydict)) (self.(bkgdict)) (self.(xdata0)) (self.(ydata0)) (self.(sigmay0)) (self.(xdata)) (self.(ydata)) (self.(sigmay)) (self.(bkg_internal_oldx)) (self.(bkg_internal_oldy)) (self.(bkg_internal_oldpars)) (self.(bkg_internal_oldbkg)) (self.(theoryfun)) (self.(bkgfun)) (self.(modelderiv)) (self.(final_theory)) (self.(paramlist)) v (self.(chisq)) (self.(zz)) (self.(events)) (self.(objects)).
Definition set_chisq (v : option num) (self : t) : t :=
  mk (self.(fitconfig)) (self.(theorydict)) (self.(bkgdict)) (self.(xdata0)) (self.(ydata0)) (self.(sigmay0)) (self.(xdata)) (self.(ydata)) (self.(sigmay)) (self.(bkg_internal_oldx)) (self.(bkg_internal_oldy)) (self.(bkg_internal_oldpars)) (self.(bkg_internal_oldbkg)) (self.(theoryfun)) (self.(bkgfun)) (self.(modelderiv)) (self.(final_theory)) (self.(paramlist)) (self.(state)) v (self.(zz)) (self.(events)) (self.(objects)).
Definition set_zz (v : list num) (self : t) : t :=
  mk (self.(fitconfig)) (self.(theorydict)) (self.(bkgdict)) (self.(xdata0)) (self.(ydata0)) (self.(sigmay0)) (self.(xdata)) (self.(ydata)) (self.(sigmay)) (self.(bkg_internal_oldx)) (self.(bkg_internal_oldy)) (self.(bkg_internal_oldpars)) (self.(bkg_internal_oldbkg)) (self.(theoryfun)) (self.(bkgfun)) (self.(modelderiv)) (self.(final_theory)) (self.(paramlist)) (self.(state)) (self.(chisq)) v (self.(events)) (self.(objects)).
Definition set_events (v : list (option num * string)) (self : t) : t :=
  mk (self.(fitconfig)) (self.(theorydict)) (self.(bkgdict)) (self.(xdata0)) (self.(ydata0)) (self.(sigmay0)) (self.(xdata)) (self.(ydata)) (self.(sigmay)) (self.(bkg_internal_oldx)) (self.(bkg_internal_oldy)) (self.(bkg_internal_oldpars)) (self.(bkg_internal_oldbkg)) (self.(theoryfun)) (self.(bkgfun)) (self.(modelderiv)) (self.(final_theory)) (self.(paramlist)) (self.(state)) (self.(chisq)) (self.(zz)) v (self.(objects)).
Definition set_objects (v : SpecfitFunctions.store) (self : t) : t :=
  mk (self.(fitconfig)) (self.(theorydict)) (self.(bkgdict)) (self.(xdata0)) (self.(ydata0)) (self.(sigmay0)) (self.(xdata)) (self.(ydata)) (self.(sigmay)) (self.(bkg_internal_oldx)) (self.(bkg_internal_oldy)) (self.(bkg_internal_oldpars)) (self.(bkg_internal_oldbkg)) (self.(theoryfun)) (self.(bkgfun)) (self.(modelderiv)) (self.(final_theory)) (self.(paramlist)) (self.(state)) (self.(chisq)) (self.(zz)) (self.(events)) v.

Definition modify (f : t -> t) : M t unit := fun self => (Ok tt, f self).

(** [self.eh.event(FitStatusChanged, data={'chisq': ..., 'status': ...})] *)
Definition send_event : M t unit :=
  fun self =>
    (Ok tt, set_events (events self ++ [(chisq self,
                                         match state self with Some s => s | None => "" end)])
                       self).

(** ** __init__ and setdata *)

(** [numpy.arange(n)] *)
Definition arange (n : nat) : list num := map (fun i => of_Z (Z.of_nat i)) (seq 0 n).

Definition setdata (x y sigmay_ : option (list num)) (xmin xmax : option num)
  : M t unit :=
  match y with
  | None =>
      modify (fun self =>
                set_sigmay [] (set_ydata [] (set_xdata []
                  (set_sigmay0 [] (set_ydata0 [] (set_xdata0 [] self))))))
  | Some y =>
      modify (fun self => set_ydata y (set_ydata0 y self)) ;;;
      modify (fun self =>
                match x with
                | None => let a := arange (List.length (ydata0 self)) in
                          set_xdata a (set_xdata0 a self)
                | Some x => set_xdata x (set_xdata0 x self)
                end) ;;;
      modify (fun self =>
                match sigmay_ with
                | None => let a := ones (List.length (ydata self)) in
                          set_sigmay a (set_sigmay0 a self)
                | Some s => set_sigmay s (set_sigmay0 s self)
                end) ;;;
      self <~ get ;;
      let windowed := match xmin, xmax with None, None => false | _, _ => true end in
      if andb windowed (negb (Nat.eqb (List.length (xdata self)) 0)) then
        xmin <~ lift (match xmin with Some v => Ok v | None => py_min (xdata self) end) ;;
        xmax <~ lift (match xmax with Some v => Ok v | None => py_max (xdata self) end) ;;
        let bool_array := map (fun v => andb (geb v xmin) (leb v xmax)) (xdata self) in
        xd <~ lift (bool_index (xdata self) bool_array) ;;
        modify (set_xdata xd) ;;;
        self <~ get ;;
        yd <~ lift (bool_index (ydata self) bool_array) ;;
        modify (set_ydata yd) ;;;
        self <~ get ;;
        sd <~ lift (bool_index (sigmay self) bool_array) ;;
        modify (set_sigmay sd)
      else ret tt
  end.

(** The object [__init__] builds before it calls [setdata]. *)
Definition blank (auto_fwhm fwhm_points auto_scaling yscaling sensitivity
                  residuals_flag mca_mode : pyval) : t :=
  {| fitconfig :=
       [ ("AutoFwhm", auto_fwhm); ("FwhmPoints", fwhm_points);
         ("AutoScaling", auto_scaling); ("Yscaling", yscaling);
         ("Sensitivity", sensitivity); ("ResidualsFlag", residuals_flag);
         ("McaMode", mca_mode); ("fitbkg", VStr "No Background");
         ("fittheory", VNone) ];
     theorydict := [];
     bkgdict :=
       [ ("No Background", {| b_function := BkgNone; b_parameters := [];
                              b_estimate := None |});
         ("Constant", {| b_function := BkgConstant; b_parameters := ["Constant"];
                         b_estimate := Some BuiltinBkg |});
         ("Linear", {| b_function := BkgLinear; b_parameters := ["Constant"; "Slope"];
                       b_estimate := Some BuiltinBkg |});
         ("Internal", {| b_function := BkgInternal;
                         b_parameters := ["Curvature"; "Iterations"; "Constant"];
                         b_estimate := Some BuiltinBkg |}) ];
     xdata0 := []; ydata0 := []; sigmay0 := [];
     xdata := []; ydata := []; sigmay := [];
     bkg_internal_oldx := []; bkg_internal_oldy := [];
     bkg_internal_oldpars := [zero; zero]; bkg_internal_oldbkg := [];
     theoryfun := None; bkgfun := None; modelderiv := None;
     final_theory := []; paramlist := [];
     state := None; chisq := None; zz := [];
     events := [];
     objects := SpecfitFunctions.module_store |}.

(** [Specfit(x, y, sigmay)] with the default keyword arguments. *)
Definition init (x y sigmay_ : option (list num)) : res unit * t :=
  (setdata x y sigmay_ None None ;;; modify (set_final_theory []))
    (blank (VInt 0) (VInt 8) (VBool false) (VFloat one) (VFloat (dec 25 1))
           (VInt 0) (VInt 0)).

(** ** The registries *)

Definition addtheory (theory_name : string) (function : model_fun)
           (parameters : list string) (estimate : option estimator)
           (configure : option (dict pyval -> M SpecfitFunctions.store (dict pyval)))
           (derivative : option (list num -> Z -> list num -> res (list num)))
  : M t unit :=
  modify (fun self =>
            set_theorydict
              (dset (theorydict self) theory_name
                    {| t_function := function; t_parameters := parameters;
                       t_estimate := estimate; t_configure := configure;
                       t_derivative := derivative |}) self).

Definition addbackground (background_name : string) (function : bkg_function)
           (parameters : list string) (estimate : option bkg_estimator) : M t unit :=
  modify (fun self =>
            set_bkgdict
              (dset (bkgdict self) background_name
                    {| b_function := function; b_parameters := parameters;
                       b_estimate := estimate |}) self).

Definition settheory (theory_name : string) : M t unit :=
  self <~ get ;;
  match dget (theorydict self) theory_name with
  | Some entry =>
      modify (fun self => set_fitconfig (dset (fitconfig self) "fittheory"
                                              (VStr theory_name)) self) ;;;
      modify (set_theoryfun (Some (t_function entry))) ;;;
      modify (set_modelderiv (Some false)) ;;;
      (* [if len(self.theorydict[theory]) > 5]: an entry has five items,
         so the test fails and [modelderiv] stays [None] *)
      if (5 <? theory_len)%Z then modify (set_modelderiv (Some true)) else ret tt
  | None =>
      raise (KeyError ("No theory with name " ++ theory_name ++ " in theorydict.")%string)
  end.

Definition setbackground (theory_name : string) : M t unit :=
  self <~ get ;;
  match dget (bkgdict self) theory_name with
  | Some entry =>
      modify (fun self => set_fitconfig (dset (fitconfig self) "fitbkg"
                                              (VStr theory_name)) self) ;;;
      modify (set_bkgfun (Some (b_function entry)))
  | None =>
      raise (KeyError ("No theory with name " ++ theory_name ++ " in bkgdict.")%string)
  end.

(** ** numpy.convolve and squarefilter *)

(** [numpy.convolve(a, v, 'full')] for non-empty [a] and [v]. *)
Definition convolve_full (a v : list num) : list num :=
  map (fun k =>
         vsum (map (fun j => nth j v zero * nth (k - j) a zero)
                   (filter (fun j => andb (j <=? k)%nat (k - j <? List.length a)%nat)
                           (seq 0 (List.length v)))))
      (seq 0 (List.length a + List.length v - 1)).

(** [numpy.convolve(a, v, 0)], i.e. mode 'valid'. *)
Definition convolve_valid (a v : list num) : res (list num) :=
  match a, v with
  | [], _ | _, [] => Raise (ValueError "v cannot be empty")
  | _, _ =>
      let n := List.length a in
      let m := List.length v in
      Ok (slice (convolve_full a v) (Nat.min n m - 1) (Nat.max n m))
  end.

(** [l[a:b] = v] with a scalar [v] and [0 <= a <= b]. *)
Definition fill (l : list num) (a b : nat) (v : num) : list num :=
  firstn a l ++ repeat v (Nat.min b (List.length l) - a) ++ skipn (Nat.max a b) l.

Definition squarefilter (y : list num) (width : num) : res (list num) :=
  match y with
  | [] => Ok []
  | _ =>
      w <- py_int width ;;
      let width := (w + (w + 1) mod 2)%Z in
      let half_width := Z.quot width 2 in
      let len_coef := (2 * half_width + width)%Z in
      if (Z.of_nat (List.length y) <? len_coef)%Z then Ok y
      else if (len_coef <? 0)%Z then Raise (ValueError "negative dimensions are not allowed")
      else if (half_width =? 0)%Z then Raise ZeroDivisionError
      else
        let hw := Z.to_nat half_width in
        let wd := Z.to_nat width in
        let side := dec (-5) 1 / of_Z half_width in
        let coef := repeat side hw ++ repeat (one / of_Z width) wd ++ repeat side hw in
        c <- convolve_valid y coef ;;
        (* result[(width - 1):-(width - 1)] = numpy.convolve(y, coef, 0) *)
        let result := zeros (wd - 1) ++ c ++ zeros (wd - 1) in
        (* result[0:width - 1] = result[width - 1] *)
        v <- py_index result (width - 1) ;;
        let result := fill result 0 (wd - 1) v in
        (* result[-(width - 1):] = result[-(width + 1)] *)
        v <- py_index result (- (width + 1)) ;;
        Ok (fill result (List.length result - (wd - 1)) (List.length result) v)
  end.

(** ** Background functions *)

Definition bkg_constant (pars x : list num) : res (list num) :=
  p0 <- py_index pars 0 ;;
  Ok (map (fun o => p0 * o) (ones (List.length x))).

Definition bkg_linear (pars x : list num) : res (list num) :=
  p0 <- py_index pars 0 ;;
  p1 <- py_index pars 1 ;;
  Ok (map (fun xi => p0 + p1 * xi) x).

Definition bkg_squarefilter (pars x : list num) : res (list num) :=
  p1 <- py_index pars 1 ;;
  Ok (map (fun o => p1 * o) (ones (List.length x))).

Definition bkg_none (pars x : list num) : res (list num) :=
  Ok (zeros (List.length x)).

(** [numpy.sum(a == b) == n] *)
Definition all_equal (a b : list num) (n : nat) : res bool :=
  d <- zip_with (fun u v => if u =? v then one else zero) a b ;;
  Ok (Nat.eqb (List.length (filter (fun v => v =? one) d)) n).

(** The baseline of the last call is kept; it is reused when the
    curvature, the iteration count, [x] and [self.ydata] are those of
    that call.  Arrays are held by value. *)
Definition bkg_internal (pars x : list num) : M t (list num) :=
  self <~ get ;;
  o0 <~ lift (py_index (bkg_internal_oldpars self) 0) ;;
  p0 <~ lift (py_index pars 0) ;;
  hit <~ (if o0 =? p0 then
            o1 <~ lift (py_index (bkg_internal_oldpars self) 1) ;;
            p1 <~ lift (py_index pars 1) ;;
            if o1 =? p1 then
              if andb (Nat.eqb (List.length x) (List.length (bkg_internal_oldx self)))
                      (Nat.eqb (List.length (ydata self))
                               (List.length (bkg_internal_oldy self)))
              then
                ex <~ lift (all_equal (bkg_internal_oldx self) x (List.length x)) ;;
                if ex then
                  lift (all_equal (bkg_internal_oldy self) (ydata self)
                                  (List.length (ydata self)))
                else ret false
              else ret false
            else ret false
          else ret false) ;;
  if (hit : bool) then
    p2 <~ lift (py_index pars 2) ;;
    lift (vadd (bkg_internal_oldbkg self) (map (fun o => p2 * o) (ones (List.length x))))
  else
    modify (set_bkg_internal_oldy (ydata self)) ;;;
    modify (set_bkg_internal_oldx x) ;;;
    modify (set_bkg_internal_oldpars pars) ;;;
    x0 <~ lift (py_index x 0) ;;
    xl <~ lift (py_last x) ;;
    let idx := nonzero (map (fun v => andb (geb v x0) (leb v xl)) (xdata self)) in
    yy <~ lift (take (ydata self) idx) ;;
    p1 <~ lift (py_index pars 1) ;;
    let nrx := List.length x in
    let nry := List.length yy in
    b <~ lift (if Nat.eqb nrx nry then subac ext yy p0 p1
               else (* numpy.take(yy, numpy.arange(0, nry, 2)) *)
                 (half <- take yy (map (fun i => (2 * Z.of_nat i)%Z)
                                       (seq 0 ((nry + 1) / 2))) ;;
                  subac ext half p0 p1)) ;;
    modify (set_bkg_internal_oldbkg b) ;;;
    p2 <~ lift (py_index pars 2) ;;
    lift (vadd b (map (fun o => p2 * o) (ones (List.length x)))).

(** [self.bkgfun(pars, x)] *)
Definition call_bkg (f : bkg_function) (pars x : list num) : M t (list num) :=
  match f with
  | BkgNone => lift (bkg_none pars x)
  | BkgConstant => lift (bkg_constant pars x)
  | BkgLinear => lift (bkg_linear pars x)
  | BkgInternal => bkg_internal pars x
  | BkgSquareFilter => lift (bkg_squarefilter pars x)
  | BkgUser g => lift (g pars x)
  end.

(** ** fitfunction *)

(** [d[v]] where the key is a Python value read from [fitconfig]. *)
Definition ditem_val {V} (d : dict V) (v : pyval) : res V :=
  match v with
  | VStr s => ditem d s
  | _ => Raise (KeyError "")
  end.

(** [v == s] for a string [s]. *)
Definition is_str (v : pyval) (s : string) : bool :=
  match v with
  | VStr s' => String.eqb s' s
  | _ => false
  end.

(** [self.attr] of an attribute that may not exist yet. *)
Definition attr {A} (attr_name : string) (a : option A) : M t A :=
  lift (of_option (AttributeError attr_name) a).

(** [for i in range(nb_peaks): result += self.theoryfun(pars[...], x)] *)
Fixpoint sum_peaks (nb_bg_pars nb_peak_pars : nat) (pars x : list num)
         (peaks : list nat) (result : list num) : M t (list num) :=
  match peaks with
  | [] => ret result
  | i :: peaks' =>
      let start_par_index := (nb_bg_pars + i * nb_peak_pars)%nat in
      let end_par_index := (nb_bg_pars + (i + 1) * nb_peak_pars)%nat in
      self <~ get ;;
      f <~ attr "theoryfun" (theoryfun self) ;;
      r <~ lift (f (slice pars start_par_index end_par_index) x) ;;
      result <~ lift (vadd result r) ;;
      sum_peaks nb_bg_pars nb_peak_pars pars x peaks' result
  end.

Definition fitfunction (pars x : list num) : M t (list num) :=
  self <~ get ;;
  fitbkg_key <~ lift (ditem (fitconfig self) "fitbkg") ;;
  b <~ lift (ditem_val (bkgdict self) fitbkg_key) ;;
  let nb_bg_pars := List.length (b_parameters b) in
  fittheory_key <~ lift (ditem (fitconfig self) "fittheory") ;;
  th <~ lift (ditem_val (theorydict self) fittheory_key) ;;
  let nb_peak_pars := List.length (t_parameters th) in
  nb_peaks <~ (if Nat.eqb nb_peak_pars 0 then raise ZeroDivisionError
               else ret (Z.quot (Z.of_nat (List.length pars) - Z.of_nat nb_bg_pars)
                                (Z.of_nat nb_peak_pars))) ;;
  result <~ sum_peaks nb_bg_pars nb_peak_pars pars x
                      (seq 0 (Z.to_nat nb_peaks)) (zeros (List.length x)) ;;
  result <~ (if (0 <? nb_bg_pars)%nat then
               self <~ get ;;
               f <~ attr "bkgfun" (bkgfun self) ;;
               r <~ call_bkg f (slice pars 0 nb_bg_pars) x ;;
               lift (vadd result r)
             else ret result) ;;
  self <~ get ;;
  k <~ lift (ditem (fitconfig self) "fitbkg") ;;
  if is_str k "Square Filter" then
    p1 <~ lift (py_index pars 1) ;;
    let result := map (fun r => r - p1) result in
    p0 <~ lift (py_index pars 0) ;;
    f <~ lift (squarefilter result p0) ;;
    ret (map (fun v => p1 + v) f)
  else ret result.

(** ** num_deriv, myderiv, gendata *)

Definition num_deriv (param0 : list num) (index : Z) (t0 : list num) : M t (list num) :=
  let x := t0 in
  p <~ lift (py_index param0 index) ;;
  let delta := (p + (if p =? zero then one else zero)) * dec 1 5 in
  newpar <~ lift (py_setitem param0 index (p + delta)) ;;
  f1 <~ fitfunction newpar x ;;
  newpar <~ lift (py_setitem newpar index (p - delta)) ;;
  f2 <~ fitfunction newpar x ;;
  d <~ lift (vsub f1 f2) ;;
  ret (map (fun v => v / (two * delta)) d).

Definition myderiv (param0 : list num) (index : Z) (t0 : list num) : M t (list num) :=
  self <~ get ;;
  k <~ lift (ditem (fitconfig self) "fitbkg") ;;
  b <~ lift (ditem_val (bkgdict self) k) ;;
  let nb := Z.of_nat (List.length (b_parameters b)) in
  if (nb <=? index)%Z then
    k <~ lift (ditem (fitconfig self) "fittheory") ;;
    _ <~ lift (ditem_val (theorydict self) k) ;;
    (* [len(entry) > 5] fails: an entry has five items *)
    num_deriv param0 index t0
  else num_deriv param0 index t0.

(** [[param['fitresult'] for param in paramlist if param['code'] != 'IGNORE']] *)
Definition noigno (pl : list param) : list num :=
  map fitresult (filter (fun p => negb (String.eqb (code p) "IGNORE")) pl).

Definition gendata (x : option (list num)) (pl : option (list param)) : M t (list num) :=
  self <~ get ;;
  let x := match x with Some x => x | None => xdata self end in
  let pl := match pl with Some l => l | None => paramlist self end in
  fitfunction (noigno pl) x.

(** ** Estimation *)

Definition guess_yscaling (y : option (list num)) : M t num :=
  self <~ get ;;
  let y := match y with Some y => y | None => ydata self end in
  _ <~ lift (subac ext y one (of_Z 10)) ;;
  match y with
  | [] => raise (ValueError "v cannot be empty")
  | _ =>
      let zz := map (fun v => v / of_Z 3) (convolve_full y [one; one; one]) in
      let yy := slice y 1 (List.length y - 1) in
      let yfit := zz in
      let idx := nonzero (map (fun v => gtb (nabs v) zero) yy) in
      yy <~ lift (take yy idx) ;;
      yfit <~ lift (take yfit idx) ;;
      d <~ lift (vsub yy yfit) ;;
      q <~ lift (vdiv (map (fun v => v * v) d)
                      (map (fun v => nabs v * of_Z (Z.of_nat (List.length yy))) yy)) ;;
      let chisq := vsum q in
      ret (one / chisq)
  end.

(** [fwhm % 2] is true, for the value of ['FwhmPoints']. *)
Definition is_odd (v : pyval) : res bool :=
  match v with
  | VInt z => Ok (negb (z mod 2 =? 0)%Z)
  | VBool b => Ok b
  | VFloat f =>
      match trunc (f / two) with
      | Some q =>
          let fl := if gtb (of_Z q) (f / two) then (q - 1)%Z else q in
          Ok (neqb (f - two * of_Z fl) zero)
      | None => Ok true
      end
  | VNone => Raise (TypeError "unsupported operand type(s) for %")
  | VStr _ => Raise (TypeError "not all arguments converted during string formatting")
  end.

Definition estimate_builtin_bkg (x y : list num) : M t bkg_estimation :=
  z <~ lift (subac ext y (dec 10001 4) (of_Z 1000)) ;;
  modify (set_zz z) ;;;
  let npoints := List.length z in
  self <~ get ;;
  k <~ lift (ditem (fitconfig self) "fitbkg") ;;
  if is_str k "Constant" then
    Sy <~ lift (py_min z) ;;
    ret ([Sy], zeros2 3 1, Some z)
  else if is_str k "Internal" then
    ret ([one; of_Z 10000; zero],
         [[of_Z 3; of_Z 3; of_Z 3]; zeros 3; zeros 3], Some z)
  else if is_str k "No Background" then
    ret ([], zeros2 3 0, Some z)
  else if is_str k "Square Filter" then
    fwhm <~ lift (ditem (fitconfig self) "FwhmPoints") ;;
    odd <~ lift (is_odd fwhm) ;;
    f <~ lift (as_num fwhm) ;;
    ret ([if odd then f else f + one; zero],
         [[of_Z 3; of_Z 3]; zeros 2; zeros 2], Some z)
  else
    let S := of_Z (Z.of_nat npoints) in
    let Sy := vsum z in
    let Sx := vsum x in
    let Sxx := vsum (map (fun v => v * v) x) in
    xz <~ lift (vmul x z) ;;
    let Sxy := vsum xz in
    let deno := S * Sxx - Sx * Sx in
    let '(bg, slop) :=
      if neqb deno zero
      then ((Sxx * Sy - Sx * Sxy) / deno, (S * Sxy - Sx * Sy) / deno)
      else (zero, zero) in
    ret ([bg / one; slop / one], zeros2 3 2, Some z).

Definition estimate_bkg (x y : list num) : M t bkg_estimation :=
  self <~ get ;;
  fitbkg <~ lift (ditem (fitconfig self) "fitbkg") ;;
  b <~ lift (ditem_val (bkgdict self) fitbkg) ;;
  match b_estimate b with
  | Some BuiltinBkg => estimate_builtin_bkg x y
  | Some (UserBkg f) => lift (f x y)
  | None => ret ([], [[]; []; []], None)
  end.

Definition estimate_fun (x y z : list num) (xscaling : num) (yscaling : pyval)
  : M t (list num * list (list num)) :=
  self <~ get ;;
  fittheory <~ lift (ditem (fitconfig self) "fittheory") ;;
  th <~ lift (ditem_val (theorydict self) fittheory) ;;
  match t_estimate th with
  | Some estimatefunction =>
      (* estimatefunction(x, y, z, xscaling=xscaling, yscaling=yscaling) *)
      if forallb (fun kw => existsb (String.eqb kw) (est_keywords estimatefunction))
                 ["xscaling"; "yscaling"]
      then fun self =>
             let '(r, h) := est_call estimatefunction x y z xscaling yscaling
                                     (objects self) in
             (r, set_objects h self)
      else raise (TypeError "got an unexpected keyword argument")
  | None => ret ([], [[]; []; []])
  end.

(** Lines 509-514: the names of the peak parameters, group by group. *)
Definition peak_names (parameters : list string) (nb_estimated : nat) : res (list string) :=
  match parameters, nb_estimated with
  | _, O => Ok []
  | [], S _ => Raise Diverges           (* param_index never grows *)
  | _, _ =>
      let n := List.length parameters in
      let groups := ((nb_estimated + n - 1) / n)%nat in
      Ok (flat_map (fun peak_index =>
                      map (fun fun_param_name =>
                             (fun_param_name ++ str_of_Z (Z.of_nat peak_index))%string)
                          parameters)
                   (seq 1 groups))
  end.

(** [block[k][i]] *)
Definition item2 (block : list (list num)) (k i : Z) : res num :=
  row <- py_index block k ;;
  py_index row i.

(** [CONS[int(block[0][i])]] *)
Definition constraint_name (block : list (list num)) (i : Z) : res string :=
  c <- item2 block 0 i ;;
  n <- py_int c ;;
  py_index CONS n.

Definition rebased (constraint_code : string) : bool :=
  existsb (String.eqb constraint_code) ["FACTOR"; "DELTA"; "SUM"].

(** Lines 522-556: the entry for the name at [pindex], and the group
    number after it. *)
Definition merged_entry (bkg_esti_parameters : list num)
           (bkg_esti_constraints : list (list num))
           (fun_esti_parameters : list num)
           (fun_esti_constraints : list (list num))
           (nb_fun_params_per_group : nat) (lo hi : num)
           (group_number : Z) (pindex : Z) (pname : string) : res (param * Z) :=
  let nb_bg_params := Z.of_nat (List.length bkg_esti_parameters) in
  if (pindex <? nb_bg_params)%Z then
    estimation_value <- py_index bkg_esti_parameters pindex ;;
    constraint_code <- constraint_name bkg_esti_constraints pindex ;;
    c1 <- item2 bkg_esti_constraints 1 pindex ;;
    c2 <- item2 bkg_esti_constraints 2 pindex ;;
    Ok ({| name := pname; estimation := estimation_value; group := group_number;
           code := constraint_code; cons1 := c1; cons2 := c2;
           fitresult := zero; sigma := zero; xmin := Some lo; xmax := Some hi |},
        group_number)
  else
    let fun_param_index := (pindex - nb_bg_params)%Z in
    group_number <-
      (if Nat.eqb nb_fun_params_per_group 0 then Raise ZeroDivisionError
       else if (fun_param_index mod Z.of_nat nb_fun_params_per_group =? 0)%Z
            then Ok (group_number + 1)%Z else Ok group_number) ;;
    estimation_value <- py_index fun_esti_parameters fun_param_index ;;
    constraint_code <- constraint_name fun_esti_constraints fun_param_index ;;
    c1 <- item2 fun_esti_constraints 1 fun_param_index ;;
    let c1 := if rebased constraint_code then c1 + of_Z nb_bg_params else c1 in
    c2 <- item2 fun_esti_constraints 2 fun_param_index ;;
    Ok ({| name := pname; estimation := estimation_value; group := group_number;
           code := constraint_code; cons1 := c1; cons2 := c2;
           fitresult := zero; sigma := zero; xmin := Some lo; xmax := Some hi |},
        group_number).

(** The loop [for (pindex, pname) in enumerate(self.final_theory)]. *)
Fixpoint merge_loop (bkg_esti_parameters : list num)
         (bkg_esti_constraints : list (list num))
         (fun_esti_parameters : list num)
         (fun_esti_constraints : list (list num))
         (nb_fun_params_per_group : nat) (lo hi : num)
         (group_number : Z) (pindex : Z) (names : list string) : M t unit :=
  match names with
  | [] => ret tt
  | pname :: names' =>
      '(entry, group_number) <~
         lift (merged_entry bkg_esti_parameters bkg_esti_constraints
                            fun_esti_parameters fun_esti_constraints
                            nb_fun_params_per_group lo hi group_number pindex pname) ;;
      modify (fun self => set_paramlist (paramlist self ++ [entry]) self) ;;;
      merge_loop bkg_esti_parameters bkg_esti_constraints
                 fun_esti_parameters fun_esti_constraints
                 nb_fun_params_per_group lo hi group_number (pindex + 1)%Z names'
  end.

Definition estimate : M t (list param) :=
  modify (set_state (Some "Estimate in progress")) ;;;
  modify (set_chisq None) ;;;
  send_event ;;;
  self <~ get ;;
  let xwork := xdata self in
  let ywork := ydata self in
  (* estimate the background *)
  '(bkg_esti_parameters, bkg_esti_constraints, esti_bkg_2) <~ estimate_bkg xwork ywork ;;
  let z := match esti_bkg_2 with
           | Some z => z
           | None => zeros (List.length ywork)
           end in
  (* scaling *)
  self <~ get ;;
  auto <~ lift (ditem (fitconfig self) "AutoScaling") ;;
  yscaling <~ (if truthy auto then
                 s <~ guess_yscaling (Some ywork) ;; ret (VFloat s)
               else
                 v <~ lift (ditem (fitconfig self) "Yscaling") ;;
                 match v with
                 | VNone => ret (VFloat one)
                 | _ => ret v
                 end) ;;
  (* estimate the function *)
  '(fun_esti_parameters, fun_esti_constraints) <~
     estimate_fun xwork ywork z one yscaling ;;
  (* build the names *)
  modify (set_final_theory []) ;;;
  self <~ get ;;
  fitbkg <~ lift (ditem (fitconfig self) "fitbkg") ;;
  b <~ lift (ditem_val (bkgdict self) fitbkg) ;;
  modify (set_final_theory (b_parameters b)) ;;;
  fittheory <~ lift (ditem (fitconfig self) "fittheory") ;;
  names <~ lift (match fun_esti_parameters with
                 | [] => Ok []
                 | _ => th <- ditem_val (theorydict self) fittheory ;;
                        peak_names (t_parameters th) (List.length fun_esti_parameters)
                 end) ;;
  modify (set_final_theory (b_parameters b ++ names)) ;;;
  modify (set_paramlist []) ;;;
  th <~ lift (ditem_val (theorydict self) fittheory) ;;
  let nb_fun_params_per_group := List.length (t_parameters th) in
  lo <~ lift (py_min xwork) ;;
  hi <~ lift (py_max xwork) ;;
  merge_loop bkg_esti_parameters bkg_esti_constraints
             fun_esti_parameters fun_esti_constraints
             nb_fun_params_per_group lo hi 0%Z 0%Z (b_parameters b ++ names) ;;;
  modify (set_state (Some "Ready to Fit")) ;;;
  modify (set_chisq None) ;;;
  send_event ;;;
  self <~ get ;;
  ret (paramlist self).

(** ** startfit *)

(** [for i, param in enumerate(self.paramlist)]: write the fitted value
    and its uncertainty back, entry by entry. *)
Fixpoint write_back (found0 found2 : list num) (i : nat) (n : nat) : M t unit :=
  match n with
  | O => ret tt
  | S n' =>
      self <~ get ;;
      match nth_error (paramlist self) i with
      | None => ret tt
      | Some p =>
          (if negb (String.eqb (code p) "IGNORE") then
             r <~ lift (py_index found0 (Z.of_nat i)) ;;
             modify (fun self =>
                       set_paramlist
                         (set_nth (paramlist self) i
                            {| name := name p; estimation := estimation p;
                               group := group p; code := code p;
                               cons1 := cons1 p; cons2 := cons2 p;
                               fitresult := r; sigma := sigma p;
                               xmin := xmin p; xmax := xmax p |}) self) ;;;
             s <~ lift (py_index found2 (Z.of_nat i)) ;;
             modify (fun self =>
                       set_paramlist
                         (set_nth (paramlist self) i
                            {| name := name p; estimation := estimation p;
                               group := group p; code := code p;
                               cons1 := cons1 p; cons2 := cons2 p;
                               fitresult := r; sigma := s;
                               xmin := xmin p; xmax := xmax p |}) self)
           else ret tt) ;;;
          write_back found0 found2 (S i) n'
      end
  end.

(** The solver is handed the bound methods [self.fitfunction] and
    [self.modelderiv]; they are evaluated on the object as it is when the
    solver is called. *)
Definition startfit : M t unit :=
  modify (set_state (Some "Fit in progress")) ;;;
  modify (set_chisq None) ;;;
  send_event ;;;
  self <~ get ;;
  let pl := paramlist self in
  let param_val := map estimation pl in
  let param_constrains := (map code pl, map cons1 pl, map cons2 pl) in
  k <~ lift (ditem (fitconfig self) "fitbkg") ;;
  ywork <~ (if is_str k "Square Filter" then
              p0 <~ lift (py_index pl 0) ;;
              lift (squarefilter (ydata self) (estimation p0))
            else ret (ydata self)) ;;
  (* [param] is the variable of the loop over [self.paramlist] *)
  last_param <~ lift (of_option (NameError "param") (nth_error (rev pl) 0)) ;;
  let constrains := if String.eqb (code last_param) "FREE" then None
                    else Some param_constrains in
  md <~ attr "modelderiv" (modelderiv self) ;;
  found <~ lift (curve_fit ext (fun p x => fst (fitfunction p x self))
                           (xdata self) ywork param_val constrains
                           (if (md : bool)
                            then Some (fun p i x => fst (myderiv p i x self))
                            else None)) ;;
  let '(found0, found1, found2) := found in
  write_back found0 found2 0 (List.length pl) ;;;
  modify (set_chisq (Some found1)) ;;;
  modify (set_state (Some "Ready")) ;;;
  send_event.

(** ** The residual search of the MCA mode *)

Definition unconstrained (constraint_code : string) : bool :=
  existsb (String.eqb constraint_code) ["FREE"; "FIXED"; "QUOTED"; "POSITIVE"].

(** Lines 1215-1232: one turn of the first loop over [paramlist].  The
    state is [(fwhm, fwhmcode, fwhmcons1, fwhmcons2, i, peaks)], [i]
    being the index of the entry just seen. *)
Definition fwhm_step (st : num * string * num * num * Z * list num) (p : param)
  : num * string * num * num * Z * list num :=
  let '(fwhm, fwhmcode, fwhmcons1, fwhmcons2, i, peaks) := st in
  let i := (i + 1)%Z in
  let '(fwhm, fwhmcode, fwhmcons1, fwhmcons2) :=
    if contains "Fwhm" (name p) then
      if unconstrained (code p) then (fitresult p, "FACTOR", of_Z i, one)
      else (fitresult p, fwhmcode, fwhmcons1, fwhmcons2)
    else (fwhm, fwhmcode, fwhmcons1, fwhmcons2) in
  let peaks := if contains "Position" (name p) then peaks ++ [fitresult p] else peaks in
  (fwhm, fwhmcode, fwhmcons1, fwhmcons2, i, peaks).

Definition fwhm_scan (pl : list param) : num * string * num * num * Z * list num :=
  fold_left fwhm_step pl (of_Z 10, "POSITIVE", zero, zero, (-1)%Z, []).

(** Lines 1240-1245: one turn of the masking loop, on
    [(yfit, y, residuals)]. *)
Definition mask_step (x : list num) (fwhm : num)
           (st : list num * list num * list num) (peak : num)
  : res (list num * list num * list num) :=
  let '(yfit, y, residuals) := st in
  let idx := map (fun v => if orb (v <? peak - dec 8 1 * fwhm)
                                  (gtb v (peak + dec 8 1 * fwhm))
                           then one else zero) x in
  yfit <- vmul yfit idx ;;
  y <- vmul y idx ;;
  residuals <- vmul residuals idx ;;
  Ok (yfit, y, residuals).

(** The Gaussian area of a peak of the given height and width. *)
Definition residual_area (height fwhm : num) : num :=
  (height * fwhm / (two * nsqrt (two * nlog2))) * nsqrt (two * npi).

(** Lines 1257-1292: the loop over the parameter names of the theory.
    The state is [(newpar, newcodes, areanotdone)]; [None] is the early
    [return [], [[], [], []]]. *)
Definition new_peak_step (pos height fwhm : num) (fwhmcode : string)
           (fwhmcons1 fwhmcons2 : num)
           (st : option (list num * (list string * list num * list num) * bool))
           (pname : string)
  : option (list num * (list string * list num * list num) * bool) :=
  match st with
  | None => None
  | Some (newpar, (codes, c1s, c2s), areanotdone) =>
      let push estimation code c1 c2 done :=
        Some (newpar ++ [estimation],
              (codes ++ [code], c1s ++ [c1], c2s ++ [c2]), done) in
      if contains "Position" pname then
        push pos "QUOTED" (pos - dec 5 1 * fwhm) (pos + dec 5 1 * fwhm) areanotdone
      else if contains "Area" pname then
        if (areanotdone : bool) then
          let area := residual_area height fwhm in
          if area <=? zero then None
          else push area "POSITIVE" zero zero false
        else push zero "FIXED" zero zero areanotdone
      else if contains "Fwhm" pname then
        push fwhm fwhmcode fwhmcons1 fwhmcons2 areanotdone
      else push zero "FIXED" zero zero areanotdone
  end.

Definition no_peak : list num * (list string * list num * list num) :=
  ([], ([], [], [])).

(** [mcaresidualssearch()] with its default arguments.  The products
    [y *= idx] are made in place on [self.ydata]. *)
Definition mcaresidualssearch
  : M t (list num * (list string * list num * list num)) :=
  self <~ get ;;
  let x := xdata self in
  let y := ydata self in
  let pl := paramlist self in
  k <~ lift (ditem (fitconfig self) "fitbkg") ;;
  if is_str k "Square Filter" then
    p0 <~ lift (py_index pl 0) ;;
    _ <~ lift (squarefilter y (estimation p0)) ;;
    ret no_peak
  else
    let '(fwhm, fwhmcode, fwhmcons1, fwhmcons2, _, peaks) := fwhm_scan pl in
    (* calculate the residuals *)
    yfit <~ gendata (Some x) (Some pl) ;;
    self <~ get ;;
    d <~ lift (vsub y yfit) ;;
    residuals <~ lift (vdiv d (map (fun s => s + (if s =? zero then one else zero))
                                   (sigmay self))) ;;
    (* set to zero all the residuals around peaks *)
    masked <~ lift (foldM (mask_step x fwhm) peaks (yfit, y, residuals)) ;;
    let '(yfit, y, residuals) := masked in
    modify (set_ydata y) ;;;
    (* estimate the position *)
    maxres <~ lift (py_max residuals) ;;
    let idx := nonzero (map (fun r => r =? maxres) residuals) in
    xs <~ lift (take x idx) ;;
    pos <~ lift (py_last xs) ;;
    (* estimate the height *)
    d <~ lift (vsub y yfit) ;;
    hs <~ lift (take d idx) ;;
    height <~ lift (py_last hs) ;;
    if height <=? zero then ret no_peak
    else
      self <~ get ;;
      ft <~ lift (ditem (fitconfig self) "fittheory") ;;
      th <~ lift (ditem_val (theorydict self) ft) ;;
      match fold_left (new_peak_step pos height fwhm fwhmcode fwhmcons1 fwhmcons2)
                      (t_parameters th) (Some ([], ([], [], []), true)) with
      | Some (newpar, newcodes, _) => ret (newpar, newcodes)
      | None => ret no_peak
      end.

(** Lines 1035-1051 of [mcafit]: the entries for the new peak. *)
Definition new_group (pl : list param) : Z :=
  fold_left (fun newg p => Z.max newg (group p + 1)) pl 1%Z.

Fixpoint append_group (newg : Z) (newpar : list num)
         (newcons : list string * list num * list num)
         (i : Z) (names : list string) : M t unit :=
  match names with
  | [] => ret tt
  | pname :: names' =>
      let i := (i + 1)%Z in
      let '(codes, c1s, c2s) := newcons in
      e <~ lift (py_index newpar i) ;;
      c <~ lift (py_index codes i) ;;
      c1 <~ lift (py_index c1s i) ;;
      c2 <~ lift (py_index c2s i) ;;
      modify (fun self =>
                set_paramlist
                  (paramlist self ++
                     [{| name := (pname ++ str_of_Z newg)%string; estimation := e;
                         group := newg; code := c; cons1 := c1; cons2 := c2;
                         fitresult := zero; sigma := zero;
                         xmin := None; xmax := None |}]) self) ;;;
      append_group newg newpar newcons i names'
  end.

Definition restart_from_fit (p : param) : param :=
  {| name := name p; estimation := fitresult p; group := group p; code := code p;
     cons1 := cons1 p; cons2 := cons2 p; fitresult := fitresult p; sigma := sigma p;
     xmin := xmin p; xmax := xmax p |}.

(** Lines 1032-1054: [while self.chisq > 2.5].  The result is [true]
    when the loop is left, [false] when [fuel] turns did not leave it. *)
Fixpoint residuals_loop (fuel : nat) : M t bool :=
  match fuel with
  | O => ret false
  | S fuel' =>
      self <~ get ;;
      c <~ lift (of_option (TypeError "'>' not supported between NoneType and float")
                           (chisq self)) ;;
      if gtb c (dec 25 1) then
        '(newpar, newcons) <~ mcaresidualssearch ;;
        match newpar with
        | [] => ret true                               (* break *)
        | _ =>
            self <~ get ;;
            let newg := new_group (paramlist self) in
            modify (fun self => set_paramlist (map restart_from_fit (paramlist self)) self) ;;;
            self <~ get ;;
            ft <~ lift (ditem (fitconfig self) "fittheory") ;;
            th <~ lift (ditem_val (theorydict self) ft) ;;
            append_group newg newpar newcons (-1)%Z (t_parameters th) ;;;
            startfit ;;;
            residuals_loop fuel'
        end
      else ret true
  end.

(** Lines 1027-1054: the fit of one region. *)
Definition mcafit_region (fuel : nat) : M t bool :=
  _ <~ estimate ;;
  self <~ get ;;
  if match state self with Some s => String.eqb s "Ready to Fit" | None => false end then
    startfit ;;;
    self <~ get ;;
    match chisq self with
    | Some _ =>
        r <~ lift (ditem (fitconfig self) "ResidualsFlag") ;;
        if truthy r then residuals_loop fuel else ret true
    | None => ret true
    end
  else ret true.

(** ** mcaregions *)

(** [min(a, b)] and [max(a, b)] of Python on two floats. *)
Definition min2 (a b : num) : num := if b <? a then b else a.
Definition max2 (a b : num) : num := if a <? b then b else a.

(** Lines 1066-1076: one turn of the loop over [peaks]; a region is the
    pair [[x0, x1]]. *)
Definition region_step (mindelta plusdelta xdata0 xdata1 : num)
           (regions : list (num * num)) (peak : num) : list (num * num) :=
  let x0 := max2 (peak - mindelta) xdata0 in
  let x1 := min2 (peak + plusdelta) xdata1 in
  match rev regions with
  | [] => [(x0, x1)]
  | (a, b) :: before =>
      if x0 <? a then rev before ++ [(x0, b)]            (* regions[-1][0] = x0 *)
      else if x0 <? b then rev before ++ [(a, x1)]       (* regions[-1][1] = x1 *)
      else regions ++ [(x0, x1)]
  end.

Definition mcaregions (peaks : list num) (fwhm : num) : M t (list (num * num)) :=
  let mindelta := of_Z 3 * fwhm in
  let plusdelta := of_Z 3 * fwhm in
  self <~ get ;;
  first <~ lift (py_index (xdata self) 0) ;;
  last <~ lift (py_index (xdata self) (-1)) ;;
  let xdata0 := min2 first last in
  first <~ lift (py_index (xdata self) 0) ;;
  last <~ lift (py_index (xdata self) (-1)) ;;
  let xdata1 := max2 first last in
  ret (fold_left (region_step mindelta plusdelta xdata0 xdata1) peaks []).

(** ** configure *)

(** [d.update(d2)] *)
Definition update {V} (d d2 : dict V) : dict V :=
  fold_left (fun r kv => dset r (fst kv) (snd kv)) d2 d.

(** [for key in self.fitconfig.keys(): if key in d: self.fitconfig[key] = d[key]] *)
Definition take_from (d : dict pyval) : M t unit :=
  self <~ get ;;
  forM (dkeys (fitconfig self))
       (fun key =>
          match dget d key with
          | Some v => modify (fun self => set_fitconfig (dset (fitconfig self) key v) self)
          | None => ret tt
          end).

(** [self.setbackground(v)] and [self.settheory(v)] on a value of
    [fitconfig]: a value that is not a string is no key of the
    dictionary (the text of the message is not modelled for it). *)
Definition setbackground_value (v : pyval) : M t unit :=
  match v with
  | VStr s => setbackground s
  | _ => raise (KeyError "No theory with that name in bkgdict.")
  end.

Definition settheory_value (v : pyval) : M t unit :=
  match v with
  | VStr s => settheory s
  | _ => raise (KeyError "No theory with that name in theorydict.")
  end.

(** Lines 954-961: one turn of the last loop of [configure]. *)
Definition configure_turn (kw : dict pyval) (key : string) : M t unit :=
  (match dget kw key with
   | Some v => modify (fun self => set_fitconfig (dset (fitconfig self) key v) self)
   | None => ret tt
   end) ;;;
  (if String.eqb key "fitbkg" then
     self <~ get ;;
     v <~ lift (ditem (fitconfig self) key) ;;
     setbackground_value v
   else ret tt) ;;;
  (if String.eqb key "fittheory" then
     self <~ get ;;
     ft <~ lift (ditem (fitconfig self) "fittheory") ;;
     match ft with
     | VNone => ret tt
     | _ =>
         v <~ lift (ditem (fitconfig self) key) ;;
         settheory_value v
     end
   else ret tt).

Definition configure (kw : dict pyval) : M t (dict pyval) :=
  take_from kw ;;;
  self <~ get ;;
  let result := update [] (fitconfig self) in
  ft <~ lift (ditem (fitconfig self) "fittheory") ;;
  result <~ match ft with
            | VNone => ret result
            | _ =>
                match (match ft with
                       | VStr s => dget (theorydict self) s
                       | _ => None
                       end) with
                | Some th =>
                    match t_configure th with
                    | Some f =>
                        r <~ (fun self => let '(r, h) := f kw (objects self) in
                                          (r, set_objects h self)) ;;
                        let result := update result r in
                        (* take care of possible user interfaces *)
                        take_from result ;;;
                        ret result
                    | None => ret result
                    end
                | None => ret result
                end
            end ;;
  (* make sure fitconfig is configured in case of having the same keys *)
  self <~ get ;;
  forM (dkeys (fitconfig self)) (configure_turn kw) ;;;
  self <~ get ;;
  ret (update result (fitconfig self)).
End Defs.
End Specfit.

(* ================================================================== *)
(** * Notions used in the statements *)

Section Notions.
Context {N : Numeric}.
Import SpecfitFunctions.

(** One turn of the loop of [heights_to_areas]. *)
Definition area_step (area : num -> num -> num) (fp : list num) (i : nat) : list num :=
  set_nth fp (3 * i) (area (nth (3 * i) fp zero) (nth (3 * i + 2) fp zero)).

(** What a wrapper makes of the outcome of the base estimator. *)
Definition with_areas (area : num -> num -> num)
           (base : res (list num * list (list num)) * store)
  : res (list num * list (list num)) * store :=
  (match fst base with
   | Ok (fittedpar, constraints) => Ok (heights_to_areas area fittedpar, constraints)
   | Raise e => Raise e
   end, snd base).



(** Stand-ins for the imported routines, to run the code on examples: a
    peak search that reports [peaks], a width guess of 4, a preliminary
    fit and a solver that return the parameters they were given (with
    chi square [chi2]), and a baseline [subac] that is [base] everywhere. *)
Definition sample_externals (peaks : list Z) (base chi2 : num) : Externals :=
  {| peak_search := fun _ _ _ => Ok peaks;
     guess_fwhm := fun _ => Ok 4%Z;
     leastsq := fun _ _ p _ => Ok p;
     subac := fun y _ _ => Ok (map (fun _ => base) y);
     curve_fit := fun _ _ _ p _ _ => Ok (p, chi2, p) |}.



(** Every row of the block has three entries. *)
Definition rows3 (c : list (list num)) : Prop :=
  Forall (fun r => List.length r = 3%nat) c.




(** Twenty samples with a peak of height 9 at index 4 and one of height 5
    at index 14, over a flat level of 1. *)
Definition sample_x : list num := map (fun i => of_Z (Z.of_nat i)) (seq 0 20).
Definition sample_y : list num :=
  map of_Z [1; 1; 1; 1; 9; 1; 1; 1; 1; 1; 1; 1; 1; 1; 5; 1; 1; 1; 1; 1]%Z.
End Notions.

(** Notions for the residual search of the MCA mode. *)
Section ResidualNotions.
Context {N : Numeric}.
Import Specfit.

(** [s'] has the configuration, the theories and the parameter list of [s]. *)
Definition same_model (s s' : Specfit.t) : Prop :=
  fitconfig s' = fitconfig s
  /\ theorydict s' = theorydict s
  /\ paramlist s' = paramlist s.

(** A computation that leaves them as they are, whatever it returns. *)
Definition frames {A} (m : M Specfit.t A) : Prop :=
  forall s r s', m s = (r, s') -> same_model s s'.

(** The width, and the code and the two constraint values for the width
    of a new peak, that the first loop of [mcaresidualssearch] leaves. *)
Definition fwhm_of (pl : list param) : num :=
  let '(fwhm, _, _, _, _, _) := fwhm_scan pl in fwhm.







(** A theory with the parameters [Area], [Position], [Fwhm]: a box of
    the given area and width around the position. *)
Definition box_theory : model_fun :=
  fun pars x =>
    area <- py_index pars 0 ;;
    pos <- py_index pars 1 ;;
    fwhm <- py_index pars 2 ;;
    Ok (map (fun v => if leb (nabs (sub v pos)) (div fwhm two)
                      then div area fwhm else zero) x).

(** An entry of [paramlist] after a fit that returned [v]. *)
Definition fitted (pname : string) (g : Z) (c : string) (v : num) : param :=
  {| name := pname; estimation := v; group := g; code := c;
     cons1 := zero; cons2 := zero; fitresult := v; sigma := zero;
     xmin := None; xmax := None |}.

(** Two boxes, of height 8 around 4 and of height 5 around 14, and a
    sample of 6 at 9 that no box accounts for. *)
Definition bump_y : list num :=
  map of_Z [0; 0; 0; 8; 8; 8; 0; 0; 0; 6; 0; 0; 0; 5; 5; 5; 0; 0; 0; 0]%Z.

(** A driver on those data after a fit of two boxes with a chi square
    of 4: every width is [POSITIVE]. *)
Definition residual_fit : Specfit.t :=
  set_chisq (Some (of_Z 4))
    (set_paramlist
       [fitted "Area1" 1 "POSITIVE" (of_Z 16); fitted "Position1" 1 "FREE" (of_Z 4);
        fitted "Fwhm1" 1 "POSITIVE" (of_Z 2);
        fitted "Area2" 2 "POSITIVE" (of_Z 10); fitted "Position2" 2 "FREE" (of_Z 14);
        fitted "Fwhm2" 2 "POSITIVE" (of_Z 2)]
       (snd ((addtheory "Area Boxes" box_theory ["Area"; "Position"; "Fwhm"]
                        None None None ;;;
              settheory "Area Boxes")
               (snd (init (Some sample_x) (Some bump_y) None))))).
End ResidualNotions.

(** Notions for the properties of the code beyond the specification. *)
Section CodeNotions.
Context {N : Numeric}.
Import Specfit.

(** A computation on the driver that relates the object it leaves to the
    object it was given by [R], whatever it returns. *)
Definition keeping (R : Specfit.t -> Specfit.t -> Prop) {A} (m : M Specfit.t A) : Prop :=
  forall s r s', m s = (r, s') -> R s s'.

(** [s'] is [s] up to the baseline that [bkg_internal] keeps from its
    last call. *)
Definition same_but_cache (s s' : Specfit.t) : Prop :=
  fitconfig s' = fitconfig s /\ theorydict s' = theorydict s
  /\ bkgdict s' = bkgdict s
  /\ xdata0 s' = xdata0 s /\ ydata0 s' = ydata0 s /\ sigmay0 s' = sigmay0 s
  /\ xdata s' = xdata s /\ ydata s' = ydata s /\ sigmay s' = sigmay s
  /\ theoryfun s' = theoryfun s /\ bkgfun s' = bkgfun s
  /\ modelderiv s' = modelderiv s /\ final_theory s' = final_theory s
  /\ paramlist s' = paramlist s /\ state s' = state s /\ chisq s' = chisq s
  /\ zz s' = zz s /\ events s' = events s /\ objects s' = objects s.

(** The object [Specfit()] builds with its default arguments, before any
    data are set. *)
Definition fresh_driver : Specfit.t :=
  blank (VInt 0) (VInt 8) (VBool false) (VFloat one) (VFloat (dec 25 1)) (VInt 0) (VInt 0).
End CodeNotions.

Section EstimateNotions.
Context {N : Numeric} (ext : Externals).

(** The instance [fitfuns = SpecfitFunctions()] of the module. *)
Definition fitfuns : SpecfitFunctions.t := SpecfitFunctions.init None.

(** A stand-in for the imported [functions.sum_gauss]. *)
Definition sum_gauss : model_fun := fun _ x => Ok (zeros (List.length x)).

(** The method [estimate_height_position_fwhm] as the list [ESTIMATE] of
    the module holds it. *)
Definition method_estimator : Specfit.estimator :=
  Specfit.bound_estimator (SpecfitFunctions.estimate_height_position_fwhm ext fitfuns).

(** A driver on the sample data with the theory [Gaussians] registered
    with that method and selected, and the background [Constant]. *)
Definition gaussians_fit : Specfit.t :=
  snd ((Specfit.addtheory "Gaussians" sum_gauss ["Height"; "Position"; "FWHM"]
                          (Some method_estimator) None None ;;;
        Specfit.settheory "Gaussians" ;;;
        Specfit.setbackground "Constant")
         (snd (Specfit.init (Some sample_x) (Some sample_y) None))).

(** The object goes on holding the selected theory [th] under the key
    [ft], and the parameter list [pl]. *)
Definition holds_theory (ft : pyval) (th : Specfit.theory) (pl : list Specfit.param)
           (s : Specfit.t) : Prop :=
  ditem (Specfit.fitconfig s) "fittheory" = Ok ft
  /\ Specfit.ditem_val (Specfit.theorydict s) ft = Ok th
  /\ Specfit.paramlist s = pl.

(** A computation that raises from every object on which [P] holds, and
    leaves an object on which [P] holds. *)
Definition always_raises (P : Specfit.t -> Prop) {A} (m : M Specfit.t A) : Prop :=
  forall s, P s -> exists e s', m s = (Raise e, s') /\ P s'.
End EstimateNotions.

Section StartfitNotions.
Context {N : Numeric}.

(** The imported routines, with a solver that is never given the
    constraints. *)
Definition unconstrained_solver (ext : Externals) : Externals :=
  {| peak_search := peak_search ext;
     guess_fwhm := guess_fwhm ext;
     leastsq := leastsq ext;
     subac := subac ext;
     curve_fit := fun model x y p0 _ deriv => curve_fit ext model x y p0 None deriv |}.

(** [p'] is [p] up to the fit result and its uncertainty. *)
Definition same_definition (p p' : Specfit.param) : Prop :=
  Specfit.name p' = Specfit.name p
  /\ Specfit.estimation p' = Specfit.estimation p
  /\ Specfit.group p' = Specfit.group p
  /\ Specfit.code p' = Specfit.code p
  /\ Specfit.cons1 p' = Specfit.cons1 p
  /\ Specfit.cons2 p' = Specfit.cons2 p
  /\ Specfit.xmin p' = Specfit.xmin p
  /\ Specfit.xmax p' = Specfit.xmax p.
End StartfitNotions.

Section RegionNotions.
Local Open Scope R_scope.

(** Each peak is at least the one before; [q] comes first. *)
Fixpoint ascending (q : R) (peaks : list R) : Prop :=
  match peaks with
  | [] => True
  | p :: rest => q <= p /\ ascending p rest
  end.

(** The regions are intervals that follow one another without
    overlapping: each one ends before any later one starts. *)
Fixpoint chained (regions : list (R * R)) : Prop :=
  match regions with
  | [] => True
  | (a, b) :: rest => a <= b /\ Forall (fun r => b <= fst r) rest /\ chained rest
  end.
End RegionNotions.

Section MaskNotions.
Context {N : Numeric}.
Import Specfit.
Local Open Scope num_scope.

(** The positions the residual search masks: the fit results of the
    entries whose name holds [Position], in the order of the list. *)
Definition fitted_positions (pl : list param) : list num :=
  map fitresult (filter (fun p => contains "Position" (name p)) pl).

(** The factor of the masking loop for the abscissa [v] and one peak:
    [0] within [0.8 * fwhm] of the peak, [1] outside. *)
Definition mask_factor (fwhm peak v : num) : num :=
  if orb (v <? peak - dec 8 1 * fwhm) (gtb v (peak + dec 8 1 * fwhm))
  then one else zero.

(** The fit of [residual_fit] with [fitconfig['fitbkg']] set to
    [Square Filter]. *)
Definition square_filter_fit : Specfit.t :=
  set_fitconfig (dset (fitconfig residual_fit) "fitbkg" (VStr "Square Filter"))
                residual_fit.
End MaskNotions.

Section BlockNotions.
Context {N : Numeric}.
Import SpecfitFunctions.
Local Open Scope num_scope.

(** The entry [c[r, k]] of a constraint block. *)
Definition cell (c : list (list num)) (r k : nat) : num := nth k (nth r c []) zero.

(** [c[r, k] = v] *)
Definition put2 (c : list (list num)) (r k : nat) (v : num) : list (list num) :=
  set_nth c r (set_nth (nth r c []) k v).

(** The peak whose width the others are tied to by [estimate_pvoigt]
    and [estimate_splitpvoigt]: the last of the [n] peaks whose width
    has not the code 4, the first peak when there is none. *)
Definition last_untied (cons : list (list num)) (n : nat) : nat :=
  fold_left (fun j i => if neqb (cell cons (3 * i + 2) 0) (of_Z 4) then i else j)
            (seq 0 n) 0%nat.

(** The row of eta. *)
Definition eta_row (quoted : bool) : list num :=
  if quoted then [of_Z CQUOTED; zero; one] else [zero; zero; zero].

(** The samples of [sample_y] with the heights of the two peaks
    exchanged: the second peak is the largest. *)
Definition tall_second_y : list num :=
  map of_Z [1; 1; 1; 1; 5; 1; 1; 1; 1; 1; 1; 1; 1; 1; 9; 1; 1; 1; 1; 1]%Z.
End BlockNotions.

Section CacheNotions.
Context {N : Numeric}.

(** Imported routines that all raise: a run that returns with them
    has called none. *)
Definition failing_externals : Externals :=
  {| peak_search := fun _ _ _ => Raise (ValueError "peak_search");
     guess_fwhm := fun _ => Raise (ValueError "guess_fwhm");
     leastsq := fun _ _ _ _ => Raise (ValueError "leastsq");
     subac := fun _ _ _ => Raise (ValueError "subac");
     curve_fit := fun _ _ _ _ _ _ => Raise (ValueError "curve_fit") |}.
End CacheNotions.

Section ConfigureNotions.
Context {N : Numeric}.
Import Specfit.

(** [s'] has the keys of [fitconfig], the registered theories and
    backgrounds, the working data and the parameter list of [s]. *)
Definition same_settings (s s' : Specfit.t) : Prop :=
  dkeys (fitconfig s') = dkeys (fitconfig s)
  /\ theorydict s' = theorydict s
  /\ bkgdict s' = bkgdict s
  /\ xdata s' = xdata s /\ ydata s' = ydata s /\ sigmay s' = sigmay s
  /\ paramlist s' = paramlist s.
End ConfigureNotions.

(* ================================================================== *)
(** * Properties *)

(** ** Selecting a theory or a background *)

Section Registry.
Context {N : Numeric}.

Lemma settheory_unknown (self : Specfit.t) (theory_name : string) :
  dget (Specfit.theorydict self) theory_name = None ->
  exists msg, Specfit.settheory theory_name self = (Raise (KeyError msg), self).
Proof.
  intros H. unfold Specfit.settheory, bindM, get. rewrite H.
  eexists. reflexivity.
Qed.

Lemma setbackground_unknown (self : Specfit.t) (theory_name : string) :
  dget (Specfit.bkgdict self) theory_name = None ->
  exists msg, Specfit.setbackground theory_name self = (Raise (KeyError msg), self).
Proof.
  intros H. unfold Specfit.setbackground, bindM, get. rewrite H.
  eexists. reflexivity.
Qed.

(** C8.  [settheory] with a name that is not a key of [theorydict], and
    [setbackground] with a name that is not a key of [bkgdict], raise
    [KeyError] and return the object exactly as it was: [fitconfig],
    [theoryfun], [bkgfun], [modelderiv] and every other attribute are
    those of before the call. *)
Theorem unknown_selection_raises_and_keeps_state
        (self : Specfit.t) (theory_name : string) :
  (dmem (Specfit.theorydict self) theory_name = false ->
   exists msg, Specfit.settheory theory_name self = (Raise (KeyError msg), self))
  /\
  (dmem (Specfit.bkgdict self) theory_name = false ->
   exists msg, Specfit.setbackground theory_name self = (Raise (KeyError msg), self)).
Proof.
  unfold dmem. split; intros H.
  - apply settheory_unknown.
    destruct (dget (Specfit.theorydict self) theory_name); [discriminate | reflexivity].
  - apply setbackground_unknown.
    destruct (dget (Specfit.bkgdict self) theory_name); [discriminate | reflexivity].
Qed.

(** A registered name is selected: the attributes named in the
    docstrings are updated. *)
Lemma settheory_known (self : Specfit.t) (theory_name : string) (entry : Specfit.theory) :
  dget (Specfit.theorydict self) theory_name = Some entry ->
  exists self',
    Specfit.settheory theory_name self = (Ok tt, self')
    /\ dget (Specfit.fitconfig self') "fittheory" = Some (VStr theory_name)
    /\ Specfit.theoryfun self' = Some (Specfit.t_function entry)
    /\ Specfit.modelderiv self' = Some false.
Proof.
  intros H. unfold Specfit.settheory, bindM, get. rewrite H.
  eexists. split; [reflexivity |]. cbn.
  repeat split.
  generalize (Specfit.fitconfig self) as d.
  induction d as [| [k v] d IH]; cbn.
  - reflexivity.
  - destruct (String.eqb k "fittheory") eqn:E; cbn; rewrite E; auto.
Qed.
End Registry.

(** ** setdata *)

Section Setdata.
Context {N : Numeric}.

(** C5 (as the code has it).  [setdata] does not compare the lengths of
    [x] and [y]: called without a window it never raises, whatever the two
    lengths are, and stores both sequences as they were given, as the
    original and as the working data. *)
Theorem setdata_stores_without_length_check
        (self : Specfit.t) (x y : list num) (sigmay_ : option (list num)) :
  exists self',
    Specfit.setdata (Some x) (Some y) sigmay_ None None self = (Ok tt, self')
    /\ Specfit.xdata0 self' = x /\ Specfit.xdata self' = x
    /\ Specfit.ydata0 self' = y /\ Specfit.ydata self' = y.
Proof.
  eexists. split.
  - unfold Specfit.setdata, bindM, Specfit.modify, get, ret. cbn. reflexivity.
  - destruct sigmay_; cbn; auto.
Qed.
End Setdata.

(** C5, the claim as written fails: [x] of length 3 and [y] of length 2
    are accepted, nothing is raised, and the stored data are replaced. *)
Lemma setdata_length_mismatch_accepted :
  let self := Specfit.blank (N := Float64.numeric) (VInt 0) (VInt 8) (VBool false)
                            (VFloat 1%float) (VFloat 2.5%float) (VInt 0) (VInt 0) in
  let r := Specfit.setdata (N := Float64.numeric) (Some [0; 1; 2]%float) (Some [5; 6]%float) None None None self in
  fst r = Ok tt
  /\ Specfit.xdata0 (snd r) = [0; 1; 2]%float
  /\ Specfit.ydata0 (snd r) = [5; 6]%float
  /\ Specfit.xdata0 self = []
  /\ Specfit.ydata0 self = [].
Proof. cbv zeta. repeat split. Qed.

(** ** Dictionaries and the store *)

Section DictFacts.
Context {V : Type}.

Lemma dget_dset_same (d : dict V) (k : string) (v : V) :
  dget (dset d k v) k = Some v.
Proof.
  induction d as [| [k' v'] d IH]; cbn.
  - rewrite String.eqb_refl. reflexivity.
  - destruct (String.eqb k' k) eqn:E; cbn; rewrite E; auto.
Qed.

Lemma dget_dset_other (d : dict V) (k k' : string) (v : V) :
  k' <> k -> dget (dset d k v) k' = dget d k'.
Proof.
  intros Hne. induction d as [| [k0 v0] d IH]; cbn.
  - destruct (String.eqb k k') eqn:E; [| reflexivity].
    apply String.eqb_eq in E. congruence.
  - destruct (String.eqb k0 k) eqn:E; cbn.
    + apply String.eqb_eq in E. subst k0.
      destruct (String.eqb k k') eqn:E'; [| reflexivity].
      apply String.eqb_eq in E'. congruence.
    + destruct (String.eqb k0 k'); auto.
Qed.
End DictFacts.

Section StoreFacts.
Context {N : Numeric}.
Import SpecfitFunctions.

Lemma nth_set_nth_same {A} (l : list A) (i : nat) (v d : A) :
  (i < List.length l)%nat -> nth i (set_nth l i v) d = v.
Proof.
  revert i. induction l as [| a l IH]; intros [| i] H; cbn in *; try lia; auto.
  apply IH. lia.
Qed.

Lemma nth_set_nth_other {A} (l : list A) (i j : nat) (v d : A) :
  i <> j -> nth j (set_nth l i v) d = nth j l d.
Proof.
  revert i j. induction l as [| a l IH]; intros [| i] [| j] H; cbn; auto; try congruence.
Qed.

Lemma length_set_nth {A} (l : list A) (i : nat) (v : A) :
  List.length (set_nth l i v) = List.length l.
Proof.
  revert i. induction l as [| a l IH]; intros [| i]; cbn; auto.
Qed.

Lemma load_write_same (h : store) (l : loc) (d : dict pyval) :
  (l < List.length h)%nat -> load (write h l d) l = d.
Proof. apply nth_set_nth_same. Qed.

Lemma load_write_other (h : store) (l l' : loc) (d : dict pyval) :
  l <> l' -> load (write h l d) l' = load h l'.
Proof. apply nth_set_nth_other. Qed.

(** *** configure *)

Lemma dget_map_hit (d : dict pyval) (hit : string -> bool) (v : pyval) (k : string) :
  dget (map (fun kv => if hit (fst kv) then (fst kv, v) else kv) d) k
  = match dget d k with
    | Some v' => Some (if hit k then v else v')
    | None => None
    end.
Proof.
  induction d as [| [k0 v0] d IH]; cbn; [reflexivity |].
  destruct (hit k0) eqn:Hh; cbn.
  - destruct (String.eqb k0 k) eqn:E; [| exact IH].
    apply String.eqb_eq in E. subst. rewrite Hh. reflexivity.
  - destruct (String.eqb k0 k) eqn:E; [| exact IH].
    apply String.eqb_eq in E. subst. rewrite Hh. reflexivity.
Qed.

Lemma existsb_hit_dget (d : dict pyval) (hit : string -> bool) :
  existsb (fun kv => hit (fst kv)) d = true ->
  exists k v, dget d k = Some v /\ hit k = true.
Proof.
  induction d as [| [k0 v0] d IH]; cbn; [discriminate |].
  destruct (hit k0) eqn:Hh; cbn.
  - intros _. exists k0, v0. rewrite String.eqb_refl. auto.
  - intros H. destruct (IH H) as (k & v & Hg & Hk).
    exists k, v. split; [| exact Hk].
    destruct (String.eqb k0 k) eqn:E; [| exact Hg].
    apply String.eqb_eq in E. congruence.
Qed.

Lemma not_existsb_hit_dget (d : dict pyval) (hit : string -> bool) (k : string) (v : pyval) :
  existsb (fun kv => hit (fst kv)) d = false ->
  dget d k = Some v -> hit k = false.
Proof.
  induction d as [| [k0 v0] d IH]; cbn; [discriminate |].
  intros H. apply orb_false_iff in H. destruct H as [H0 H1].
  destruct (String.eqb k0 k) eqn:E.
  - apply String.eqb_eq in E. subst. auto.
  - auto.
Qed.

(** After one keyword is handled, every key equal to it up to case holds
    its value, and there is such a key. *)
Lemma configure_key_sets (d : dict pyval) (key : string) (v : pyval) :
  (exists k', dget (configure_key d key v) k' = Some v /\ lower k' = lower key)
  /\ (forall k' v', dget (configure_key d key v) k' = Some v' ->
                    lower k' = lower key -> v' = v).
Proof.
  unfold configure_key. cbv zeta.
  change (fun kv : string * pyval => String.eqb (lower (fst kv)) (lower key))
    with (fun kv : string * pyval =>
            (fun k : string => String.eqb (lower k) (lower key)) (fst kv)).
  change (fun kv : string * pyval =>
            if String.eqb (lower (fst kv)) (lower key) then (fst kv, v) else kv)
    with (fun kv : string * pyval =>
            if (fun k : string => String.eqb (lower k) (lower key)) (fst kv)
            then (fst kv, v) else kv).
  set (hit := fun k : string => String.eqb (lower k) (lower key)).
  destruct (existsb (fun kv => hit (fst kv)) d) eqn:Hex.
  - split.
    + destruct (existsb_hit_dget _ _ Hex) as (k & v0 & Hg & Hk).
      exists k. rewrite dget_map_hit, Hg, Hk. split; [reflexivity |].
      apply String.eqb_eq. exact Hk.
    + intros k' v' Hg Hl. rewrite dget_map_hit in Hg.
      destruct (dget d k'); [| discriminate].
      assert (Hk : hit k' = true) by (apply String.eqb_eq; exact Hl).
      rewrite Hk in Hg. congruence.
  - split.
    + exists key. rewrite dget_dset_same. auto.
    + intros k' v' Hg Hl.
      destruct (String.eqb k' key) eqn:E.
      * apply String.eqb_eq in E. subst. rewrite dget_dset_same in Hg. congruence.
      * apply String.eqb_neq in E. rewrite dget_dset_other in Hg by exact E.
        rewrite dget_map_hit in Hg.
        destruct (dget d k') eqn:Hd; [| discriminate].
        pose proof (not_existsb_hit_dget _ _ _ Hex Hd) as Hn.
        unfold hit in Hn. apply String.eqb_neq in Hn. contradiction.
Qed.

(** C9.  An instance built with [config=None] holds the address of the
    module-level [SPECFITFUNCTIONS_DEFAULTS], not a copy.  So when one
    such instance [a] is configured with keyword arguments (the last of
    them [key=v]), any other such instance [b] reads the updated
    dictionary through its own [config]: it is the dictionary [configure]
    returned, every key of it equal to [key] up to case holds [v], and
    there is such a key. *)
Theorem default_instances_share_config
        (h : store) (kw0 : dict pyval) (key : string) (v : pyval) :
  (DEFAULTS_loc < List.length h)%nat ->
  let a := init None in
  let b := init None in
  let r := configure a (kw0 ++ [(key, v)]) h in
  config a = DEFAULTS_loc /\ config b = DEFAULTS_loc
  /\ fst r = Ok (load (snd r) (config b))
  /\ load (snd r) DEFAULTS_loc
     = fold_left (fun d kv => configure_key d (fst kv) (snd kv)) (kw0 ++ [(key, v)])
                 (load h DEFAULTS_loc)
  /\ (exists k', config_item b k' (snd r) = (Ok v, snd r) /\ lower k' = lower key)
  /\ (forall k' v', config_item b k' (snd r) = (Ok v', snd r) ->
                    lower k' = lower key -> v' = v).
Proof.
  intros Hh a b r.
  assert (Hr : r = (Ok (fold_left (fun d kv => configure_key d (fst kv) (snd kv))
                                  (kw0 ++ [(key, v)]) (load h DEFAULTS_loc)),
                    write h DEFAULTS_loc
                          (fold_left (fun d kv => configure_key d (fst kv) (snd kv))
                                     (kw0 ++ [(key, v)]) (load h DEFAULTS_loc)))).
  { unfold r, configure. cbn [a init config].
    destruct (kw0 ++ [(key, v)]) eqn:E; [| reflexivity].
    destruct kw0; discriminate. }
  rewrite Hr. cbn [fst snd b init config].
  rewrite load_write_same by exact Hh.
  split; [reflexivity |]. split; [reflexivity |].
  split; [reflexivity |]. split; [reflexivity |].
  split.
  - destruct (configure_key_sets
                (fold_left (fun d kv => configure_key d (fst kv) (snd kv)) kw0
                           (load h DEFAULTS_loc)) key v) as [(k' & Hg & Hl) _].
    exists k'. unfold config_item. cbn [config].
    rewrite load_write_same by exact Hh.
    rewrite fold_left_app. cbn [fold_left fst snd].
    unfold ditem. rewrite Hg. auto.
  - intros k' v' Hg Hl. unfold config_item in Hg. cbn [config] in Hg.
    rewrite load_write_same in Hg by exact Hh.
    rewrite fold_left_app in Hg. cbn [fold_left fst snd] in Hg.
    destruct (configure_key_sets
                (fold_left (fun d kv => configure_key d (fst kv) (snd kv)) kw0
                           (load h DEFAULTS_loc)) key v) as [_ Hall].
    unfold ditem in Hg.
    destruct (dget _ k') eqn:Hd; cbn in Hg; [| discriminate].
    inversion Hg; subst. eapply Hall; eauto.
Qed.

(** An instance given a dictionary of its own is not affected. *)
Lemma own_config_not_shared (h : store) (l : loc) (kw : dict pyval) :
  l <> DEFAULTS_loc ->
  load (snd (configure (init None) kw h)) (config (init (Some l))) = load h l.
Proof.
  intros Hl. unfold configure. cbn [init config].
  destruct kw; cbn [snd]; [reflexivity |].
  apply load_write_other. congruence.
Qed.
End StoreFacts.

(** C9 on the store of the imported module: configuring one default
    instance with [sensitivity=7] is seen by another one under the key
    ['Sensitivity']. *)
Lemma default_instances_share_config_run :
  (SpecfitFunctions.DEFAULTS_loc
   < List.length (SpecfitFunctions.module_store (N := Float64.numeric)))%nat
  /\
  let a := SpecfitFunctions.init None in
  let b := SpecfitFunctions.init None in
  let r := SpecfitFunctions.configure a ([] ++ [("sensitivity", VInt 7)])
                                      (SpecfitFunctions.module_store (N := Float64.numeric)) in
  SpecfitFunctions.config a = SpecfitFunctions.DEFAULTS_loc
  /\ SpecfitFunctions.config b = SpecfitFunctions.DEFAULTS_loc
  /\ fst r = Ok (SpecfitFunctions.load (snd r) (SpecfitFunctions.config b))
  /\ SpecfitFunctions.load (snd r) SpecfitFunctions.DEFAULTS_loc
     = fold_left (fun d kv => SpecfitFunctions.configure_key d (fst kv) (snd kv))
                 ([] ++ [("sensitivity", VInt 7)])
                 (SpecfitFunctions.load SpecfitFunctions.module_store
                                        SpecfitFunctions.DEFAULTS_loc)
  /\ (exists k', SpecfitFunctions.config_item b k' (snd r) = (Ok (VInt 7), snd r)
                 /\ lower k' = lower "sensitivity")
  /\ (forall k' v', SpecfitFunctions.config_item b k' (snd r) = (Ok v', snd r) ->
                    lower k' = lower "sensitivity" -> v' = VInt 7).
Proof.
  split.
  - unfold SpecfitFunctions.DEFAULTS_loc, SpecfitFunctions.module_store.
    cbn [List.length]. lia.
  - apply (default_instances_share_config
             (SpecfitFunctions.module_store (N := Float64.numeric)) []
             "sensitivity" (VInt 7)).
    unfold SpecfitFunctions.DEFAULTS_loc, SpecfitFunctions.module_store.
    cbn [List.length]. lia.
Defined.

(** ** Height to area *)

Section HeightsToAreas.
Context {N : Numeric}.
Import SpecfitFunctions.


Lemma nth_set_nth {A} (l : list A) (i k : nat) (v d : A) :
  nth k (set_nth l i v) d
  = if andb (Nat.eqb k i) (i <? List.length l)%nat then v else nth k l d.
Proof.
  revert i k. induction l as [| a l IH]; intros i k.
  - cbn. rewrite andb_false_r. destruct i, k; reflexivity.
  - destruct i as [| i], k as [| k]; cbn; auto.
Qed.

(** The loop over [range(npeaks)], started at peak [a]: entry [3 * i] of
    every peak [a <= i < a + n] becomes the area computed from the
    entries [3 * i] and [3 * i + 2] of the input; nothing else moves. *)
Lemma areas_fold (area : num -> num -> num) (n a : nat) (fp : list num) :
  (3 * (a + n) <= List.length fp)%nat ->
  let out := fold_left (area_step area) (seq a n) fp in
  List.length out = List.length fp
  /\ forall k,
       nth k out zero
       = if andb (Nat.eqb (k mod 3) 0) (andb (3 * a <=? k)%nat (k <? 3 * (a + n))%nat)
         then area (nth k fp zero) (nth (k + 2) fp zero)
         else nth k fp zero.
Proof.
  revert a fp. induction n as [| n IH]; intros a fp Hlen; cbn [seq fold_left].
  - split; [reflexivity |]. intros k.
    destruct (andb (Nat.eqb (k mod 3) 0) _) eqn:E; [| reflexivity].
    apply andb_true_iff in E. destruct E as [_ E].
    apply andb_true_iff in E. destruct E as [E1 E2].
    apply Nat.leb_le in E1. apply Nat.ltb_lt in E2. lia.
  - specialize (IH (S a) (area_step area fp a)).
    assert (Hl : List.length (area_step area fp a) = List.length fp)
      by apply length_set_nth.
    rewrite Hl in IH.
    destruct IH as [IHl IHk]; [lia |].
    split; [exact IHl |]. intros k. rewrite IHk.
    unfold area_step. rewrite !nth_set_nth.
    assert (Hin : (3 * a <? List.length fp)%nat = true) by (apply Nat.ltb_lt; lia).
    rewrite Hin, !andb_true_r.
    destruct (Nat.eqb (k mod 3) 0) eqn:Em; cbn [andb].
    + apply Nat.eqb_eq in Em.
      destruct (3 * S a <=? k)%nat eqn:E1; cbn [andb].
      * apply Nat.leb_le in E1.
        assert (E0 : (3 * a <=? k)%nat = true) by (apply Nat.leb_le; lia).
        rewrite E0. cbn [andb].
        replace (k <? 3 * (a + S n))%nat with (k <? 3 * (S a + n))%nat
          by (f_equal; lia).
        destruct (k <? 3 * (S a + n))%nat; [| ].
        -- assert (Nat.eqb k (3 * a) = false) as -> by (apply Nat.eqb_neq; lia).
           assert (Nat.eqb (k + 2) (3 * a) = false) as -> by (apply Nat.eqb_neq; lia).
           reflexivity.
        -- assert (Nat.eqb k (3 * a) = false) as -> by (apply Nat.eqb_neq; lia).
           reflexivity.
      * apply Nat.leb_gt in E1.
        destruct (Nat.eqb k (3 * a)) eqn:Ek.
        -- apply Nat.eqb_eq in Ek. subst k.
           rewrite Nat.leb_refl. cbn [andb].
           assert ((3 * a <? 3 * (a + S n))%nat = true) as ->
               by (apply Nat.ltb_lt; lia).
           reflexivity.
        -- apply Nat.eqb_neq in Ek.
           assert ((3 * a <=? k)%nat = false) as ->; [| reflexivity].
           apply Nat.leb_gt.
           assert (k mod 3 < 3)%nat by (apply Nat.mod_upper_bound; lia).
           pose proof (Nat.div_mod_eq k 3). lia.
    + destruct (Nat.eqb k (3 * a)) eqn:Ek; [| reflexivity].
      apply Nat.eqb_eq in Ek. subst k.
      rewrite Nat.mul_comm, Nat.Div0.mod_mul in Em. discriminate.
Qed.

(** What [heights_to_areas] does to the parameters of peak [i]. *)
Lemma heights_to_areas_spec (area : num -> num -> num) (fp : list num) (i : nat) :
  (3 * i + 2 < List.length fp)%nat ->
  List.length (heights_to_areas area fp) = List.length fp
  /\ nth (3 * i) (heights_to_areas area fp) zero
     = area (nth (3 * i) fp zero) (nth (3 * i + 2) fp zero)
  /\ nth (3 * i + 1) (heights_to_areas area fp) zero = nth (3 * i + 1) fp zero
  /\ nth (3 * i + 2) (heights_to_areas area fp) zero = nth (3 * i + 2) fp zero.
Proof.
  intros Hi. unfold heights_to_areas.
  assert (Hn : (3 * (0 + List.length fp / 3) <= List.length fp)%nat).
  { cbn [Nat.add]. apply Nat.Div0.mul_div_le. }
  destruct (areas_fold area (List.length fp / 3) 0 fp Hn) as [Hl Hk].
  change (fun (fp0 : list num) (i0 : nat) =>
            set_nth fp0 (3 * i0)
                    (area (nth (3 * i0) fp0 zero) (nth (3 * i0 + 2) fp0 zero)))
    with (area_step area).
  assert (Hdiv : (i < List.length fp / 3)%nat).
  { assert (S i <= List.length fp / 3)%nat; [| lia].
    apply Nat.div_le_lower_bound; lia. }
  split; [exact Hl |].
  rewrite !Hk. cbn [Nat.add].
  assert (E0 : (3 * i) mod 3 = 0%nat) by (rewrite Nat.mul_comm; apply Nat.Div0.mod_mul).
  assert (E1 : (3 * i + 1) mod 3 = 1%nat).
  { rewrite Nat.add_comm, Nat.mul_comm, Nat.Div0.mod_add. reflexivity. }
  assert (E2 : (3 * i + 2) mod 3 = 2%nat).
  { rewrite Nat.add_comm, Nat.mul_comm, Nat.Div0.mod_add. reflexivity. }
  rewrite E0, E1, E2. cbn [Nat.eqb andb].
  assert ((3 * 0 <=? 3 * i)%nat = true) as -> by (apply Nat.leb_le; lia).
  assert ((3 * i <? 3 * (List.length fp / 3))%nat = true) as ->
      by (apply Nat.ltb_lt; lia).
  cbn [andb]. auto.
Qed.
End HeightsToAreas.

Section AreaEstimators.
Import SpecfitFunctions.
Local Open Scope R_scope.

Lemma gauss_area_real (H w : R) :
  gauss_area (N := Reals.numeric) H w = H * w * sqrt (2 * PI) / (2 * sqrt (2 * ln 2)).
Proof. unfold gauss_area, two. cbn. unfold Rdiv. ring. Qed.

Lemma lorentz_area_real (H w : R) :
  lorentz_area (N := Reals.numeric) H w = H * w * PI / 2.
Proof.
  unfold lorentz_area, dec. change (10 ^ Z.of_nat 1)%Z with 10%Z. cbn. field.
Qed.


Lemma estimate_agauss_unfold {N : Numeric} (ext : Externals) (self : t)
      (x y : list num) (bg : option (list num)) (yscaling : pyval) (h : store) :
  estimate_agauss ext self x y bg yscaling h
  = with_areas gauss_area (estimate_height_position_fwhm ext self x y bg yscaling h).
Proof.
  unfold estimate_agauss, with_areas, bindM.
  destruct (estimate_height_position_fwhm ext self x y bg yscaling h) as [[[fp c] | e] h'];
    reflexivity.
Qed.

Lemma estimate_alorentz_unfold {N : Numeric} (ext : Externals) (self : t)
      (x y : list num) (bg : option (list num)) (yscaling : pyval) (h : store) :
  estimate_alorentz ext self x y bg yscaling h
  = with_areas lorentz_area (estimate_height_position_fwhm ext self x y bg yscaling h).
Proof.
  unfold estimate_alorentz, with_areas, bindM.
  destruct (estimate_height_position_fwhm ext self x y bg yscaling h) as [[[fp c] | e] h'];
    reflexivity.
Qed.

(** C3.  [estimate_agauss] and [estimate_alorentz] return what
    [estimate_height_position_fwhm] returns (the same constraints, the
    same store, the same exception if it raises) with the parameters
    passed through [heights_to_areas].  Over the reals, for every peak
    [i] of the base estimate with height [H], position [p] and width [w],
    the result holds [H * w * sqrt(2 pi) / (2 sqrt(2 ln 2))] (Gaussian),
    respectively [H * w * pi / 2] (Lorentzian), in place of [H], and [p]
    and [w] where they were.  In binary64, the parameters
    [(1000, 500, 20)] give a first element within 0.25 of 21289.5 (it is
    21289.3403886...). *)
Theorem area_estimators_replace_heights :
  (forall (ext : Externals (N := Reals.numeric)) self x y bg yscaling h,
      estimate_agauss ext self x y bg yscaling h
      = with_areas gauss_area (estimate_height_position_fwhm ext self x y bg yscaling h)
      /\ estimate_alorentz ext self x y bg yscaling h
         = with_areas lorentz_area
                      (estimate_height_position_fwhm ext self x y bg yscaling h))
  /\ (forall (fittedpar : list R) (i : nat),
         (3 * i + 2 < List.length fittedpar)%nat ->
         let H := nth (3 * i) fittedpar 0 in
         let p := nth (3 * i + 1) fittedpar 0 in
         let w := nth (3 * i + 2) fittedpar 0 in
         let g := heights_to_areas (N := Reals.numeric) gauss_area fittedpar in
         let l := heights_to_areas (N := Reals.numeric) lorentz_area fittedpar in
         List.length g = List.length fittedpar
         /\ nth (3 * i) g 0 = H * w * sqrt (2 * PI) / (2 * sqrt (2 * ln 2))
         /\ nth (3 * i + 1) g 0 = p /\ nth (3 * i + 2) g 0 = w
         /\ List.length l = List.length fittedpar
         /\ nth (3 * i) l 0 = H * w * PI / 2
         /\ nth (3 * i + 1) l 0 = p /\ nth (3 * i + 2) l 0 = w)
  /\ (exists a : float,
         heights_to_areas (N := Float64.numeric) gauss_area [1000; 500; 20]%float
         = [a; 500; 20]%float
         /\ PrimFloat.ltb 21289.25 a = true /\ PrimFloat.ltb a 21289.75 = true).
Proof.
  split; [| split].
  - intros. split; [apply estimate_agauss_unfold | apply estimate_alorentz_unfold].
  - intros fp i Hi H p w g l.
    destruct (heights_to_areas_spec (N := Reals.numeric) gauss_area fp i Hi)
      as (Hgl & Hg0 & Hg1 & Hg2).
    destruct (heights_to_areas_spec (N := Reals.numeric) lorentz_area fp i Hi)
      as (Hll & Hl0 & Hl1 & Hl2).
    unfold zero in *. cbn [of_Z Reals.numeric] in *.
    repeat split; try assumption.
    + unfold g. rewrite Hg0. apply gauss_area_real.
    + unfold l. rewrite Hl0. apply lorentz_area_real.
  - eexists. split; [reflexivity |]. split; reflexivity.
Qed.
End AreaEstimators.

(** ** The settings of the peak search *)

Section SearchSettings.
Context {N : Numeric}.
Variable ext : Externals.
Import SpecfitFunctions.



Lemma bindM_Ok {S A B} (m : M S A) (k : A -> M S B) (s s' : S) (b : B) :
  bindM m k s = (Ok b, s') ->
  exists a s1, m s = (Ok a, s1) /\ k a s1 = (Ok b, s').
Proof.
  unfold bindM. destruct (m s) as [[a | e] s1]; intros H; [| discriminate].
  exists a, s1. auto.
Qed.

Lemma bind_Ok {A B} (r : res A) (k : A -> res B) (b : B) :
  bind r k = Ok b -> exists a, r = Ok a /\ k a = Ok b.
Proof. destruct r as [a | e]; cbn; intros H; [eauto | discriminate]. Qed.


End SearchSettings.

(** ** Facts about the real instance *)

Section RealFacts.
Local Open Scope R_scope.



Lemma real_eqb_true (a b : R) : Reals.real_eqb a b = true <-> a = b.
Proof.
  unfold Reals.real_eqb. destruct (Req_dec_T a b); split; auto; discriminate.
Qed.




End RealFacts.

(** ** Clamping instead of failing *)

Section Clamping.
Import SpecfitFunctions.

Lemma bindM_ext {S A B} (m : M S A) (k k' : A -> M S B) (s : S) :
  (forall a s1, m s = (Ok a, s1) -> k a s1 = k' a s1) ->
  bindM m k s = bindM m k' s.
Proof.
  intros H. unfold bindM. destruct (m s) as [[a | e] s1]; [| reflexivity].
  apply H. reflexivity.
Qed.



Local Open Scope R_scope.

End Clamping.


(** ** The clamps are written to the configuration *)

Section ClampWrites.
Import SpecfitFunctions.



Local Open Scope R_scope.

End ClampWrites.



(** ** The final constraint block *)

Section FinalConstraints.
Context {N : Numeric}.
Import SpecfitFunctions.

Lemma py_index_nat {A} (l : list A) (i : nat) (d : A) :
  (i < List.length l)%nat -> py_index l (Z.of_nat i) = Ok (nth i l d).
Proof.
  intros H. unfold py_index.
  assert ((0 <=? Z.of_nat i)%Z = true) as -> by (apply Z.leb_le; lia).
  rewrite Nat2Z.id. rewrite (nth_error_nth' l d H). reflexivity.
Qed.

Lemma py_setitem_nat {A} (l : list A) (i : nat) (v : A) :
  (i < List.length l)%nat -> py_setitem l (Z.of_nat i) v = Ok (set_nth l i v).
Proof.
  intros H. unfold py_setitem.
  assert ((0 <=? Z.of_nat i)%Z = true) as -> by (apply Z.leb_le; lia).
  assert ((Z.of_nat i <? Z.of_nat (List.length l))%Z = true) as -> by (apply Z.ltb_lt; lia).
  cbn [andb]. rewrite Nat2Z.id. reflexivity.
Qed.

Lemma set_nth_twice {A} (l : list A) (i : nat) (v w : A) :
  set_nth (set_nth l i v) i w = set_nth l i w.
Proof.
  revert i. induction l as [| a l IH]; intros [| i]; cbn; auto. rewrite IH. reflexivity.
Qed.

(** Writing one entry of a row that has three. *)
Lemma set2_Ok (c : list (list num)) (r : nat) (col : nat) (v : num) :
  (r < List.length c)%nat -> (col < List.length (nth r c []))%nat ->
  set2 c (Z.of_nat r) (Z.of_nat col) v = Ok (set_nth c r (set_nth (nth r c []) col v)).
Proof.
  intros Hr Hc. unfold set2.
  rewrite (py_index_nat c [] Hr). cbn [bind].
  rewrite (py_setitem_nat _ v Hc). cbn [bind].
  apply py_setitem_nat. exact Hr.
Qed.







Lemma rows3_nth (c : list (list num)) (k : nat) :
  rows3 c -> (k < List.length c)%nat -> List.length (nth k c []) = 3%nat.
Proof.
  intros H Hk. unfold rows3 in H. rewrite Forall_forall in H.
  apply H. apply nth_In. exact Hk.
Qed.

Lemma rows3_set_nth (c : list (list num)) (k : nat) (row : list num) :
  rows3 c -> List.length row = 3%nat -> rows3 (set_nth c k row).
Proof.
  unfold rows3. intros H Hr. revert k.
  induction H as [| r c Hr0 Hc IH]; intros [| k]; cbn; constructor; auto.
Qed.













End FinalConstraints.


(** ** The numerical derivative *)

Section NumDeriv.
Import Specfit.




Local Open Scope R_scope.



End NumDeriv.



(** ** The residual search *)

Section Frames.
Context {N : Numeric} (ext : Externals).
Import Specfit.

Lemma same_model_refl (s : t) : same_model s s.
Proof. repeat split. Qed.

Lemma same_model_trans (s1 s2 s3 : t) :
  same_model s1 s2 -> same_model s2 s3 -> same_model s1 s3.
Proof.
  intros (A1 & A2 & A3) (B1 & B2 & B3). repeat split; congruence.
Qed.

Lemma frames_ret {A} (a : A) : frames (ret a).
Proof. intros s r s' H. inversion H. apply same_model_refl. Qed.

Lemma frames_raise {A} (e : exn) : frames (raise (A := A) e).
Proof. intros s r s' H. inversion H. apply same_model_refl. Qed.

Lemma frames_lift {A} (v : res A) : frames (lift v).
Proof. intros s r s' H. inversion H. apply same_model_refl. Qed.

Lemma frames_get : frames (get (S := t)).
Proof. intros s r s' H. inversion H. apply same_model_refl. Qed.

Lemma frames_modify (f : t -> t) :
  (forall s, same_model s (f s)) -> frames (modify f).
Proof. intros Hf s r s' H. inversion H. apply Hf. Qed.

Lemma frames_bind {A B} (m : M t A) (k : A -> M t B) :
  frames m -> (forall a, frames (k a)) -> frames (bindM m k).
Proof.
  intros Hm Hk s r s'. unfold bindM.
  destruct (m s) as [[a | e] s1] eqn:E; intros H.
  - eapply same_model_trans; [eapply Hm; exact E | eapply Hk; exact H].
  - inversion H; subst. eapply Hm; exact E.
Qed.

Lemma frames_attr {A} (nm : string) (a : option A) : frames (attr nm a).
Proof. apply frames_lift. Qed.

Ltac frame_with known :=
  repeat first
    [ known
    | assumption
    | lazymatch goal with
      | |- frames (ret _) => apply frames_ret
      | |- frames (raise _) => apply frames_raise
      | |- frames (lift _) => apply frames_lift
      | |- frames get => apply frames_get
      | |- frames (attr _ _) => apply frames_attr
      | |- frames (modify _) => apply frames_modify; intros ?; repeat split; reflexivity
      | |- frames (bindM _ _) => apply frames_bind; [| intros ?]
      | |- frames (if ?b then _ else _) => destruct b
      | |- frames (match ?x with _ => _ end) => destruct x
      end ].

Ltac frame := frame_with fail.






End Frames.

Section Search.
Context {N : Numeric} (ext : Externals).
Import Specfit.

Lemma lift_Ok {S A} (r : res A) (a : A) (s s1 : S) :
  lift r s = (Ok a, s1) -> r = Ok a /\ s1 = s.
Proof. unfold lift. intros H. inversion H. auto. Qed.

Lemma get_Ok {S} (a s s1 : S) : get s = (Ok a, s1) -> a = s /\ s1 = s.
Proof. unfold get. intros H. inversion H. auto. Qed.

Lemma modify_Ok (f : t -> t) (u : unit) (s s1 : t) :
  modify f s = (Ok u, s1) -> s1 = f s.
Proof. unfold modify. intros H. inversion H. auto. Qed.

Tactic Notation "step" hyp(H) "as" ident(a) :=
  let s1 := fresh "s" in
  let E := fresh "E" in
  apply bindM_Ok in H; destruct H as (a & s1 & E & H);
  first [ apply get_Ok in E; destruct E; subst a s1
        | apply lift_Ok in E; destruct E as [E ?]; subst s1
        | apply modify_Ok in E; subst s1
        | idtac ].

End Search.

Section Proposal.
Context {N : Numeric}.
Import Specfit.
Variables (pos height fwhm : num) (fwhmcode : string) (fwhmcons1 fwhmcons2 : num).

Local Abbreviation turn := (new_peak_step pos height fwhm fwhmcode fwhmcons1 fwhmcons2).






End Proposal.

Section Scan.
Context {N : Numeric}.
Import Specfit.





End Scan.

Section Loop.
Context {N : Numeric} (ext : Externals).
Import Specfit.

Lemma set_paramlist_same (st : t) : set_paramlist (paramlist st) st = st.
Proof. destruct st; reflexivity. Qed.



End Loop.

Section ResidualPeak.
Context {N : Numeric} (ext : Externals).
Import Specfit.
Local Open Scope num_scope.

End ResidualPeak.

(** ** The residual search on an example *)

Lemma pair_of_fst {A B} (p : A * B) (a : A) : fst p = a -> p = (a, snd p).
Proof. intros <-. destruct p; reflexivity. Qed.

(** The search on the two fitted boxes proposes a peak at 9 of height 6
    and width 2. *)
Lemma residual_search_run :
  fst (Specfit.mcaresidualssearch
         (sample_externals (N := Float64.numeric) [] 0%float 0%float) residual_fit)
  = Ok ([Specfit.residual_area (N := Float64.numeric) 6 2; 9; 2]%float,
        (["POSITIVE"; "QUOTED"; "FACTOR"], [0; 8; 5]%float, [0; 10; 1]%float)).
Proof. vm_compute. reflexivity. Qed.



(* ================================================================== *)
(** * Properties of the code beyond the specification *)

(** ** Computations that keep a relation *)

Section Keeping.
Context {N : Numeric}.
Import Specfit.
Variable R : t -> t -> Prop.
Hypothesis R_refl : forall s, R s s.
Hypothesis R_trans : forall s1 s2 s3, R s1 s2 -> R s2 s3 -> R s1 s3.

Lemma keeping_ret {A} (a : A) : keeping R (ret a).
Proof. intros s r s' H. inversion H. apply R_refl. Qed.

Lemma keeping_raise {A} (e : exn) : keeping R (raise (A := A) e).
Proof. intros s r s' H. inversion H. apply R_refl. Qed.

Lemma keeping_lift {A} (v : res A) : keeping R (lift v).
Proof. intros s r s' H. inversion H. apply R_refl. Qed.

Lemma keeping_get : keeping R (get (S := t)).
Proof. intros s r s' H. inversion H. apply R_refl. Qed.

Lemma keeping_attr {A} (nm : string) (a : option A) : keeping R (attr nm a).
Proof. apply keeping_lift. Qed.

Lemma keeping_modify (f : t -> t) : (forall s, R s (f s)) -> keeping R (modify f).
Proof. intros Hf s r s' H. inversion H. apply Hf. Qed.

Lemma keeping_bind {A B} (m : M t A) (k : A -> M t B) :
  keeping R m -> (forall a, keeping R (k a)) -> keeping R (bindM m k).
Proof.
  intros Hm Hk s r s'. unfold bindM.
  destruct (m s) as [[a | e] s1] eqn:E; intros H.
  - eapply R_trans; [eapply Hm; exact E | eapply Hk; exact H].
  - inversion H; subst. eapply Hm; exact E.
Qed.
End Keeping.

(** [keep_with refl trans known close]: [known] closes the goals on the
    computations already dealt with, [close] the goal [R s (f s)] of an
    assignment. *)
Ltac keep_with refl trans known close :=
  repeat first
    [ known
    | lazymatch goal with
      | |- keeping _ (ret _) => apply keeping_ret; exact refl
      | |- keeping _ (raise _) => apply keeping_raise; exact refl
      | |- keeping _ (lift _) => apply keeping_lift; exact refl
      | |- keeping _ get => apply keeping_get; exact refl
      | |- keeping _ (Specfit.attr _ _) => apply keeping_attr; exact refl
      | |- keeping _ (Specfit.modify _) => apply keeping_modify; intros ?; close
      | |- keeping _ (bindM _ _) => apply (keeping_bind trans); [| intros ?]
      | |- keeping _ (if ?b then _ else _) => destruct b
      | |- keeping _ (match ?x with _ => _ end) => destruct x
      | |- keeping _ (let _ := _ in _) => cbv zeta
      end ].

(** ** fitfunction and gendata *)

Section FitFunctionFrame.
Context {N : Numeric} (ext : Externals).
Import Specfit.

Lemma same_but_cache_refl (s : t) : same_but_cache s s.
Proof. repeat split. Qed.

Lemma same_but_cache_trans (s1 s2 s3 : t) :
  same_but_cache s1 s2 -> same_but_cache s2 s3 -> same_but_cache s1 s3.
Proof.
  unfold same_but_cache. intros H1 H2.
  repeat match goal with H : _ /\ _ |- _ => destruct H end.
  repeat split; congruence.
Qed.

Ltac cache_with known :=
  keep_with same_but_cache_refl (@same_but_cache_trans) known
            ltac:(repeat split; reflexivity).

Lemma cache_sum_peaks (nb np : nat) (pars x : list num) (peaks : list nat) :
  forall result, keeping same_but_cache (sum_peaks nb np pars x peaks result).
Proof.
  induction peaks as [| i peaks IH]; intros result; cbn [sum_peaks];
    cache_with ltac:(simple apply IH).
Qed.

Lemma cache_bkg_internal (pars x : list num) :
  keeping same_but_cache (bkg_internal ext pars x).
Proof. unfold bkg_internal. cache_with fail. Qed.

Lemma cache_call_bkg (f : bkg_function) (pars x : list num) :
  keeping same_but_cache (call_bkg ext f pars x).
Proof.
  destruct f; cbn [call_bkg]; cache_with ltac:(simple apply cache_bkg_internal).
Qed.

Lemma cache_fitfunction (pars x : list num) :
  keeping same_but_cache (fitfunction ext pars x).
Proof.
  unfold fitfunction.
  cache_with ltac:(first [simple apply cache_sum_peaks | simple apply cache_call_bkg]).
Qed.

(** [fitfunction] and [gendata], whatever they are given and whether they
    return or raise, assign to no attribute other than the four that hold
    the last baseline of the [Internal] background: the data, the
    configuration, the registries, the parameter list, the fit state and
    the chi square are those of before the call. *)
Theorem fitfunction_assigns_only_the_baseline_cache
        (pars x : list num) (ox : option (list num)) (opl : option (list param))
        (self : t) :
  same_but_cache self (snd (fitfunction ext pars x self))
  /\ same_but_cache self (snd (gendata ext ox opl self)).
Proof.
  split.
  - destruct (fitfunction ext pars x self) as [r s'] eqn:E.
    cbn [snd]. eapply cache_fitfunction. exact E.
  - destruct (gendata ext ox opl self) as [r s'] eqn:E. revert E.
    unfold gendata, bindM, get. cbn [snd]. apply cache_fitfunction.
Qed.
End FitFunctionFrame.

(** ** estimate: merging the two constraint blocks *)

Section Merge.
Context {N : Numeric}.
Import Specfit.
Local Open Scope num_scope.

Variables (bkg_esti_parameters : list num) (bkg_esti_constraints : list (list num))
          (fun_esti_parameters : list num) (fun_esti_constraints : list (list num))
          (nb_fun_params_per_group : nat) (lo hi : num).

Local Abbreviation nb_bg_params := (Z.of_nat (List.length bkg_esti_parameters)).
Local Abbreviation entry_of :=
  (merged_entry bkg_esti_parameters bkg_esti_constraints
                fun_esti_parameters fun_esti_constraints
                nb_fun_params_per_group lo hi).



(** When the loop of [estimate] over the names returns, the parameter
    list is the one it started from followed by one entry per name, in
    the order of the names, the entry of the name at position [j] being
    the one made for the index [pindex + j]. *)
Theorem merge_loop_appends_one_entry_per_name (names : list string) :
  forall (g pindex : Z) (st st' : t),
    merge_loop bkg_esti_parameters bkg_esti_constraints
               fun_esti_parameters fun_esti_constraints
               nb_fun_params_per_group lo hi g pindex names st = (Ok tt, st') ->
    exists entries,
      paramlist st' = paramlist st ++ entries
      /\ List.length entries = List.length names
      /\ forall j d, (j < List.length names)%nat ->
           exists gj gj',
             entry_of gj (pindex + Z.of_nat j) (nth j names "") = Ok (nth j entries d, gj').
Proof.
  induction names as [| pname names IH]; intros g pindex st st' H.
  - cbn in H. inversion H; subst. exists []. rewrite app_nil_r.
    repeat split. intros j d Hj. cbn in Hj. lia.
  - cbn [merge_loop] in H.
    apply bindM_Ok in H. destruct H as ([e g1] & s1 & E & H).
    unfold lift in E. inversion E as [[He Hs1]]. subst s1. clear E.
    apply bindM_Ok in H. destruct H as (u & s2 & E & H).
    unfold modify in E. inversion E; subst s2. clear E.
    apply IH in H. destruct H as (entries & Hpl & Hlen & Hent).
    exists (e :: entries). cbn [paramlist set_paramlist] in Hpl.
    split; [rewrite Hpl, <- app_assoc; reflexivity |].
    split; [cbn [List.length]; lia |].
    intros [| j] d Hj.
    + exists g, g1. cbn [nth]. rewrite Z.add_0_r. exact He.
    + cbn [List.length] in Hj.
      destruct (Hent j d ltac:(lia)) as (gj & gj' & Hj').
      exists gj, gj'. cbn [nth].
      replace (pindex + Z.of_nat (S j))%Z with (pindex + 1 + Z.of_nat j)%Z by lia.
      exact Hj'.
Qed.
End Merge.



(** The loop on one background parameter and one peak. *)
Lemma merge_loop_appends_one_entry_per_name_run :
  let st := Specfit.blank (N := Float64.numeric) (VInt 0) (VInt 8) (VBool false)
                          (VFloat 1%float) (VFloat 2.5%float) (VInt 0) (VInt 0) in
  let run := Specfit.merge_loop (N := Float64.numeric) [1%float] [[0%float]; [0%float]; [0%float]]
                                [8; 4; 4.75]%float
                                [[1; 0; 1]; [0; 0; 0]; [0; 0; 0]]%float
                                3 0%float 19%float 0 0
                                ["Constant"; "Height1"; "Position1"; "FWHM1"] st in
  exists entries,
    Specfit.paramlist (snd run) = Specfit.paramlist st ++ entries
    /\ List.length entries = 4%nat.
Proof.
  intros st run.
  destruct (@merge_loop_appends_one_entry_per_name
              Float64.numeric [1%float] [[0%float]; [0%float]; [0%float]]
              [8; 4; 4.75]%float [[1; 0; 1]; [0; 0; 0]; [0; 0; 0]]%float
              3%nat 0%float 19%float
              ["Constant"; "Height1"; "Position1"; "FWHM1"] 0%Z 0%Z st (snd run))
    as (entries & Hpl & Hlen & _).
  - apply pair_of_fst. vm_compute. reflexivity.
  - exists entries. split; [exact Hpl | exact Hlen].
Defined.

(** ** estimate with the estimators of the module *)

Section ModuleEstimators.
Context {N : Numeric} (ext : Externals).
Import Specfit.

Lemma raises_bind_l {A B} (P : t -> Prop) (m : M t A) (k : A -> M t B) :
  always_raises P m -> always_raises P (bindM m k).
Proof.
  intros Hm s Hs. destruct (Hm s Hs) as (e & s' & E & Hs').
  exists e, s'. unfold bindM. rewrite E. auto.
Qed.

Lemma raises_bind_r {A B} (P : t -> Prop) (m : M t A) (k : A -> M t B) :
  (forall s r s', P s -> m s = (r, s') -> P s') ->
  (forall a, always_raises P (k a)) ->
  always_raises P (bindM m k).
Proof.
  intros Hm Hk s Hs. unfold bindM.
  destruct (m s) as [[a | e] s1] eqn:E.
  - apply (Hk a). eapply Hm; eassumption.
  - exists e, s1. split; [reflexivity | eapply Hm; eassumption].
Qed.

Lemma holds_theory_kept (ft : pyval) (th : theory) (pl : list param) {A} (m : M t A) :
  keeping same_model m ->
  forall s r s', holds_theory ft th pl s -> m s = (r, s') -> holds_theory ft th pl s'.
Proof.
  intros Hm s r s' (H1 & H2 & H3) E.
  destruct (Hm s r s' E) as (F1 & F2 & F3).
  unfold holds_theory. rewrite F1, F2, F3. auto.
Qed.

Ltac model_with known :=
  keep_with (@same_model_refl N) (@same_model_trans N) known
            ltac:(repeat split; reflexivity).

Lemma model_send_event : keeping same_model send_event.
Proof. intros s r s' H. unfold send_event in H. inversion H. repeat split. Qed.

Lemma model_guess_yscaling (y : option (list num)) :
  keeping same_model (guess_yscaling ext y).
Proof. unfold guess_yscaling. model_with fail. Qed.

Lemma model_estimate_builtin_bkg (x y : list num) :
  keeping same_model (estimate_builtin_bkg ext x y).
Proof. unfold estimate_builtin_bkg. model_with fail. Qed.

Lemma model_estimate_bkg (x y : list num) : keeping same_model (estimate_bkg ext x y).
Proof.
  unfold estimate_bkg. model_with ltac:(simple apply model_estimate_builtin_bkg).
Qed.

(** [estimate_fun] passes the keyword [xscaling]; a method of
    [SpecfitFunctions] has no such parameter, so the call raises
    [TypeError] before anything is estimated. *)
Lemma estimate_fun_rejects_bound_method
      (self : t) (x y z : list num) (xscaling : num) (yscaling ft : pyval)
      (th : theory)
      (m : list num -> list num -> option (list num) -> pyval ->
           M SpecfitFunctions.store (list num * list (list num))) :
  ditem (fitconfig self) "fittheory" = Ok ft ->
  ditem_val (theorydict self) ft = Ok th ->
  t_estimate th = Some (bound_estimator m) ->
  estimate_fun x y z xscaling yscaling self
  = (Raise (TypeError "got an unexpected keyword argument"), self).
Proof.
  intros Hft Hth He. unfold estimate_fun.
  unfold bindM at 1. unfold get at 1. cbv iota beta.
  unfold bindM at 1. unfold lift at 1. rewrite Hft.
  unfold bindM at 1. unfold lift at 1. rewrite Hth.
  rewrite He. reflexivity.
Qed.

(** When the selected theory was registered with a method of
    [SpecfitFunctions] for estimator (as the module does for every theory
    of its list), [estimate_fun] raises [TypeError] on the keyword
    [xscaling] and leaves the object as it was, and [estimate()] never
    returns a parameter list: it raises, with the parameter list it was
    called on still in place. *)
Theorem estimate_never_returns_with_a_module_estimator
        (self : t) (ft : pyval) (th : theory)
        (m : list num -> list num -> option (list num) -> pyval ->
             M SpecfitFunctions.store (list num * list (list num))) :
  ditem (fitconfig self) "fittheory" = Ok ft ->
  ditem_val (theorydict self) ft = Ok th ->
  t_estimate th = Some (bound_estimator m) ->
  (forall x y z xscaling yscaling,
      estimate_fun x y z xscaling yscaling self
      = (Raise (TypeError "got an unexpected keyword argument"), self))
  /\ exists e self',
      estimate ext self = (Raise e, self') /\ paramlist self' = paramlist self.
Proof.
  intros Hft Hth He. split.
  - intros. eapply estimate_fun_rejects_bound_method; eassumption.
  - set (P := holds_theory ft th (paramlist self)).
    assert (HP : P self) by (repeat split; assumption).
    assert (Hraise : always_raises P (estimate ext)).
    { unfold estimate.
      apply raises_bind_r; [apply holds_theory_kept; model_with fail | intros _].
      apply raises_bind_r; [apply holds_theory_kept; model_with fail | intros _].
      apply raises_bind_r;
        [apply holds_theory_kept; apply model_send_event | intros _].
      apply raises_bind_r; [apply holds_theory_kept; model_with fail | intros s0].
      apply raises_bind_r;
        [apply holds_theory_kept; apply model_estimate_bkg | intros [[bp bc] z]].
      apply raises_bind_r; [apply holds_theory_kept; model_with fail | intros s1].
      apply raises_bind_r; [apply holds_theory_kept; model_with fail | intros auto].
      apply raises_bind_r;
        [apply holds_theory_kept;
         model_with ltac:(simple apply model_guess_yscaling) | intros ys].
      apply raises_bind_l.
      intros s (H1 & H2 & H3). exists (TypeError "got an unexpected keyword argument"), s.
      split; [| repeat split; assumption].
      eapply estimate_fun_rejects_bound_method; eassumption. }
    destruct (Hraise self HP) as (e & s' & E & _ & _ & Hpl).
    exists e, s'. auto.
Qed.
End ModuleEstimators.

(** The driver set up as the module does raises on [estimate()]. *)
Lemma estimate_never_returns_with_a_module_estimator_run :
  let ext := sample_externals (N := Float64.numeric) [4; 14]%Z 1%float 1%float in
  exists e self',
    Specfit.estimate ext (gaussians_fit ext) = (Raise e, self')
    /\ Specfit.paramlist self' = [].
Proof.
  intros ext.
  destruct (@estimate_never_returns_with_a_module_estimator
              Float64.numeric ext (gaussians_fit ext) (VStr "Gaussians")
              {| Specfit.t_function := sum_gauss;
                 Specfit.t_parameters := ["Height"; "Position"; "FWHM"];
                 Specfit.t_estimate := Some (method_estimator ext);
                 Specfit.t_configure := None; Specfit.t_derivative := None |}
              (SpecfitFunctions.estimate_height_position_fwhm ext fitfuns))
    as (_ & e & self' & E & Hpl).
  - reflexivity.
  - reflexivity.
  - reflexivity.
  - exists e, self'. split; [exact E | exact Hpl].
Defined.

(** ** startfit *)

Section Startfit.
Context {N : Numeric} (ext : Externals).
Import Specfit.

(** [startfit] decides whether the solver gets constraints from the code
    of the LAST entry of the parameter list alone (the variable of the
    loop that has just run over the list): when that code is [FREE] the
    solver is called without any constraint, whatever the codes and
    constraint values of the other entries. *)
Theorem startfit_drops_all_constraints_when_last_is_free (self : t) (p : param) :
  nth_error (rev (paramlist self)) 0 = Some p ->
  code p = "FREE" ->
  startfit ext self = startfit (unconstrained_solver ext) self.
Proof.
  intros Hlast Hfree. unfold startfit.
  apply bindM_ext. intros u1 s1 E1.
  apply bindM_ext. intros u2 s2 E2.
  apply bindM_ext. intros u3 s3 E3.
  apply bindM_ext. intros s4 s4' E4.
  apply get_Ok in E4. destruct E4; subst s4 s4'.
  apply modify_Ok in E1. apply modify_Ok in E2.
  unfold send_event in E3. inversion E3 as [Hs3]. clear E3. subst.
  cbn [paramlist set_events set_chisq set_state].
  apply bindM_ext. intros k s5 E5.
  apply bindM_ext. intros ywork s6 E6.
  apply bindM_ext. intros lp s7 E7.
  apply lift_Ok in E7. destruct E7 as [E7 _].
  rewrite Hlast in E7. cbn in E7. inversion E7; subst lp.
  rewrite Hfree. cbn [String.eqb Ascii.eqb Bool.eqb].
  reflexivity.
Qed.

Lemma nth_error_set_nth_same {A} (l : list A) (i : nat) (v a : A) :
  nth_error l i = Some a -> nth_error (set_nth l i v) i = Some v.
Proof.
  revert i. induction l as [| b l IH]; intros [| i] H; cbn in *; try discriminate; auto.
Qed.

Lemma nth_error_set_nth_other {A} (l : list A) (i j : nat) (v : A) :
  i <> j -> nth_error (set_nth l i v) j = nth_error l j.
Proof.
  revert i j. induction l as [| b l IH]; intros [| i] [| j] H; cbn; auto.
  - contradiction.
Qed.

Lemma length_set_nth' {A} (l : list A) (i : nat) (v : A) :
  List.length (set_nth l i v) = List.length l.
Proof. revert i. induction l as [| b l IH]; intros [| i]; cbn; auto. Qed.

Lemma same_definition_refl (p : param) : same_definition p p.
Proof. repeat split. Qed.

(** The loop that writes the results back, from the entry [i] on. *)
Lemma write_back_entries (found0 found2 : list num) (n : nat) :
  forall (i : nat) (st st' : t),
    write_back found0 found2 i n st = (Ok tt, st') ->
    st' = set_paramlist (paramlist st') st
    /\ List.length (paramlist st') = List.length (paramlist st)
    /\ forall j p, nth_error (paramlist st) j = Some p ->
         exists p', nth_error (paramlist st') j = Some p'
                    /\ same_definition p p'
                    /\ ((j < i)%nat \/ (i + n <= j)%nat \/ code p = "IGNORE" -> p' = p)
                    /\ ((i <= j < i + n)%nat -> code p <> "IGNORE" ->
                        py_index found0 (Z.of_nat j) = Ok (fitresult p')
                        /\ py_index found2 (Z.of_nat j) = Ok (sigma p')).
Proof.
  induction n as [| n IH]; intros i st st' H.
  - cbn in H. inversion H; subst st'. split; [symmetry; apply set_paramlist_same |].
    split; [reflexivity |]. intros j p Hj. exists p.
    split; [exact Hj |]. split; [apply same_definition_refl |].
    split; [reflexivity | intros Hr; lia].
  - cbn [write_back] in H.
    apply bindM_Ok in H. destruct H as (s0 & s0' & E & H).
    apply get_Ok in E. destruct E; subst s0 s0'.
    destruct (nth_error (paramlist st) i) as [pi |] eqn:Hi.
    + apply bindM_Ok in H. destruct H as (u & s1 & Hw & H).
      apply IH in H. destruct H as (Hst & Hlen & Hent).
      destruct (String.eqb (code pi) "IGNORE") eqn:Hig; cbn [negb] in Hw.
      * inversion Hw; subst s1. split; [exact Hst |]. split; [exact Hlen |].
        intros j p Hj. destruct (Hent j p Hj) as (p' & Hj' & Hsame & Hkeep & Hnew).
        exists p'. split; [exact Hj' |]. split; [exact Hsame |]. split.
        -- intros [Hlt | [Hge | Hc]]; apply Hkeep; try (left; lia); try (right; left; lia);
             try (right; right; exact Hc).
        -- intros Hr Hc. destruct (Nat.eq_dec j i) as [-> | Hne].
           ++ rewrite Hi in Hj. inversion Hj; subst p.
              apply String.eqb_eq in Hig. contradiction.
           ++ apply Hnew; [lia | exact Hc].
      * apply bindM_Ok in Hw. destruct Hw as (r & s2 & Er & Hw).
        apply lift_Ok in Er. destruct Er as [Er ->].
        apply bindM_Ok in Hw. destruct Hw as (u1 & s3 & Em & Hw).
        apply modify_Ok in Em. subst s3.
        apply bindM_Ok in Hw. destruct Hw as (sg & s4 & Es & Hw).
        apply lift_Ok in Es. destruct Es as [Es ->].
        apply modify_Ok in Hw. subst s1.
        cbn [paramlist set_paramlist] in Hst, Hlen, Hent.
        rewrite set_nth_twice in Hlen, Hent.
        split.
        { rewrite Hst at 1. destruct st; reflexivity. }
        split; [rewrite Hlen; apply length_set_nth' |].
        intros j p Hj. destruct (Nat.eq_dec j i) as [-> | Hne].
        -- rewrite Hi in Hj. inversion Hj; subst p.
           destruct (Hent i _ (nth_error_set_nth_same _ _ _ Hi))
             as (p' & Hj' & Hsame & Hkeep & _).
           exists p'. split; [exact Hj' |].
           assert (Hp' : p' = {| name := name pi; estimation := estimation pi;
                                 group := group pi; code := code pi;
                                 cons1 := cons1 pi; cons2 := cons2 pi;
                                 fitresult := r; sigma := sg;
                                 xmin := xmin pi; xmax := xmax pi |})
             by (apply Hkeep; left; lia).
           subst p'. split; [repeat split |]. split.
           ++ intros [Hlt | [Hge | Hc]]; try lia.
              rewrite Hc in Hig. discriminate.
           ++ intros _ _. cbn [fitresult sigma]. auto.
        -- assert (Hj2 : forall v, nth_error (set_nth (paramlist st) i v) j = Some p)
             by (intros v; rewrite nth_error_set_nth_other by auto; exact Hj).
           destruct (Hent j p (Hj2 _)) as (p' & Hj' & Hsame & Hkeep & Hnew).
           exists p'. split; [exact Hj' |]. split; [exact Hsame |]. split.
           ++ intros [Hlt | [Hge | Hc]]; apply Hkeep;
                try (left; lia); try (right; left; lia); try (right; right; exact Hc).
           ++ intros Hr Hc. apply Hnew; [lia | exact Hc].
    + inversion H; subst st'. split; [symmetry; apply set_paramlist_same |].
      split; [reflexivity |]. intros j p Hj. exists p.
      split; [exact Hj |]. split; [apply same_definition_refl |].
      split; [reflexivity |]. intros Hr Hc.
      apply nth_error_None in Hi.
      assert (Hjl : (j < List.length (paramlist st))%nat)
        by (apply nth_error_Some; rewrite Hj; discriminate).
      lia.
Qed.

(** When [startfit] returns, the state is ['Ready'], the chi square is
    the one the solver returned for the estimations of the list as
    initial values, and the parameter list has the entries it had, in
    the same order: an [IGNORE] entry is untouched, every other entry
    has taken its fit result and its uncertainty from the solver's output
    at its own index and kept its name, estimation, group, code and
    constraint values. *)
Theorem startfit_writes_back_results_only (self self' : t) :
  startfit ext self = (Ok tt, self') ->
  exists model ywork cs deriv found0 found1 found2,
    curve_fit ext model (xdata self) ywork (map estimation (paramlist self)) cs deriv
    = Ok (found0, found1, found2)
    /\ state self' = Some "Ready"
    /\ chisq self' = Some found1
    /\ List.length (paramlist self') = List.length (paramlist self)
    /\ forall j p, nth_error (paramlist self) j = Some p ->
         exists p', nth_error (paramlist self') j = Some p'
                    /\ same_definition p p'
                    /\ (code p = "IGNORE" -> p' = p)
                    /\ (code p <> "IGNORE" ->
                        py_index found0 (Z.of_nat j) = Ok (fitresult p')
                        /\ py_index found2 (Z.of_nat j) = Ok (sigma p')).
Proof.
  intros H. unfold startfit in H.
  apply bindM_Ok in H. destruct H as (u1 & s1 & E1 & H). apply modify_Ok in E1.
  apply bindM_Ok in H. destruct H as (u2 & s2 & E2 & H). apply modify_Ok in E2.
  apply bindM_Ok in H. destruct H as (u3 & s3 & E3 & H).
  unfold send_event in E3. inversion E3 as [[Hs3]]. clear E3.
  apply bindM_Ok in H. destruct H as (s4 & s4' & E4 & H).
  apply get_Ok in E4. destruct E4; subst s4 s4'.
  assert (Hpl : paramlist s3 = paramlist self) by (subst; reflexivity).
  assert (Hx : xdata s3 = xdata self) by (subst; reflexivity).
  apply bindM_Ok in H. destruct H as (k & s5 & E5 & H).
  apply lift_Ok in E5. destruct E5 as [E5 ->].
  apply bindM_Ok in H. destruct H as (ywork & s6 & E6 & H).
  assert (Hs6 : s6 = s3).
  { destruct (is_str k "Square Filter").
    - apply bindM_Ok in E6. destruct E6 as (p0 & s7 & E7 & E6).
      apply lift_Ok in E7. destruct E7 as [_ ->].
      apply lift_Ok in E6. destruct E6 as [_ ->]. reflexivity.
    - inversion E6. reflexivity. }
  subst s6.
  apply bindM_Ok in H. destruct H as (lp & s7 & E7 & H).
  apply lift_Ok in E7. destruct E7 as [E7 ->].
  apply bindM_Ok in H. destruct H as (md & s8 & E8 & H).
  apply lift_Ok in E8. destruct E8 as [E8 ->].
  apply bindM_Ok in H. destruct H as ([[found0 found1] found2] & s9 & E9 & H).
  apply lift_Ok in E9. destruct E9 as [E9 ->].
  apply bindM_Ok in H. destruct H as (u4 & s10 & E10 & H).
  apply bindM_Ok in H. destruct H as (u5 & s11 & E11 & H). apply modify_Ok in E11.
  apply bindM_Ok in H. destruct H as (u6 & s12 & E12 & H). apply modify_Ok in E12.
  unfold send_event in H. inversion H as [[Hs']]. clear H.
  destruct u4. apply write_back_entries in E10.
  destruct E10 as (Hst & Hlen & Hent).
  rewrite Hpl in Hlen, Hent, E9. rewrite Hx in E9.
  do 7 eexists. split; [exact E9 |].
  subst s12 s11. cbn [state chisq paramlist set_events set_state set_chisq].
  split; [reflexivity |]. split; [reflexivity |]. split; [exact Hlen |].
  intros j p Hj. destruct (Hent j p Hj) as (p' & Hj' & Hsame & Hkeep & Hnew).
  exists p'. split; [exact Hj' |]. split; [exact Hsame |]. split.
  - intros Hc. apply Hkeep. right; right; exact Hc.
  - intros Hc. apply Hnew; [| exact Hc].
    assert (Hjl : (j < List.length (paramlist self))%nat)
      by (apply nth_error_Some; rewrite Hj; discriminate).
    lia.
Qed.
End Startfit.

(** A fit of one box whose last entry is [FREE] and whose area is tied
    by [FACTOR]: the solver is called as if there were no tie. *)
Lemma startfit_drops_all_constraints_when_last_is_free_run :
  let ext := sample_externals (N := Float64.numeric) [] 0%float 1%float in
  let st := Specfit.set_paramlist (N := Float64.numeric)
              [fitted (N := Float64.numeric) "Area1" 1 "FACTOR" 16%float; fitted (N := Float64.numeric) "Position1" 1 "QUOTED" 4%float;
               fitted (N := Float64.numeric) "Fwhm1" 1 "FREE" 2%float] residual_fit in
  Specfit.startfit ext st = Specfit.startfit (unconstrained_solver ext) st.
Proof.
  intros ext st.
  apply (@startfit_drops_all_constraints_when_last_is_free
           Float64.numeric ext st (fitted (N := Float64.numeric) "Fwhm1" 1 "FREE" 2%float)).
  - reflexivity.
  - reflexivity.
Defined.


(** The fit of two boxes, with a solver that returns the values it was
    given and a chi square of 1. *)
Lemma startfit_writes_back_results_only_run :
  let ext := sample_externals (N := Float64.numeric) [] 0%float 1%float in
  exists self' found1,
    Specfit.startfit ext residual_fit = (Ok tt, self')
    /\ Specfit.state self' = Some "Ready"
    /\ Specfit.chisq self' = Some found1
    /\ List.length (Specfit.paramlist self') = 6%nat.
Proof.
  intros ext.
  assert (E : Specfit.startfit ext residual_fit
              = (Ok tt, snd (Specfit.startfit ext residual_fit)))
    by (apply pair_of_fst; vm_compute; reflexivity).
  destruct (@startfit_writes_back_results_only
              Float64.numeric ext residual_fit _ E)
    as (model & ywork & cs & deriv & found0 & found1 & found2 & _ & Hs & Hc & Hl & _).
  exists (snd (Specfit.startfit ext residual_fit)), found1.
  split; [exact E |]. split; [exact Hs |]. split; [exact Hc | exact Hl].
Defined.

(** ** setdata with a window *)

Section SetdataWindow.
Context {N : Numeric}.
Import Specfit.


Lemma bool_index_pairs {A B} (f : A -> bool) (x : list A) (y : list B) :
  List.length y = List.length x ->
  bool_index y (map f x)
  = Ok (map snd (filter (fun p => f (fst p)) (combine x y))).
Proof.
  revert y. induction x as [| a x IH]; intros [| b y] H; cbn in *;
    try discriminate; [reflexivity |].
  rewrite IH by congruence. cbn [bind]. destruct (f a); reflexivity.
Qed.

Lemma bool_index_filter {A} (f : A -> bool) (x : list A) :
  bool_index x (map f x) = Ok (filter f x).
Proof.
  induction x as [| a x IH]; cbn; [reflexivity |].
  rewrite IH. cbn [bind]. destruct (f a); reflexivity.
Qed.

(** [setdata] with a window on data of one length: the original arrays
    are stored whole, and the working arrays hold, in order, exactly the
    points [(x_i, y_i, sigma_i)] with [xmin <= x_i <= xmax]; a bound that
    is [None] stands for the minimum (maximum) of [x], and the
    uncertainties default to 1. *)
Theorem setdata_window_keeps_the_points_in_range
        (x y : list num) (sigmay_ : option (list num)) (xmin xmax : option num)
        (self : t) :
  x <> [] ->
  List.length y = List.length x ->
  (forall s, sigmay_ = Some s -> List.length s = List.length x) ->
  (xmin <> None \/ xmax <> None) ->
  exists lo hi self',
    setdata (Some x) (Some y) sigmay_ xmin xmax self = (Ok tt, self')
    /\ (match xmin with Some v => Ok v | None => py_min x end) = Ok lo
    /\ (match xmax with Some v => Ok v | None => py_max x end) = Ok hi
    /\ xdata0 self' = x /\ ydata0 self' = y
    /\ sigmay0 self' = match sigmay_ with Some s => s | None => ones (List.length y) end
    /\ let inside := fun v => andb (geb v lo) (leb v hi) in
       xdata self' = filter inside x
       /\ ydata self' = map snd (filter (fun p => inside (fst p)) (combine x y))
       /\ sigmay self' = map snd (filter (fun p => inside (fst p))
                                         (combine x (sigmay0 self'))).
Proof.
  intros Hx Hy Hs Hw.
  assert (Hlo : exists lo, (match xmin with Some v => Ok v | None => py_min x end) = Ok lo).
  { destruct xmin; [eauto |]. destruct x; [congruence | cbn; eauto]. }
  assert (Hhi : exists hi, (match xmax with Some v => Ok v | None => py_max x end) = Ok hi).
  { destruct xmax; [eauto |]. destruct x; [congruence | cbn; eauto]. }
  destruct Hlo as [lo Hlo]. destruct Hhi as [hi Hhi].
  set (sg := match sigmay_ with Some s => s | None => ones (List.length y) end).
  assert (Hsg : List.length sg = List.length x).
  { unfold sg. destruct sigmay_ as [s |]; [apply Hs; reflexivity |].
    unfold ones. rewrite repeat_length. exact Hy. }
  set (inside := fun v => andb (geb v lo) (leb v hi)).
  exists lo, hi.
  eexists. split; [| split; [exact Hlo | split; [exact Hhi |]]].
  - unfold setdata.
    unfold bindM at 1. unfold modify at 1. cbv iota beta.
    unfold bindM at 1. unfold modify at 1. cbv iota beta.
    unfold bindM at 1. unfold modify at 1. cbv iota beta.
    unfold bindM at 1. unfold get at 1. cbv iota beta.
    assert (Hwin : match xmin, xmax with None, None => false | _, _ => true end = true).
    { destruct xmin, xmax; try reflexivity. destruct Hw; congruence. }
    rewrite Hwin. cbn [andb].
    replace (List.length (xdata _) =? 0)%nat with false.
    2:{ symmetry. apply Nat.eqb_neq. destruct sigmay_; cbn; destruct x; cbn; congruence. }
    cbn [negb].
    replace (xdata _) with x by (destruct sigmay_; reflexivity).
    rewrite Hlo. unfold bindM at 1. unfold lift at 1. cbv iota beta.
    rewrite Hhi. unfold bindM at 1. unfold lift at 1. cbv iota beta.
    fold inside. rewrite bool_index_filter.
    unfold bindM at 1. unfold lift at 1. cbv iota beta.
    unfold bindM at 1. unfold modify at 1. cbv iota beta.
    unfold bindM at 1. unfold get at 1. cbv iota beta.
    replace (ydata _) with y by (destruct sigmay_; reflexivity).
    rewrite (bool_index_pairs inside x y Hy).
    unfold bindM at 1. unfold lift at 1. cbv iota beta.
    unfold bindM at 1. unfold modify at 1. cbv iota beta.
    unfold bindM at 1. unfold get at 1. cbv iota beta.
    replace (sigmay _) with sg by (unfold sg; destruct sigmay_; reflexivity).
    rewrite (bool_index_pairs inside x sg Hsg).
    unfold bindM at 1. unfold lift at 1. cbv iota beta.
    unfold modify. reflexivity.
  - destruct sigmay_; cbn; repeat split; reflexivity.
Qed.

End SetdataWindow.

(** The sample data cut to [3, 5]. *)
Lemma setdata_window_keeps_the_points_in_range_run :
  exists self',
    Specfit.setdata (N := Float64.numeric) (Some sample_x) (Some sample_y) None
                    (Some 3%float) (Some 5%float)
                    (fresh_driver (N := Float64.numeric))
    = (Ok tt, self')
    /\ Specfit.xdata self' = [3; 4; 5]%float
    /\ Specfit.ydata self' = [1; 9; 1]%float
    /\ Specfit.sigmay self' = [1; 1; 1]%float.
Proof.
  destruct (@setdata_window_keeps_the_points_in_range
              Float64.numeric sample_x sample_y None (Some 3%float) (Some 5%float)
              (fresh_driver (N := Float64.numeric)))
    as (lo & hi & self' & E & Hlo & Hhi & _ & _ & H0 & Hxd & Hyd & Hsd).
  - discriminate.
  - reflexivity.
  - discriminate.
  - left. discriminate.
  - injection Hlo as <-. injection Hhi as <-.
    exists self'. split; [exact E |].
    split; [exact Hxd |]. split; [exact Hyd |].
    rewrite Hsd, H0. reflexivity.
Defined.


(** ** estimate_builtin_bkg *)

Section BuiltinBackground.
Context {N : Numeric} (ext : Externals).
Import Specfit.

(** Whatever background is selected, when [estimate_builtin_bkg] returns
    it has stored the baseline [subac(y, 1.0001, 1000)] in [self.zz] and
    returns it, with a constraint block of three rows (codes, [cons1],
    [cons2]) that have each one entry per estimated parameter - the
    layout [cons[field][parameter]] that [estimate] reads.  The rows of
    [cons1] and [cons2] are zero; the codes are [FIXED] for every
    parameter of [Internal] and [Square Filter], and [FREE] otherwise. *)
Theorem builtin_bkg_block_has_one_row_per_field
        (x y : list num) (self self' : t) (fittedpar : list num)
        (constraints : list (list num)) (oz : option (list num)) :
  estimate_builtin_bkg ext x y self = (Ok (fittedpar, constraints, oz), self') ->
  exists z k,
    subac ext y (dec 10001 4) (of_Z 1000) = Ok z
    /\ oz = Some z /\ zz self' = z
    /\ ditem (fitconfig self) "fitbkg" = Ok k
    /\ constraints
       = [ (if orb (is_str k "Internal") (is_str k "Square Filter")
            then repeat (of_Z 3) (List.length fittedpar)
            else zeros (List.length fittedpar));
           zeros (List.length fittedpar);
           zeros (List.length fittedpar) ]
    /\ List.length fittedpar
       = (if is_str k "Constant" then 1
          else if is_str k "Internal" then 3
          else if is_str k "No Background" then 0
          else 2)%nat.
Proof.
  intros H. unfold estimate_builtin_bkg in H.
  apply bindM_Ok in H. destruct H as (z & s1 & E & H).
  apply lift_Ok in E. destruct E as [Ez ->].
  apply bindM_Ok in H. destruct H as (u & s2 & E & H).
  apply modify_Ok in E. subst s2.
  apply bindM_Ok in H. destruct H as (s3 & s3' & E & H).
  apply get_Ok in E. destruct E; subst s3 s3'.
  apply bindM_Ok in H. destruct H as (k & s4 & E & H).
  apply lift_Ok in E. destruct E as [Ek ->].
  cbn [fitconfig set_zz] in Ek.
  exists z, k. split; [exact Ez |].
  destruct (is_str k "Constant") eqn:Hc.
  { apply bindM_Ok in H. destruct H as (Sy & s5 & E & H).
    apply lift_Ok in E. destruct E as [_ ->]. inversion H; subst.
    assert (is_str k "Internal" = false /\ is_str k "Square Filter" = false) as [-> ->].
    { destruct k; cbn in Hc |- *; try discriminate.
      apply String.eqb_eq in Hc. subst s. split; reflexivity. }
    repeat split; first [reflexivity | assumption]. }
  destruct (is_str k "Internal") eqn:Hi.
  { inversion H; subst. repeat split; first [reflexivity | assumption]. }
  destruct (is_str k "No Background") eqn:Hn.
  { inversion H; subst.
    assert (is_str k "Square Filter" = false) as ->.
    { destruct k; cbn in Hn |- *; try discriminate.
      apply String.eqb_eq in Hn. subst s. reflexivity. }
    repeat split; first [reflexivity | assumption]. }
  destruct (is_str k "Square Filter") eqn:Hs.
  { apply bindM_Ok in H. destruct H as (fw & s5 & E & H).
    apply lift_Ok in E. destruct E as [_ ->].
    apply bindM_Ok in H. destruct H as (odd & s6 & E & H).
    apply lift_Ok in E. destruct E as [_ ->].
    apply bindM_Ok in H. destruct H as (f & s7 & E & H).
    apply lift_Ok in E. destruct E as [_ ->].
    inversion H; subst. repeat split; first [reflexivity | assumption]. }
  apply bindM_Ok in H. destruct H as (xz & s5 & E & H).
  apply lift_Ok in E. destruct E as [_ ->].
  destruct (neqb _ zero); inversion H; subst; repeat split; first [reflexivity | assumption].
Qed.
End BuiltinBackground.

(** The background [Constant] on the sample data. *)
Lemma builtin_bkg_block_has_one_row_per_field_run :
  let ext := sample_externals (N := Float64.numeric) [4; 14]%Z 1%float 1%float in
  exists z k,
    subac ext (sample_y (N := Float64.numeric)) (dec (N := Float64.numeric) 10001 4) (of_Z 1000) = Ok z
    /\ Specfit.zz (snd (Specfit.estimate_builtin_bkg ext (sample_x (N := Float64.numeric)) (sample_y (N := Float64.numeric))
                                                     (gaussians_fit ext))) = z
    /\ ditem (Specfit.fitconfig (gaussians_fit ext)) "fitbkg" = Ok k.
Proof.
  intros ext.
  destruct (@builtin_bkg_block_has_one_row_per_field
              Float64.numeric ext (sample_x (N := Float64.numeric)) (sample_y (N := Float64.numeric)) (gaussians_fit ext)
              (snd (Specfit.estimate_builtin_bkg ext (sample_x (N := Float64.numeric)) (sample_y (N := Float64.numeric)) (gaussians_fit ext)))
              [1%float] [[0%float]; [0%float]; [0%float]]
              (Some (map (fun _ => 1%float) (sample_y (N := Float64.numeric)))))
    as (z & k & Hz & _ & Hzz & Hk & _ & _).
  - apply pair_of_fst. vm_compute. reflexivity.
  - exists z, k. split; [exact Hz |]. split; [exact Hzz | exact Hk].
Defined.

(** ** estimate: the names of the peak parameters *)

Section PeakNames.
Context {N : Numeric}.
Import Specfit.




Variables (bkg_esti_parameters : list num) (bkg_esti_constraints : list (list num))
          (fun_esti_parameters : list num) (fun_esti_constraints : list (list num))
          (nb_fun_params_per_group : nat) (lo hi : num).


End PeakNames.



(** ** SpecfitFunctions.configure *)

Section FunctionsConfigure.
Context {N : Numeric}.
Import SpecfitFunctions.

Lemma map_no_hit (d : dict pyval) (hit : string -> bool) (v : pyval) :
  existsb (fun kv => hit (fst kv)) d = false ->
  map (fun kv => if hit (fst kv) then (fst kv, v) else kv) d = d.
Proof.
  induction d as [| [k w] d IH]; cbn; [reflexivity |].
  intros H. apply orb_false_iff in H. destruct H as [H1 H2].
  rewrite H1, IH by exact H2. reflexivity.
Qed.

Lemma dset_absent {V} (d : dict V) (k : string) (v : V) :
  dget d k = None -> dset d k v = d ++ [(k, v)].
Proof.
  induction d as [| [k' w] d IH]; cbn; [reflexivity |].
  destruct (String.eqb k' k); [discriminate |].
  intros H. rewrite IH by exact H. reflexivity.
Qed.

Lemma dkeys_map_hit (d : dict pyval) (hit : string -> bool) (v : pyval) :
  dkeys (map (fun kv => if hit (fst kv) then (fst kv, v) else kv) d) = dkeys d.
Proof.
  unfold dkeys. rewrite map_map. apply map_ext. intros [k w]. cbn.
  destruct (hit k); reflexivity.
Qed.

(** [configure(key=v)] writes the dictionary it returns through the
    address the instance holds.  A key of the dictionary is updated when
    it equals [key] up to the case of the letters, and no other value
    changes; when some key matches, no key is added; when none does,
    [key] is added last, spelt as given. *)
Theorem configure_matches_keys_up_to_case
        (self : t) (key : string) (v : pyval) (h : store) :
  let d := load h (config self) in
  let d' := configure_key d key v in
  let known := existsb (fun kv => String.eqb (lower (fst kv)) (lower key)) d in
  configure self [(key, v)] h = (Ok d', write h (config self) d')
  /\ (forall k v0, dget d k = Some v0 ->
                   dget d' k = Some (if String.eqb (lower k) (lower key) then v else v0))
  /\ (known = true -> dkeys d' = dkeys d)
  /\ (known = false -> d' = d ++ [(key, v)]).
Proof.
  intros d d' known. split; [reflexivity |].
  unfold d', configure_key. cbv zeta. fold known.
  destruct known eqn:Hk.
  - split; [| split; [intros _;
             apply (dkeys_map_hit d (fun k => String.eqb (lower k) (lower key)) v) | discriminate]].
    intros k v0 H.
    rewrite (dget_map_hit d (fun k => String.eqb (lower k) (lower key)) v k), H.
    reflexivity.
  - assert (Hmap : map (fun kv => if String.eqb (lower (fst kv)) (lower key)
                                  then (fst kv, v) else kv) d = d)
      by (apply (map_no_hit d (fun k => String.eqb (lower k) (lower key)) v); exact Hk).
    rewrite Hmap.
    assert (Habs : dget d key = None).
    { destruct (dget d key) as [w |] eqn:E; [| reflexivity].
      pose proof (not_existsb_hit_dget d (fun k => String.eqb (lower k) (lower key))
                                       key Hk E) as Hf.
      cbv beta in Hf. rewrite String.eqb_refl in Hf. discriminate. }
    split; [| split; [discriminate | intros _; apply dset_absent; exact Habs]].
    intros k v0 H.
    rewrite (not_existsb_hit_dget d (fun k => String.eqb (lower k) (lower key)) k Hk H).
    assert (Hne : k <> key) by (intros ->; congruence).
    rewrite dget_dset_other by exact Hne. exact H.
Qed.
End FunctionsConfigure.

(** ** Registered theories and the derivative *)

Section Registered.
Context {N : Numeric} (ext : Externals).
Import Specfit.

(** A theory that has been added can be selected: [settheory] returns,
    [fitconfig['fittheory']] is its name and [theoryfun] its function;
    the other theories stay registered.  [modelderiv] is [None] even
    when the theory was added with a derivative: the entry has five
    items and [settheory] looks for a sixth. *)
Theorem added_theory_is_selected_without_its_derivative
        (theory_name : string) (function : model_fun) (parameters : list string)
        (estimate : option estimator)
        (configure : option (dict pyval -> M SpecfitFunctions.store (dict pyval)))
        (derivative : option (list num -> Z -> list num -> res (list num)))
        (self : t) :
  let added := snd (addtheory theory_name function parameters estimate configure
                              derivative self) in
  exists self',
    settheory theory_name added = (Ok tt, self')
    /\ dget (fitconfig self') "fittheory" = Some (VStr theory_name)
    /\ theoryfun self' = Some function
    /\ modelderiv self' = Some false
    /\ dget (theorydict self') theory_name
       = Some {| t_function := function; t_parameters := parameters;
                 t_estimate := estimate; t_configure := configure;
                 t_derivative := derivative |}
    /\ forall other, other <> theory_name ->
                     dget (theorydict self') other = dget (theorydict self) other.
Proof.
  intros added.
  assert (Hd : dget (theorydict added) theory_name
               = Some {| t_function := function; t_parameters := parameters;
                         t_estimate := estimate; t_configure := configure;
                         t_derivative := derivative |})
    by (unfold added; cbn; apply dget_dset_same).
  destruct (settheory_known added theory_name Hd) as (self' & E & H1 & H2 & H3).
  exists self'. split; [exact E |]. split; [exact H1 |]. split; [exact H2 |].
  split; [exact H3 |].
  assert (Ht : theorydict self' = theorydict added).
  { unfold settheory, bindM, get in E. rewrite Hd in E.
    cbn in E. inversion E. reflexivity. }
  rewrite Ht. split; [exact Hd |].
  intros other Hne. unfold added. cbn. apply dget_dset_other. exact Hne.
Qed.

End Registered.


(** ** mcaregions *)

Section Regions.
Import Specfit.
Local Open Scope R_scope.

Lemma min2_real (a b : R) : min2 (N := Reals.numeric) a b = Rmin a b.
Proof.
  unfold min2. cbn [ltb Reals.numeric]. unfold Reals.real_ltb, Rmin.
  destruct (Rlt_dec b a), (Rle_dec a b); lra.
Qed.

Lemma max2_real (a b : R) : max2 (N := Reals.numeric) a b = Rmax a b.
Proof.
  unfold max2. cbn [ltb Reals.numeric]. unfold Reals.real_ltb, Rmax.
  destruct (Rlt_dec a b), (Rle_dec a b); lra.
Qed.

Lemma py_index_last {A} (l : list A) (d : A) :
  l <> [] -> py_index l (-1) = Ok (last l d).
Proof.
  intros Hl. unfold py_index.
  assert ((0 <=? -1)%Z = false) as -> by reflexivity.
  assert ((- Z.of_nat (List.length l) <=? -1)%Z = true) as ->.
  { apply Z.leb_le. destruct l; [congruence | cbn [List.length]; lia]. }
  destruct (exists_last Hl) as (l' & a & ->).
  rewrite last_last, length_app. cbn [List.length].
  replace (Z.to_nat (Z.of_nat (List.length l' + 1) + -1)) with (List.length l') by lia.
  rewrite nth_error_app2, Nat.sub_diag by lia. reflexivity.
Qed.

Lemma rev_cons_inv {A} (l before : list A) (r : A) :
  rev l = r :: before -> l = rev before ++ [r].
Proof.
  intros H. rewrite <- (rev_involutive l), H. reflexivity.
Qed.

Section Step.
Variables (delta lo hi : R).

Local Abbreviation step := (region_step (N := Reals.numeric) delta delta lo hi).
Local Abbreviation x0_of := (fun peak : R => Rmax (peak - delta) lo).
Local Abbreviation x1_of := (fun peak : R => Rmin (peak + delta) hi).

Lemma region_step_cases (regions : list (R * R)) (peak : R) :
  (regions = [] /\ step regions peak = [(x0_of peak, x1_of peak)])
  \/ exists before a b,
      regions = before ++ [(a, b)]
      /\ ((x0_of peak < a /\ step regions peak = before ++ [(x0_of peak, b)])
          \/ (a <= x0_of peak < b /\ step regions peak = before ++ [(a, x1_of peak)])
          \/ (a <= x0_of peak /\ b <= x0_of peak
              /\ step regions peak = regions ++ [(x0_of peak, x1_of peak)])).
Proof.
  unfold region_step. cbv zeta. rewrite max2_real, min2_real.
  cbn [sub add num Reals.numeric].
  destruct (rev regions) as [| [a b] before] eqn:E.
  - left. split; [| reflexivity].
    apply (f_equal (@rev _)) in E. rewrite rev_involutive in E. exact E.
  - right. exists (rev before), a, b.
    split; [apply rev_cons_inv; exact E |].
    cbn [ltb Reals.numeric]. unfold Reals.real_ltb.
    destruct (Rlt_dec (Rmax (peak - delta) lo) a) as [H1 | H1].
    + left. split; [exact H1 | reflexivity].
    + destruct (Rlt_dec (Rmax (peak - delta) lo) b) as [H2 | H2].
      * right. left. split; [lra | reflexivity].
      * right. right. split; [lra |]. split; [lra | reflexivity].
Qed.

Lemma region_fold_bounds (peaks : list R) :
  forall regions,
    Forall (fun r => lo <= fst r /\ snd r <= hi) regions ->
    Forall (fun r => lo <= fst r /\ snd r <= hi) (fold_left step peaks regions)
    /\ (List.length (fold_left step peaks regions)
        <= List.length regions + List.length peaks)%nat
    /\ (regions <> [] \/ peaks <> [] -> fold_left step peaks regions <> []).
Proof.
  induction peaks as [| p peaks IH]; intros regions Hin.
  - cbn. split; [exact Hin |]. split; [lia |]. intros [H | H]; congruence.
  - cbn [fold_left].
    assert (Hx0 : lo <= x0_of p) by apply Rmax_r.
    assert (Hx1 : x1_of p <= hi) by apply Rmin_r.
    assert (Hstep : Forall (fun r => lo <= fst r /\ snd r <= hi) (step regions p)
                    /\ (List.length (step regions p) <= List.length regions + 1)%nat
                    /\ step regions p <> []).
    { destruct (region_step_cases regions p)
        as [[-> ->] | (before & a & b & -> & [[_ ->] | [[_ ->] | (_ & _ & ->)]])].
      - split; [constructor; [split; cbn [fst snd]; assumption | constructor] |]. split; [cbn; lia | discriminate].
      - apply Forall_app in Hin. destruct Hin as [Hb Hl].
        inversion Hl as [| ? ? [Ha Hb'] _]; subst. cbn [fst snd] in *.
        split; [apply Forall_app; split; [exact Hb | constructor; [split; cbn [fst snd]; assumption | constructor]] |].
        split; [rewrite !length_app; cbn; lia |].
        intros H. apply app_eq_nil in H. destruct H; discriminate.
      - apply Forall_app in Hin. destruct Hin as [Hb Hl].
        inversion Hl as [| ? ? [Ha Hb'] _]; subst. cbn [fst snd] in *.
        split; [apply Forall_app; split; [exact Hb | constructor; [split; cbn [fst snd]; assumption | constructor]] |].
        split; [rewrite !length_app; cbn; lia |].
        intros H. apply app_eq_nil in H. destruct H; discriminate.
      - split; [apply Forall_app; split; [exact Hin | constructor; [split; cbn [fst snd]; assumption | constructor]] |].
        split; [rewrite !length_app; cbn; lia |].
        intros H. apply app_eq_nil in H. destruct H; discriminate. }
    destruct Hstep as (Hs1 & Hs2 & Hs3).
    destruct (IH _ Hs1) as (I1 & I2 & I3).
    split; [exact I1 |].
    split; [cbn [List.length num Reals.numeric] in *; lia |].
    intros _. apply I3. left. exact Hs3.
Qed.
End Step.

Lemma chained_snoc (l : list (R * R)) (a b : R) :
  chained (l ++ [(a, b)])
  <-> chained l /\ Forall (fun r => snd r <= a) l /\ a <= b.
Proof.
  induction l as [| [a0 b0] l IH]; cbn [app chained].
  - split.
    + intros (H & _ & _). repeat split; [constructor | exact H].
    + intros (_ & _ & H). repeat split; [exact H | constructor].
  - rewrite IH. split.
    + intros (H1 & H2 & H3 & H4 & H5).
      apply Forall_app in H2. destruct H2 as [H2 H2'].
      inversion H2'; subst. cbn [fst] in *.
      repeat split; try assumption. constructor; assumption.
    + intros ((H1 & H2 & H3) & H4 & H5).
      inversion H4; subst. cbn [snd] in *.
      repeat split; try assumption.
      apply Forall_app. split; [assumption |]. constructor; [assumption | constructor].
Qed.

Section Sorted.
Variables (delta lo hi : R).
Hypothesis delta_nonneg : 0 <= delta.

Local Abbreviation step := (region_step (N := Reals.numeric) delta delta lo hi).
Local Abbreviation x0_of := (fun peak : R => Rmax (peak - delta) lo).
Local Abbreviation x1_of := (fun peak : R => Rmin (peak + delta) hi).

(** What holds of the regions once the peak [q] has been handled. *)
Let settled (q : R) (seen : list R) (regions : list (R * R)) : Prop :=
  chained regions
  /\ (exists before a, regions = before ++ [(a, x1_of q)] /\ a <= x0_of q)
  /\ Forall (fun p => exists a b, In (a, b) regions /\ a <= p <= b) seen.

Lemma covered_weaken (seen : list R) (before : list (R * R)) (a b b' : R) :
  b <= b' ->
  Forall (fun p => exists a0 b0, In (a0, b0) (before ++ [(a, b)]) /\ a0 <= p <= b0) seen ->
  Forall (fun p => exists a0 b0, In (a0, b0) (before ++ [(a, b')]) /\ a0 <= p <= b0) seen.
Proof.
  intros Hb H. eapply Forall_impl; [| exact H].
  intros p (a0 & b0 & Hin & Hp). apply in_app_or in Hin. destruct Hin as [Hin | Hin].
  - exists a0, b0. split; [apply in_or_app; left; exact Hin | exact Hp].
  - destruct Hin as [Heq | []]. inversion Heq; subst.
    exists a0, b'. split; [apply in_or_app; right; left; reflexivity | lra].
Qed.

Lemma covered_more (seen : list R) (regions : list (R * R)) (r : R * R) :
  Forall (fun p => exists a0 b0, In (a0, b0) regions /\ a0 <= p <= b0) seen ->
  Forall (fun p => exists a0 b0, In (a0, b0) (regions ++ [r]) /\ a0 <= p <= b0) seen.
Proof.
  intros H. eapply Forall_impl; [| exact H].
  intros p (a0 & b0 & Hin & Hp). exists a0, b0.
  split; [apply in_or_app; left; exact Hin | exact Hp].
Qed.

Lemma settled_step (q p : R) (seen : list R) (regions : list (R * R)) :
  q <= p -> lo <= p <= hi ->
  settled q seen regions ->
  settled p (seen ++ [p]) (step regions p).
Proof.
  intros Hqp Hp (Hch & (before & a & Hreg & Ha) & Hcov).
  assert (M0 : x0_of q <= x0_of p) by (apply Rle_max_compat_r; lra).
  assert (M1 : x1_of q <= x1_of p) by (apply Rle_min_compat_r; lra).
  assert (P0 : x0_of p <= p) by (apply Rmax_lub; lra).
  assert (P1 : p <= x1_of p) by (apply Rmin_glb; lra).
  destruct (region_step_cases delta lo hi regions p)
    as [[-> _] | (before' & a' & b' & Hreg' & Hcases)].
  { destruct before; discriminate. }
  rewrite Hreg in Hreg'. apply app_inj_tail in Hreg'.
  destruct Hreg' as [<- Hab]. inversion Hab; subst a' b'. clear Hab.
  destruct Hcases as [[Hlt _] | [[Hmid ->] | (_ & Hge & ->)]].
  - lra.
  - subst regions. apply chained_snoc in Hch. destruct Hch as (C1 & C2 & C3).
    split; [apply chained_snoc; repeat split; [exact C1 | exact C2 | lra] |].
    split; [exists before, a; split; [reflexivity | lra] |].
    apply Forall_app. split.
    + apply covered_weaken with (b := x1_of q); [exact M1 | exact Hcov].
    + constructor; [| constructor].
      exists a, (x1_of p). split; [apply in_or_app; right; left; reflexivity | lra].
  - split.
    + apply chained_snoc. split; [exact Hch |]. split; [| lra].
      subst regions. apply chained_snoc in Hch. destruct Hch as (C1 & C2 & C3).
      apply Forall_app. split.
      * eapply Forall_impl; [| exact C2]. intros r Hr. cbv beta in *. lra.
      * constructor; [cbn [snd]; exact Hge | constructor].
    + split; [exists regions, (x0_of p); split; [reflexivity | lra] |].
      apply Forall_app. split; [apply covered_more; exact Hcov |].
      constructor; [| constructor].
      exists (x0_of p), (x1_of p).
      split; [apply in_or_app; right; left; reflexivity | lra].
Qed.

Lemma settled_fold (peaks : list R) :
  forall q seen regions,
    ascending q peaks ->
    Forall (fun p => lo <= p <= hi) peaks ->
    settled q seen regions ->
    exists q', settled q' (seen ++ peaks) (fold_left step peaks regions).
Proof.
  induction peaks as [| p peaks IH]; intros q seen regions Hasc Hin Hs.
  - exists q. rewrite app_nil_r. exact Hs.
  - destruct Hasc as [Hqp Hasc]. inversion Hin as [| ? ? Hp Hin']; subst.
    cbn [fold_left].
    destruct (IH p (seen ++ [p]) (step regions p) Hasc Hin'
                 (settled_step Hqp Hp Hs)) as [q' Hq'].
    exists q'. rewrite <- app_assoc in Hq'. exact Hq'.
Qed.

Lemma settled_first (p : R) :
  lo <= p <= hi -> settled p [p] (step (@nil (R * R)) p).
Proof.
  intros Hp.
  assert (P0 : x0_of p <= p) by (apply Rmax_lub; lra).
  assert (P1 : p <= x1_of p) by (apply Rmin_glb; lra).
  destruct (region_step_cases delta lo hi [] p)
    as [[_ ->] | (before & a & b & Hreg & _)];
    [| destruct before; discriminate].
  split; [cbn; repeat split; [lra | constructor] |].
  split; [exists [], (x0_of p); split; [reflexivity | lra] |].
  constructor; [| constructor].
  exists (x0_of p), (x1_of p). split; [left; reflexivity | lra].
Qed.
End Sorted.

(** On data that are not empty [mcaregions] returns, leaves the object
    as it is, and gives at most one region per peak, and at least one
    when there is a peak; every region [[a, b]] lies in the range of the
    data: [min(x[0], x[-1]) <= a] and [b <= max(x[0], x[-1])]. *)
Theorem mcaregions_stay_within_the_data
        (peaks : list R) (fwhm : R) (self : t (N := Reals.numeric)) :
  xdata self <> [] ->
  let first := hd 0 (xdata self) in
  let lst := last (xdata self) 0 in
  exists regions,
    mcaregions (N := Reals.numeric) peaks fwhm self = (Ok regions, self)
    /\ (List.length regions <= List.length peaks)%nat
    /\ (peaks <> [] -> regions <> [])
    /\ forall a b, In (a, b) regions -> Rmin first lst <= a /\ b <= Rmax first lst.
Proof.
  intros Hx first lst.
  assert (H0 : py_index (xdata self) 0 = Ok first).
  { unfold first. destruct (xdata self); [congruence | reflexivity]. }
  assert (Hl : py_index (xdata self) (-1) = Ok lst) by (apply py_index_last; exact Hx).
  eexists. split.
  - unfold mcaregions. cbv zeta.
    unfold bindM at 1. unfold get at 1. cbv iota beta.
    rewrite H0, Hl. unfold bindM, lift, ret. cbv iota beta. reflexivity.
  - rewrite min2_real, max2_real.
    destruct (@region_fold_bounds (3 * fwhm) (Rmin first lst) (Rmax first lst) peaks [])
      as (I1 & I2 & I3); [constructor |].
    cbn [mul of_Z Reals.numeric].
    split; [cbn [List.length num Reals.numeric] in *; lia |].
    split; [intros Hp; apply I3; right; exact Hp |].
    intros a b Hin. rewrite Forall_forall in I1. exact (I1 (a, b) Hin).
Qed.
(** For peaks in ascending order that lie in the range of the data and a
    width that is not negative, the regions of [mcaregions] are
    intervals [a <= b] that follow one another without overlapping, and
    every peak lies in one of them. *)
Theorem mcaregions_of_ascending_peaks_are_disjoint_and_cover
        (p0 : R) (peaks : list R) (fwhm : R) (self : t (N := Reals.numeric)) :
  xdata self <> [] ->
  0 <= fwhm ->
  ascending p0 peaks ->
  let lo := Rmin (hd 0 (xdata self)) (last (xdata self) 0) in
  let hi := Rmax (hd 0 (xdata self)) (last (xdata self) 0) in
  Forall (fun p => lo <= p <= hi) (p0 :: peaks) ->
  exists regions,
    mcaregions (N := Reals.numeric) (p0 :: peaks) fwhm self = (Ok regions, self)
    /\ chained regions
    /\ Forall (fun p => exists a b, In (a, b) regions /\ a <= p <= b) (p0 :: peaks).
Proof.
  intros Hx Hf Hasc lo hi Hin.
  assert (H0 : py_index (xdata self) 0 = Ok (hd 0 (xdata self))).
  { destruct (xdata self); [congruence | reflexivity]. }
  assert (Hl : py_index (xdata self) (-1) = Ok (last (xdata self) 0))
    by (apply py_index_last; exact Hx).
  eexists. split.
  - unfold mcaregions. cbv zeta.
    unfold bindM at 1. unfold get at 1. cbv iota beta.
    rewrite H0, Hl. unfold bindM, lift, ret. cbv iota beta. reflexivity.
  - rewrite min2_real, max2_real. fold lo. fold hi.
    cbn [mul of_Z Reals.numeric fold_left].
    inversion Hin as [| ? ? Hp0 Hin']; subst.
    assert (Hd : 0 <= 3 * fwhm) by lra.
    destruct (@settled_fold (3 * fwhm) lo hi Hd peaks p0 [p0] _ Hasc Hin'
                            (@settled_first (3 * fwhm) lo hi Hd p0 Hp0))
      as (q' & Hch & _ & Hcov).
    split; [exact Hch | exact Hcov].
Qed.
End Regions.

(** Two peaks on data from 0 to 10. *)
Lemma mcaregions_stay_within_the_data_run :
  let self := Specfit.set_xdata (N := Reals.numeric) [0; 10]%R fresh_driver in
  exists regions,
    Specfit.mcaregions (N := Reals.numeric) [2; 3]%R 1%R self = (Ok regions, self)
    /\ (List.length regions <= 2)%nat.
Proof.
  intros self.
  destruct (@mcaregions_stay_within_the_data [2; 3]%R 1%R self)
    as (regions & E & Hl & _).
  - discriminate.
  - exists regions. split; [exact E | exact Hl].
Defined.

Lemma mcaregions_of_ascending_peaks_are_disjoint_and_cover_run :
  let self := Specfit.set_xdata (N := Reals.numeric) [0; 10]%R fresh_driver in
  exists regions,
    Specfit.mcaregions (N := Reals.numeric) [2; 3]%R 1%R self = (Ok regions, self)
    /\ chained regions.
Proof.
  intros self.
  destruct (@mcaregions_of_ascending_peaks_are_disjoint_and_cover 2%R [3%R] 1%R self)
    as (regions & E & Hc & _).
  - discriminate.
  - lra.
  - cbn. split; [lra | exact I].
  - cbn [Specfit.xdata Specfit.set_xdata self hd last].
    assert (Rmin 0 10 = 0)%R as -> by (apply Rmin_left; lra).
    assert (Rmax 0 10 = 10)%R as -> by (apply Rmax_right; lra).
    repeat constructor; lra.
  - exists regions. split; [exact E | exact Hc].
Defined.

(** ** The residual search: what it does to the object *)

Section SearchEffects.
Context {N : Numeric} (ext : Externals).
Import Specfit.
Local Open Scope num_scope.

Lemma zip_with_Ok_inv (f : num -> num -> num) (a b r : list num) :
  zip_with f a b = Ok r ->
  List.length a = List.length b
  /\ List.length r = List.length a
  /\ forall j d, nth j r d = match nth_error a j, nth_error b j with
                             | Some u, Some v => f u v
                             | _, _ => d
                             end.
Proof.
  revert b r. induction a as [| u a IH]; intros [| v b] r H; cbn in H;
    try discriminate.
  - inversion H; subst. repeat split. intros [| j] d; reflexivity.
  - apply bind_Ok in H. destruct H as (r' & Hr' & H). inversion H; subst.
    destruct (IH b r' Hr') as (H1 & H2 & H3).
    split; [cbn; congruence |]. split; [cbn; congruence |].
    intros [| j] d; cbn; [reflexivity | apply H3].
Qed.

Lemma scan_positions (pl : list param) :
  forall fw c c1 c2 i pk,
  exists fw' c' c1' c2' i',
    fold_left fwhm_step pl (fw, c, c1, c2, i, pk)
    = (fw', c', c1', c2', i', pk ++ fitted_positions pl).
Proof.
  induction pl as [| p pl IH]; intros fw c c1 c2 i pk.
  - exists fw, c, c1, c2, i. cbn. rewrite app_nil_r. reflexivity.
  - cbn [fold_left]. unfold fwhm_step at 2. unfold fitted_positions.
    cbn [filter].
    destruct (contains "Position" (name p)); cbn [map];
      [replace (pk ++ fitresult p :: map fitresult
                      (filter (fun p0 => contains "Position" (name p0)) pl))
         with ((pk ++ [fitresult p]) ++ fitted_positions pl)
         by (rewrite <- app_assoc; reflexivity) |];
      destruct (contains "Fwhm" (name p)); try destruct (unconstrained (code p));
      apply IH.
Qed.

Lemma mask_fold (x : list num) (fwhm : num) (peaks : list num) :
  forall yfit y res yfit' y' res',
    foldM (mask_step x fwhm) peaks (yfit, y, res) = Ok (yfit', y', res') ->
    List.length y' = List.length y
    /\ (peaks <> [] -> List.length y = List.length x)
    /\ forall k d, (k < List.length y)%nat ->
                   nth k y' d
                   = fold_left (fun v peak => v * mask_factor fwhm peak (nth k x d))
                               peaks (nth k y d).
Proof.
  induction peaks as [| peak peaks IH]; intros yfit y res yfit' y' res' H.
  - cbn in H. inversion H; subst. split; [reflexivity |].
    split; [intros E; contradiction E; reflexivity | intros k d _; reflexivity].
  - cbn [foldM] in H. apply bind_Ok in H. destruct H as ([[yf1 y1] r1] & Hs & H).
    unfold mask_step in Hs.
    apply bind_Ok in Hs. destruct Hs as (yf2 & _ & Hs).
    apply bind_Ok in Hs. destruct Hs as (y2 & Hy2 & Hs).
    apply bind_Ok in Hs. destruct Hs as (r2 & _ & Hs).
    inversion Hs; subst yf2 y2 r2. clear Hs.
    apply zip_with_Ok_inv in Hy2. destruct Hy2 as (L1 & L2 & Hn).
    rewrite length_map in L1.
    destruct (IH _ _ _ _ _ _ H) as (I1 & _ & I3).
    split; [etransitivity; [exact I1 | exact L2] |]. split; [intros _; exact L1 |].
    intros k d Hk. rewrite I3 by (rewrite L2; exact Hk). cbn [fold_left].
    f_equal. rewrite Hn.
    assert (Hyk : nth_error y k = Some (nth k y d)) by (apply nth_error_nth'; exact Hk).
    rewrite Hyk, nth_error_map.
    assert (Hxk : nth_error x k = Some (nth k x d))
      by (apply nth_error_nth'; rewrite <- L1; exact Hk).
    rewrite Hxk. reflexivity.
Qed.

Tactic Notation "open" hyp(H) "as" ident(a) :=
  let s1 := fresh "s" in
  let E := fresh "E" in
  apply bindM_Ok in H; destruct H as (a & s1 & E & H);
  first [ apply get_Ok in E; destruct E; subst a s1
        | apply lift_Ok in E; destruct E as [E ?]; subst s1
        | idtac ].

(** With a background other than [Square Filter], a residual search
    that returns has overwritten [self.ydata] (the products [y *= idx]
    are made in place): sample [j] has been multiplied, for each fitted
    position in turn, by [0] when its abscissa is within [0.8 * fwhm] of
    that position and by [1] otherwise, [fwhm] being the width the
    search kept.  The length of the data is unchanged, and equal to the
    length of [xdata] when there is a position. *)
Theorem residual_search_masks_the_data_in_place
        (st st1 : t) (k : pyval) (newpar : list num)
        (newcons : list string * list num * list num) :
  ditem (fitconfig st) "fitbkg" = Ok k ->
  is_str k "Square Filter" = false ->
  mcaresidualssearch ext st = (Ok (newpar, newcons), st1) ->
  List.length (ydata st1) = List.length (ydata st)
  /\ (fitted_positions (paramlist st) <> [] ->
      List.length (ydata st) = List.length (xdata st))
  /\ forall j d, (j < List.length (ydata st))%nat ->
                 nth j (ydata st1) d
                 = fold_left (fun v peak =>
                                v * mask_factor (fwhm_of (paramlist st)) peak
                                                (nth j (xdata st) d))
                             (fitted_positions (paramlist st))
                             (nth j (ydata st) d).
Proof.
  intros Hk Hsq H. unfold mcaresidualssearch in H.
  open H as self. open H as k'. rewrite Hk in E. inversion E; subst k'.
  rewrite Hsq in H.
  unfold fwhm_of.
  destruct (scan_positions (paramlist st) (of_Z 10) "POSITIVE" zero zero (-1)%Z [])
    as (fw & c & c1 & c2 & i & Hscan).
  unfold fwhm_scan in *. rewrite Hscan in *. cbn [app] in *.
  open H as yfit0.
  open H as self1. open H as d. open H as residuals0. open H as masked.
  destruct masked as [[yfit y] residuals].
  open H as u.
  assert (Hy : ydata st1 = y).
  { open H as maxres. open H as xs. open H as ppos. open H as d1. open H as hs.
    open H as height.
    destruct (leb height zero); [inversion H; reflexivity |].
    open H as self2. open H as ft. open H as th.
    destruct (fold_left _ _ _) as [[[np nc] done] |]; inversion H; reflexivity. }
  rewrite Hy.
  pose proof E3 as HM. apply mask_fold in HM. exact HM.
Qed.

(** With the background [Square Filter] the residual search does
    nothing: whether it returns or raises the object is as it was, and
    what it returns is the empty proposal.  So the loop of [mcafit] on
    the chi square adds no peak: it is left at its first turn, or
    raises, with the object unchanged. *)
Theorem square_filter_residual_search_is_idle (st : t) (k : pyval) :
  ditem (fitconfig st) "fitbkg" = Ok k ->
  is_str k "Square Filter" = true ->
  (forall r st1, mcaresidualssearch ext st = (r, st1) ->
                 st1 = st /\ (r = Ok no_peak \/ exists e, r = Raise e))
  /\ (forall fuel r st1, residuals_loop ext (S fuel) st = (r, st1) ->
                         st1 = st /\ (r = Ok true \/ exists e, r = Raise e)).
Proof.
  intros Hk Hsq.
  assert (Hs : forall r st1, mcaresidualssearch ext st = (r, st1) ->
                             st1 = st /\ (r = Ok no_peak \/ exists e, r = Raise e)).
  { intros r st1 H. unfold mcaresidualssearch in H.
    unfold bindM at 1 in H. unfold get at 1 in H. cbv iota beta in H.
    unfold bindM at 1 in H. unfold lift at 1 in H. rewrite Hk in H.
    cbv iota beta in H. rewrite Hsq in H.
    unfold bindM, lift, ret in H.
    destruct (py_index (paramlist st) 0) as [p0 | e].
    - destruct (squarefilter (ydata st) (estimation p0)) as [sq | e];
        inversion H; subst; split; eauto.
    - inversion H; subst; split; eauto. }
  split; [exact Hs |].
  intros fuel r st1 H. cbn [residuals_loop] in H.
  unfold bindM at 1 in H. unfold get at 1 in H. cbv iota beta in H.
  unfold bindM at 1 in H. unfold lift at 1 in H.
  destruct (chisq st) as [c |]; cbn [of_option] in H.
  - cbv iota beta in H. destruct (gtb c (dec 25 1)).
    + unfold bindM at 1 in H.
      pose proof (Hs (fst (mcaresidualssearch ext st)) (snd (mcaresidualssearch ext st))
                     (surjective_pairing _)) as Hr.
      destruct (mcaresidualssearch ext st) as [r0 s0]. cbn [fst snd] in Hr.
      destruct Hr as [-> [-> | [e ->]]].
      * cbn in H. inversion H; subst; split; eauto.
      * inversion H; subst; split; eauto.
    + inversion H; subst; split; eauto.
  - inversion H; subst; split; eauto.
Qed.
End SearchEffects.

Lemma residual_fit_has_a_fourth_sample :
  (3 < List.length (Specfit.ydata (residual_fit (N := Float64.numeric))))%nat.
Proof.
  assert (E : List.length (Specfit.ydata (residual_fit (N := Float64.numeric))) = 20%nat)
    by reflexivity.
  rewrite E. lia.
Qed.

(** The search on the two fitted boxes: what has become of the sample
    of 8 at abscissa 3. *)
Lemma residual_search_masks_the_data_in_place_run :
  let ext := sample_externals (N := Float64.numeric) [] 0%float 0%float in
  nth 3 (Specfit.ydata (snd (Specfit.mcaresidualssearch ext residual_fit))) 0%float
  = fold_left (fun v peak =>
                 mul (Numeric := Float64.numeric) v (mask_factor (fwhm_of (Specfit.paramlist (residual_fit (N := Float64.numeric)))) peak
                                    (nth 3 (Specfit.xdata (residual_fit (N := Float64.numeric))) 0%float)))
              (fitted_positions (Specfit.paramlist (residual_fit (N := Float64.numeric))))
              (nth 3 (Specfit.ydata (residual_fit (N := Float64.numeric))) 0%float).
Proof.
  intros ext.
  destruct (@residual_search_masks_the_data_in_place
              Float64.numeric ext residual_fit
              (snd (Specfit.mcaresidualssearch ext residual_fit))
              (VStr "No Background")
              [Specfit.residual_area (N := Float64.numeric) 6 2; 9; 2]%float
              (["POSITIVE"; "QUOTED"; "FACTOR"], [0; 8; 5]%float, [0; 10; 1]%float))
    as (_ & _ & Hm).
  - reflexivity.
  - reflexivity.
  - apply pair_of_fst. exact residual_search_run.
  - apply (Hm 3%nat 0%float residual_fit_has_a_fourth_sample).
Defined.

(** The fit of the two boxes with the background [Square Filter]. *)
Lemma square_filter_residual_search_is_idle_run :
  let ext := sample_externals (N := Float64.numeric) [] 0%float 0%float in
  snd (Specfit.mcaresidualssearch ext square_filter_fit) = square_filter_fit.
Proof.
  intros ext.
  destruct (@square_filter_residual_search_is_idle
              Float64.numeric ext square_filter_fit (VStr "Square Filter")) as (Hs & _).
  - reflexivity.
  - reflexivity.
  - destruct (Hs (fst (Specfit.mcaresidualssearch ext square_filter_fit))
                 (snd (Specfit.mcaresidualssearch ext square_filter_fit))
                 (surjective_pairing _)) as [E _].
    exact E.
Defined.

(** ** estimate_pvoigt, estimate_splitpvoigt *)

Section Blocks.
Context {N : Numeric}.
Import SpecfitFunctions.
Local Open Scope num_scope.

Lemma set_nth_out {A} (l : list A) (i : nat) (v : A) :
  (List.length l <= i)%nat -> set_nth l i v = l.
Proof.
  revert i. induction l as [| a l IH]; intros [| i] H; cbn in *; try lia; auto.
  rewrite IH by lia. reflexivity.
Qed.

Lemma length_put2 (c : list (list num)) (r k : nat) (v : num) :
  List.length (put2 c r k v) = List.length c.
Proof. unfold put2. apply length_set_nth. Qed.

Lemma rows3_put2 (c : list (list num)) (r k : nat) (v : num) :
  rows3 c -> rows3 (put2 c r k v).
Proof.
  intros H. unfold put2.
  destruct (Nat.lt_ge_cases r (List.length c)) as [Hr | Hr].
  - apply rows3_set_nth; [exact H |]. rewrite length_set_nth.
    apply rows3_nth; assumption.
  - rewrite set_nth_out by exact Hr. exact H.
Qed.

Lemma cell_put2 (c : list (list num)) (r k : nat) (v : num) (r' k' : nat) :
  (r < List.length c)%nat -> rows3 c -> (k < 3)%nat ->
  cell (put2 c r k v) r' k'
  = if andb (Nat.eqb r' r) (Nat.eqb k' k) then v else cell c r' k'.
Proof.
  intros Hr H3 Hk. unfold cell, put2. rewrite nth_set_nth.
  assert ((r <? List.length c)%nat = true) as -> by (apply Nat.ltb_lt; exact Hr).
  rewrite andb_true_r.
  destruct (Nat.eqb_spec r' r) as [-> |]; cbn [andb]; [| reflexivity].
  rewrite nth_set_nth.
  assert ((k <? List.length (nth r c []))%nat = true) as ->
      by (apply Nat.ltb_lt; rewrite (rows3_nth H3 Hr); exact Hk).
  rewrite andb_true_r. reflexivity.
Qed.

Lemma row_of_cells (c : list (list num)) (r : nat) :
  (r < List.length c)%nat -> rows3 c ->
  nth r c [] = [cell c r 0; cell c r 1; cell c r 2].
Proof.
  intros Hr H3. pose proof (rows3_nth H3 Hr) as L. unfold cell.
  destruct (nth r c []) as [| x0 [| x1 [| x2 [| ? ?]]]]; try discriminate.
  reflexivity.
Qed.

Lemma py_index_at {A} (l : list A) (z : Z) (i : nat) (d : A) :
  z = Z.of_nat i -> (i < List.length l)%nat -> py_index l z = Ok (nth i l d).
Proof. intros -> H. apply py_index_nat. exact H. Qed.

Lemma get2_at (c : list (list num)) (zr zk : Z) (r k : nat) :
  zr = Z.of_nat r -> zk = Z.of_nat k ->
  (r < List.length c)%nat -> rows3 c -> (k < 3)%nat ->
  get2 c zr zk = Ok (cell c r k).
Proof.
  intros -> -> Hr H3 Hk. unfold get2, cell.
  rewrite (py_index_nat c [] Hr). cbn [bind].
  apply py_index_nat. rewrite (rows3_nth H3 Hr). exact Hk.
Qed.

Lemma set2_at (c : list (list num)) (zr zk : Z) (r k : nat) (v : num) :
  zr = Z.of_nat r -> zk = Z.of_nat k ->
  (r < List.length c)%nat -> rows3 c -> (k < 3)%nat ->
  set2 c zr zk v = Ok (put2 c r k v).
Proof.
  intros -> -> Hr H3 Hk. unfold put2. apply set2_Ok; [exact Hr |].
  rewrite (rows3_nth H3 Hr). exact Hk.
Qed.

Lemma copy2_at (dst : list (list num)) (zd : Z) (src : list (list num)) (zs zk : Z)
      (dr sr k : nat) :
  zd = Z.of_nat dr -> zs = Z.of_nat sr -> zk = Z.of_nat k ->
  (dr < List.length dst)%nat -> rows3 dst ->
  (sr < List.length src)%nat -> rows3 src -> (k < 3)%nat ->
  copy2 dst zd src zs zk = Ok (put2 dst dr k (cell src sr k)).
Proof.
  intros Hd Hs Hk Hdr Hd3 Hsr Hs3 Hk3. unfold copy2.
  rewrite (get2_at Hs Hk Hsr Hs3 Hk3). cbn [bind].
  apply set2_at; assumption.
Qed.

Lemma rows3_zeros2 (n : nat) : rows3 (zeros2 n 3).
Proof.
  unfold rows3, zeros2. apply Forall_forall. intros r Hr.
  apply repeat_spec in Hr. subst r. reflexivity.
Qed.

Lemma length_zeros2 (n m : nat) : List.length (zeros2 n m) = n.
Proof. unfold zeros2. apply repeat_length. Qed.

Lemma nth_groups_from (k : nat) (g : nat -> list num) (m : nat) :
  (forall i, List.length (g i) = k) ->
  forall a i o d, (i < m)%nat -> (o < k)%nat ->
    nth (k * i + o) (flat_map g (seq a m)) d = nth o (g (a + i)%nat) d.
Proof.
  intros Hg. induction m as [| m IH]; intros a i o d Hi Ho; [lia |].
  cbn [seq flat_map]. destruct i as [| i].
  - rewrite Nat.mul_0_r, Nat.add_0_r. cbn [Nat.add].
    rewrite app_nth1 by (rewrite Hg; exact Ho). reflexivity.
  - rewrite app_nth2 by (rewrite Hg; lia). rewrite Hg.
    replace (k * S i + o - k)%nat with (k * i + o)%nat by lia.
    rewrite IH by lia. f_equal. f_equal. lia.
Qed.

Lemma nth_groups (k : nat) (g : nat -> list num) (m i o : nat) (d : num) :
  (forall i, List.length (g i) = k) -> (i < m)%nat -> (o < k)%nat ->
  nth (k * i + o) (flat_map g (seq 0 m)) d = nth o (g i) d.
Proof. intros Hg Hi Ho. apply (nth_groups_from g Hg). all: assumption. Qed.
End Blocks.

Section Shapes.
Context {N : Numeric} (ext : Externals).
Import SpecfitFunctions.
Local Open Scope num_scope.

(** [c'] has the rows of [c], each of three entries when those of [c]
    have three. *)
Let same_shape (c c' : list (list num)) : Prop :=
  List.length c' = List.length c /\ (rows3 c -> rows3 c').

Lemma py_setitem_Ok {A} (l : list A) (i : Z) (v : A) (l' : list A) :
  py_setitem l i v = Ok l' -> exists k, l' = set_nth l k v.
Proof.
  unfold py_setitem. intros H.
  destruct (andb _ _); [inversion H; eauto |].
  destruct (andb _ _); [inversion H; eauto | discriminate].
Qed.

Lemma py_index_In {A} (l : list A) (i : Z) (a : A) : py_index l i = Ok a -> In a l.
Proof.
  unfold py_index. intros H.
  destruct (0 <=? i)%Z.
  - destruct (nth_error l (Z.to_nat i)) eqn:E; cbn in H; [| discriminate].
    inversion H; subst. eapply nth_error_In; eauto.
  - destruct (_ <=? i)%Z; [| discriminate].
    destruct (nth_error l _) eqn:E; cbn in H; [| discriminate].
    inversion H; subst. eapply nth_error_In; eauto.
Qed.

Lemma set2_shape (c : list (list num)) (row col : Z) (v : num) (c' : list (list num)) :
  set2 c row col v = Ok c' -> same_shape c c'.
Proof.
  unfold set2. intros H.
  apply bind_Ok in H. destruct H as (r & Hr & H).
  apply bind_Ok in H. destruct H as (r' & Hr' & H).
  apply py_setitem_Ok in Hr'. destruct Hr' as (k & ->).
  apply py_setitem_Ok in H. destruct H as (k' & ->).
  split; [apply length_set_nth |].
  intros R. apply rows3_set_nth; [exact R |].
  rewrite length_set_nth. apply py_index_In in Hr.
  unfold rows3 in R. rewrite Forall_forall in R. apply R. exact Hr.
Qed.

Lemma same_shape_refl (c : list (list num)) : same_shape c c.
Proof. split; auto. Qed.

Lemma same_shape_trans (c1 c2 c3 : list (list num)) :
  same_shape c1 c2 -> same_shape c2 c3 -> same_shape c1 c3.
Proof. intros [L1 R1] [L2 R2]. split; [congruence | auto]. Qed.

Lemma set_row_shape (c : list (list num)) (row : Z) (a b d : num) (c' : list (list num)) :
  set_row c row a b d = Ok c' -> same_shape c c'.
Proof.
  unfold set_row. intros H.
  apply bind_Ok in H. destruct H as (c1 & H1 & H).
  apply bind_Ok in H. destruct H as (c2 & H2 & H).
  apply set2_shape in H1, H2, H.
  eapply same_shape_trans; [exact H1 |]. eapply same_shape_trans; eassumption.
Qed.

Ltac shape_inv :=
  repeat match goal with
         | H : bind _ _ = Ok _ |- _ =>
             let a := fresh "a" in
             let E := fresh "E" in
             apply bind_Ok in H; destruct H as (a & E & H)
         | H : (if ?b then _ else _) = Ok _ |- _ => destruct b
         | H : Ok _ = Ok _ |- _ => inversion H; subst; clear H
         | H : set_row _ _ _ _ _ = Ok _ |- _ => apply set_row_shape in H
         | H : set2 _ _ _ _ = Ok _ |- _ => apply set2_shape in H
         end.

Lemma final_step_shape (cfg : dict pyval) (x : list num) (il : Z)
      (c : list (list num)) (i : Z) (c' : list (list num)) :
  final_step cfg x il c i = Ok c' -> same_shape c c'.
Proof.
  unfold final_step. intros H. shape_inv;
    repeat match goal with
           | H : same_shape ?a ?b |- same_shape ?a ?d =>
               apply (same_shape_trans H); clear H
           end;
    try apply same_shape_refl; try assumption.
Qed.

Lemma final_loop_shape (cfg : dict pyval) (x : list num) (il : Z) (l : list Z) :
  forall c c', foldM (final_step cfg x il) l c = Ok c' -> same_shape c c'.
Proof.
  induction l as [| i l IH]; intros c c' H; cbn [foldM] in H.
  - inversion H. apply same_shape_refl.
  - apply bind_Ok in H. destruct H as (c1 & H1 & H).
    eapply same_shape_trans; [eapply final_step_shape; exact H1 | apply IH; exact H].
Qed.

(** The constraint block that [estimate_height_position_fwhm] returns
    has one row of three entries per fitted value. *)
Lemma estimated_block_shape (self : t) (x y : list num) (bg : option (list num))
      (yscaling : pyval) (h h1 : store) (fittedpar : list num) (cons : list (list num)) :
  estimate_height_position_fwhm ext self x y bg yscaling h = (Ok (fittedpar, cons), h1) ->
  List.length cons = List.length fittedpar /\ rows3 cons.
Proof.
  unfold estimate_height_position_fwhm. intros H.
  apply bindM_Ok in H. destruct H as (cfg & s1 & _ & H).
  apply bindM_Ok in H. destruct H as ([fw sens] & s2 & _ & H).
  apply bindM_Ok in H. destruct H as (cfg' & s3 & _ & H).
  apply bindM_Ok in H. destruct H as (peaks & s4 & _ & H).
  apply bindM_Ok in H. destruct H as ([fp il] & s5 & _ & H).
  apply bindM_Ok in H. destruct H as (c & s6 & E & H).
  unfold lift in E. inversion E as [[E1 E2]]. clear E.
  unfold ret in H. inversion H; subst. clear H.
  unfold final_constraints in E1. apply final_loop_shape in E1.
  destruct E1 as [L R]. rewrite length_zeros2 in L.
  split; [exact L | apply R; apply rows3_zeros2].
Qed.
End Shapes.

Ltac block_side :=
  first [ lia
        | reflexivity
        | assumption
        | rewrite ?length_put2; lia
        | repeat apply rows3_put2; assumption ].

Ltac decide_eqb :=
  repeat match goal with
         | |- context [Nat.eqb ?x ?y] =>
             destruct (Nat.eqb_spec x y); try lia; cbn [andb]
         end.

Ltac cells :=
  rewrite ?cell_put2 by block_side; decide_eqb; try reflexivity.

Section EtaRow.
Context {N : Numeric}.
Import SpecfitFunctions.
Local Open Scope num_scope.

Lemma eta_constraints_at (cfg : dict pyval) (qe : pyval) (nc : list (list num))
      (zr : Z) (r : nat) :
  ditem cfg "QuotedEtaFlag" = Ok qe ->
  zr = Z.of_nat r -> (r < List.length nc)%nat -> rows3 nc ->
  exists nc',
    eta_constraints cfg nc zr = Ok nc'
    /\ List.length nc' = List.length nc /\ rows3 nc'
    /\ nth r nc' [] = eta_row (truthy qe)
    /\ forall r', r' <> r -> nth r' nc' [] = nth r' nc [].
Proof.
  intros Hq Hz Hr H3. unfold eta_constraints.
  rewrite (set2_at (r := r) (k := 0)) by block_side. cbn [bind].
  rewrite (set2_at (r := r) (k := 1)) by block_side. cbn [bind].
  rewrite (set2_at (r := r) (k := 2)) by block_side. cbn [bind].
  rewrite Hq. cbn [bind]. unfold eta_row.
  assert (frame : forall c r' k v, r' <> r -> nth r' (put2 c r k v) [] = nth r' c []).
  { intros c r' k v Hne. unfold put2. apply nth_set_nth_other. congruence. }
  destruct (truthy qe).
  - rewrite (set2_at (r := r) (k := 0)) by block_side. cbn [bind].
    rewrite (set2_at (r := r) (k := 1)) by block_side. cbn [bind].
    rewrite (set2_at (r := r) (k := 2)) by block_side.
    eexists. split; [reflexivity |].
    split; [rewrite !length_put2; reflexivity |].
    split; [repeat apply rows3_put2; exact H3 |].
    split.
    + rewrite row_of_cells by block_side. f_equal; [| f_equal; [| f_equal]]; cells.
    + intros r' Hne. rewrite !frame by exact Hne. reflexivity.
  - eexists. split; [reflexivity |].
    split; [rewrite !length_put2; reflexivity |].
    split; [repeat apply rows3_put2; exact H3 |].
    split.
    + rewrite row_of_cells by block_side. f_equal; [| f_equal; [| f_equal]]; cells.
    + intros r' Hne. rewrite !frame by exact Hne. reflexivity.
Qed.
End EtaRow.

Section PseudoVoigt.
Context {N : Numeric} (ext : Externals).
Import SpecfitFunctions.
Local Open Scope num_scope.

Lemma put2_frame (c : list (list num)) (r k : nat) (v : num) (r' : nat) :
  r' <> r -> nth r' (put2 c r k v) [] = nth r' c [].
Proof. intros Hne. unfold put2. apply nth_set_nth_other. congruence. Qed.

Lemma free_fwhm_fold (cons : list (list num)) (n : nat) :
  (3 * n <= List.length cons)%nat -> rows3 cons ->
  forall m a j0, (a + m <= n)%nat ->
    foldM (fun j i => code <- get2 cons (3 * i + 2) 0 ;;
                      Ok (if neqb code (of_Z 4) then i else j))
          (map Z.of_nat (seq a m)) (Z.of_nat j0)
    = Ok (Z.of_nat (fold_left (fun j i => if neqb (cell cons (3 * i + 2) 0) (of_Z 4)
                                          then i else j)
                              (seq a m) j0)).
Proof.
  intros Hl H3. induction m as [| m IH]; intros a j0 Ha; [reflexivity |].
  cbn [seq map foldM fold_left].
  rewrite (get2_at (r := 3 * a + 2) (k := 0)) by block_side. cbn [bind].
  destruct (neqb (cell cons (3 * a + 2) 0) (of_Z 4)); apply IH; lia.
Qed.

Lemma free_fwhm_spec (cons : list (list num)) (n : nat) :
  (3 * n <= List.length cons)%nat -> rows3 cons ->
  free_fwhm cons n = Ok (Z.of_nat (last_untied cons n)).
Proof.
  intros Hl H3. unfold free_fwhm, last_untied, range.
  apply (@free_fwhm_fold cons n Hl H3 n 0%nat 0%nat). lia.
Qed.

(** The block once the widths of the peaks before [a] have been tied
    to the width of peak [j]. *)
Let tied (cons : list (list num)) (j a : nat) (c : list (list num)) : Prop :=
  List.length c = List.length cons /\ rows3 c
  /\ forall i o k, (o < 3)%nat -> (k < 3)%nat ->
       cell c (3 * i + o) k
       = if andb (andb (Nat.eqb o 2) (Nat.eqb k 1)) (andb (i <? a)%nat (negb (Nat.eqb i j)))
         then of_Z (4 * Z.of_nat j + 2) else cell cons (3 * i + o) k.

Lemma tie_fold (cons : list (list num)) (n j : nat) :
  (3 * n <= List.length cons)%nat -> rows3 cons ->
  forall m a c, (a + m <= n)%nat -> tied cons j a c ->
    exists c',
      foldM (fun c i => if negb (i =? Z.of_nat j)%Z
                        then set2 c (3 * i + 2) 1 (of_Z (4 * Z.of_nat j + 2))
                        else Ok c)
            (map Z.of_nat (seq a m)) c = Ok c'
      /\ tied cons j (a + m) c'.
Proof.
  intros Hl H3. induction m as [| m IH]; intros a c Ha (L & R & T).
  - exists c. split; [reflexivity |]. rewrite Nat.add_0_r. repeat split; assumption.
  - cbn [seq map foldM].
    destruct (Z.eqb_spec (Z.of_nat a) (Z.of_nat j)) as [E | E]; cbn [negb bind].
    + apply Nat2Z.inj in E. subst a.
      destruct (IH (S j) c ltac:(lia)) as (c' & Hc' & T').
      { repeat split; try assumption. intros i o k Ho Hk. rewrite T by assumption.
        destruct (Nat.eqb_spec i j) as [-> |]; cbn [negb andb].
        - rewrite !andb_false_r. reflexivity.
        - rewrite !andb_true_r.
          destruct (Nat.ltb_spec i j), (Nat.ltb_spec i (S j)); try lia; reflexivity. }
      exists c'. split; [exact Hc' |]. replace (j + S m)%nat with (S j + m)%nat by lia.
      exact T'.
    + rewrite (set2_at (r := 3 * a + 2) (k := 1)) by block_side. cbn [bind].
      destruct (IH (S a) (put2 c (3 * a + 2) 1 (of_Z (4 * Z.of_nat j + 2))) ltac:(lia))
        as (c' & Hc' & T').
      { split; [rewrite length_put2; exact L |].
        split; [apply rows3_put2; exact R |].
        intros i o k Ho Hk. rewrite cell_put2 by block_side. rewrite T by assumption.
        assert (Hne : a <> j) by congruence.
        destruct (Nat.eqb_spec (3 * i + o) (3 * a + 2)) as [E1 | E1];
          destruct (Nat.eqb_spec k 1) as [E2 | E2]; cbn [andb].
        - assert (i = a) by lia. assert (o = 2)%nat by lia. subst i o k.
          destruct (Nat.eqb_spec a j); [contradiction |].
          destruct (Nat.ltb_spec a (S a)); [| lia]. reflexivity.
        - rewrite !andb_false_r. reflexivity.
        - subst k. destruct (Nat.eqb_spec o 2) as [-> |]; cbn [andb]; [| reflexivity].
          assert (i <> a) by lia.
          destruct (Nat.ltb_spec i a), (Nat.ltb_spec i (S a)); try lia; reflexivity.
        - rewrite !andb_false_r. reflexivity. }
      exists c'. split; [exact Hc' |]. replace (a + S m)%nat with (S a + m)%nat by lia.
      exact T'.
Qed.

Lemma related_index_spec (cfg : dict pyval) (noc sv : pyval)
      (cons : list (list num)) (n : nat) :
  (3 * n <= List.length cons)%nat -> rows3 cons ->
  ditem cfg "NoConstraintsFlag" = Ok noc ->
  ditem cfg "SameFwhmFlag" = Ok sv ->
  let same := andb (negb (truthy noc)) (truthy sv) in
  let j := last_untied cons n in
  exists c,
    related_index cfg cons n = Ok c
    /\ List.length c = List.length cons /\ rows3 c
    /\ forall i o k, (i < n)%nat -> (o < 3)%nat -> (k < 3)%nat ->
         cell c (3 * i + o) k
         = if andb same (andb (andb (Nat.eqb o 2) (Nat.eqb k 1)) (negb (Nat.eqb i j)))
           then of_Z (4 * Z.of_nat j + 2) else cell cons (3 * i + o) k.
Proof.
  intros Hl H3 Hnoc Hsv same j. unfold related_index. rewrite Hnoc. cbn [bind].
  subst same. destruct (truthy noc); cbn [negb andb].
  { exists cons. repeat split; assumption. }
  rewrite Hsv. cbn [bind]. destruct (truthy sv).
  2: { exists cons. repeat split; assumption. }
  rewrite (@free_fwhm_spec cons n Hl H3). cbn [bind]. fold j.
  destruct (@tie_fold cons n j Hl H3 n 0%nat cons ltac:(lia)) as (c & Hc & L & R & T).
  { repeat split; try assumption. intros i o k _ _.
    destruct (Nat.ltb_spec i 0); [lia |]. cbn [andb].
    rewrite andb_false_r. reflexivity. }
  exists c. split; [exact Hc |]. split; [exact L |]. split; [exact R |].
  intros i o k Hi Ho Hk. rewrite T by assumption. cbn [Nat.add].
  destruct (Nat.ltb_spec i n); [| lia]. cbn [andb]. reflexivity.
Qed.

Section Steps.
Variables (cfg : dict pyval) (qe : pyval) (fittedpar : list num)
          (cons : list (list num)) (n : nat).
Hypothesis Hq : ditem cfg "QuotedEtaFlag" = Ok qe.
Hypothesis Hfp : (3 * n <= List.length fittedpar)%nat.
Hypothesis Hl : (3 * n <= List.length cons)%nat.
Hypothesis H3 : rows3 cons.

Lemma pvoigt_step_spec (a : nat) (newpar : list num) (nc : list (list num)) :
  (a < n)%nat -> List.length nc = (4 * n)%nat -> rows3 nc ->
  exists nc',
    pvoigt_step cfg fittedpar cons (newpar, nc) (Z.of_nat a)
    = Ok (newpar ++ [nth (3 * a) fittedpar zero; nth (3 * a + 1) fittedpar zero;
                     nth (3 * a + 2) fittedpar zero; dec 5 1], nc')
    /\ List.length nc' = (4 * n)%nat /\ rows3 nc'
    /\ (forall r, (r < 4 * a \/ 4 * a + 4 <= r)%nat -> nth r nc' [] = nth r nc [])
    /\ nth (4 * a) nc' [] = nth (3 * a) cons []
    /\ nth (4 * a + 1) nc' [] = nth (3 * a + 1) cons []
    /\ nth (4 * a + 2) nc' [] = nth (3 * a + 2) cons []
    /\ nth (4 * a + 3) nc' [] = eta_row (truthy qe).
Proof.
  intros Ha Hn Hr. unfold pvoigt_step.
  rewrite (@py_index_at _ fittedpar _ (3 * a) zero) by block_side. cbn [bind].
  rewrite (@py_index_at _ fittedpar _ (3 * a + 1) zero) by block_side. cbn [bind].
  rewrite (@py_index_at _ fittedpar _ (3 * a + 2) zero) by block_side. cbn [bind].
  rewrite (copy2_at (dr := 4 * a) (sr := 3 * a) (k := 0)) by block_side. cbn [bind].
  rewrite (copy2_at (dr := 4 * a + 1) (sr := 3 * a + 1) (k := 0)) by block_side. cbn [bind].
  rewrite (copy2_at (dr := 4 * a + 2) (sr := 3 * a + 2) (k := 0)) by block_side. cbn [bind].
  rewrite (copy2_at (dr := 4 * a) (sr := 3 * a) (k := 1)) by block_side. cbn [bind].
  rewrite (copy2_at (dr := 4 * a + 1) (sr := 3 * a + 1) (k := 1)) by block_side. cbn [bind].
  rewrite (copy2_at (dr := 4 * a + 2) (sr := 3 * a + 2) (k := 1)) by block_side. cbn [bind].
  rewrite (copy2_at (dr := 4 * a) (sr := 3 * a) (k := 2)) by block_side. cbn [bind].
  rewrite (copy2_at (dr := 4 * a + 1) (sr := 3 * a + 1) (k := 2)) by block_side. cbn [bind].
  rewrite (copy2_at (dr := 4 * a + 2) (sr := 3 * a + 2) (k := 2)) by block_side. cbn [bind].
  match goal with
  | |- context [eta_constraints cfg ?c _] =>
      destruct (@eta_constraints_at N cfg qe c (4 * Z.of_nat a + 3)%Z (4 * a + 3)%nat Hq)
        as (nc' & E & L' & R' & Heta & Hframe);
      [lia | rewrite ?length_put2; lia | repeat apply rows3_put2; exact Hr |]
  end.
  rewrite E. cbn [bind]. exists nc'. split; [reflexivity |].
  rewrite !length_put2 in L'.
  split; [congruence |]. split; [exact R' |].
  split; [| split; [| split; [| split]]].
  - intros r Hr'. rewrite Hframe by lia. rewrite !put2_frame by lia. reflexivity.
  - rewrite Hframe by lia. rewrite row_of_cells by block_side.
    rewrite (row_of_cells (c := cons)) by block_side.
    f_equal; [| f_equal; [| f_equal]]; cells.
  - rewrite Hframe by lia. rewrite row_of_cells by block_side.
    rewrite (row_of_cells (c := cons)) by block_side.
    f_equal; [| f_equal; [| f_equal]]; cells.
  - rewrite Hframe by lia. rewrite row_of_cells by block_side.
    rewrite (row_of_cells (c := cons)) by block_side.
    f_equal; [| f_equal; [| f_equal]]; cells.
  - exact Heta.
Qed.

(** The four entries and the four rows that [estimate_pvoigt] makes for
    a peak. *)
Let group (i : nat) : list num :=
  [nth (3 * i) fittedpar zero; nth (3 * i + 1) fittedpar zero;
   nth (3 * i + 2) fittedpar zero; dec 5 1].

Let filled (a : nat) (nc : list (list num)) : Prop :=
  List.length nc = (4 * n)%nat /\ rows3 nc
  /\ forall i, (i < a)%nat ->
       nth (4 * i) nc [] = nth (3 * i) cons []
       /\ nth (4 * i + 1) nc [] = nth (3 * i + 1) cons []
       /\ nth (4 * i + 2) nc [] = nth (3 * i + 2) cons []
       /\ nth (4 * i + 3) nc [] = eta_row (truthy qe).

Lemma pvoigt_loop (m : nat) :
  forall a newpar nc, (a + m <= n)%nat -> filled a nc ->
    exists nc',
      foldM (pvoigt_step cfg fittedpar cons) (map Z.of_nat (seq a m)) (newpar, nc)
      = Ok (newpar ++ flat_map group (seq a m), nc')
      /\ filled (a + m) nc'.
Proof.
  induction m as [| m IH]; intros a newpar nc Ha (L & R & F).
  - exists nc. cbn. rewrite app_nil_r, Nat.add_0_r.
    split; [reflexivity |]. split; [exact L |]. split; [exact R | exact F].
  - cbn [seq map foldM flat_map].
    destruct (@pvoigt_step_spec a newpar nc ltac:(lia) L R)
      as (nc1 & E & L1 & R1 & Fr & G0 & G1 & G2 & G3).
    rewrite E. cbn [bind].
    destruct (IH (S a) (newpar ++ group a) nc1 ltac:(lia)) as (nc' & E' & F').
    { split; [exact L1 |]. split; [exact R1 |]. intros i Hi.
      destruct (Nat.eq_dec i a) as [-> | Hne].
      - repeat split; assumption.
      - rewrite !Fr by lia. apply F. lia. }
    exists nc'. unfold group at 1 in E'. rewrite E'.
    split; [rewrite <- app_assoc; reflexivity |].
    replace (a + S m)%nat with (S a + m)%nat by lia. exact F'.
Qed.
End Steps.

Lemma related_rows (cons c : list (list num)) (n j : nat) (same : bool) :
  (3 * n <= List.length cons)%nat -> rows3 cons ->
  List.length c = List.length cons -> rows3 c ->
  (forall i o k, (i < n)%nat -> (o < 3)%nat -> (k < 3)%nat ->
     cell c (3 * i + o) k
     = if andb same (andb (andb (Nat.eqb o 2) (Nat.eqb k 1)) (negb (Nat.eqb i j)))
       then of_Z (4 * Z.of_nat j + 2) else cell cons (3 * i + o) k) ->
  forall i, (i < n)%nat ->
    nth (3 * i) c [] = nth (3 * i) cons []
    /\ nth (3 * i + 1) c [] = nth (3 * i + 1) cons []
    /\ nth (3 * i + 2) c []
       = [cell cons (3 * i + 2) 0;
          (if andb same (negb (Nat.eqb i j)) then of_Z (4 * Z.of_nat j + 2)
           else cell cons (3 * i + 2) 1);
          cell cons (3 * i + 2) 2].
Proof.
  intros Hl H3 L R T i Hi.
  split; [| split].
  - rewrite (row_of_cells (c := c)), (row_of_cells (c := cons)) by lia || assumption.
    replace (3 * i)%nat with (3 * i + 0)%nat by lia.
    rewrite !T by lia. cbn [Nat.eqb andb]. rewrite !andb_false_r. reflexivity.
  - rewrite (row_of_cells (c := c)), (row_of_cells (c := cons)) by lia || assumption.
    rewrite !T by lia. cbn [Nat.eqb andb]. rewrite !andb_false_r. reflexivity.
  - rewrite (row_of_cells (c := c)) by lia || assumption.
    rewrite !T by lia. cbn [Nat.eqb andb]. rewrite !andb_false_r.
    cbn [andb]. reflexivity.
Qed.

(** [estimate_pvoigt] returns four values per peak - the three of
    [estimate_height_position_fwhm] and [0.5] for eta - and four rows of
    constraints: those of height and position as they were, that of the
    width, and that of eta ([QUOTED] in [[0, 1]] under [QuotedEtaFlag],
    free otherwise).  With [SameFwhmFlag] (and [NoConstraintsFlag] off)
    the second entry of the width row of every peak but [j] is
    [4 * j + 2], the index of the width of peak [j] among the returned
    values, where [j] is the last peak whose width has not the code 4;
    the code and the third entry are kept. *)
Theorem pvoigt_ties_widths_to_the_last_untied_peak
        (self : t) (x y : list num) (bg : option (list num)) (yscaling : pyval)
        (h h1 : store) (fittedpar : list num) (cons : list (list num))
        (noc sv qe : pyval) :
  estimate_height_position_fwhm ext self x y bg yscaling h = (Ok (fittedpar, cons), h1) ->
  let cfg := load h1 (config self) in
  ditem cfg "NoConstraintsFlag" = Ok noc ->
  ditem cfg "SameFwhmFlag" = Ok sv ->
  ditem cfg "QuotedEtaFlag" = Ok qe ->
  let n := (List.length fittedpar / 3)%nat in
  let j := last_untied cons n in
  let same := andb (negb (truthy noc)) (truthy sv) in
  exists newpar newcons,
    estimate_pvoigt ext self x y bg yscaling h = (Ok (newpar, newcons), h1)
    /\ newpar = flat_map (fun i => [nth (3 * i) fittedpar zero;
                                    nth (3 * i + 1) fittedpar zero;
                                    nth (3 * i + 2) fittedpar zero; dec 5 1])
                         (seq 0 n)
    /\ List.length newcons = (4 * n)%nat
    /\ forall i, (i < n)%nat ->
         nth (4 * i) newcons [] = nth (3 * i) cons []
         /\ nth (4 * i + 1) newcons [] = nth (3 * i + 1) cons []
         /\ nth (4 * i + 2) newcons []
            = [cell cons (3 * i + 2) 0;
               (if andb same (negb (Nat.eqb i j)) then of_Z (4 * Z.of_nat j + 2)
                else cell cons (3 * i + 2) 1);
               cell cons (3 * i + 2) 2]
         /\ nth (4 * i + 3) newcons [] = eta_row (truthy qe).
Proof.
  intros Hcall cfg Hnoc Hsv Hq n j same.
  pose proof Hcall as Hs. apply estimated_block_shape in Hs. destruct Hs as [Lc R3].
  assert (Hn : (3 * n <= List.length fittedpar)%nat)
    by (subst n; apply Nat.Div0.mul_div_le).
  assert (Hl : (3 * n <= List.length cons)%nat) by lia.
  destruct (@related_index_spec cfg noc sv cons n Hl R3 Hnoc Hsv) as (c & Hc & L & R & T).
  destruct (@pvoigt_loop cfg qe fittedpar c n Hq Hn ltac:(lia) R n 0%nat []
                         (zeros2 (4 * n) 3) ltac:(lia))
    as (nc & Hnc & Lnc & _ & F).
  { split; [apply length_zeros2 |]. split; [apply rows3_zeros2 |]. intros i Hi. lia. }
  exists (flat_map (fun i => [nth (3 * i) fittedpar zero; nth (3 * i + 1) fittedpar zero;
                              nth (3 * i + 2) fittedpar zero; dec 5 1]) (seq 0 n)), nc.
  split.
  - unfold estimate_pvoigt. unfold bindM at 1. rewrite Hcall. cbv iota beta.
    cbn [fst snd]. unfold bindM, lift. fold cfg. fold n. rewrite Hc. cbn [bind].
    unfold range. rewrite Hnc. reflexivity.
  - split; [reflexivity |]. split; [exact Lnc |].
    intros i Hi. destruct (F i Hi) as (F0 & F1 & F2 & F3).
    destruct (@related_rows cons c n j same Hl R3 L R T i Hi) as (C0 & C1 & C2).
    repeat split; congruence.
Qed.
End PseudoVoigt.

Section SplitPseudoVoigt.
Context {N : Numeric} (ext : Externals).
Import SpecfitFunctions.
Local Open Scope num_scope.

Section Steps.
Variables (cfg : dict pyval) (qe : pyval) (fittedpar : list num)
          (cons : list (list num)) (n : nat).
Hypothesis Hq : ditem cfg "QuotedEtaFlag" = Ok qe.
Hypothesis Hfp : (3 * n <= List.length fittedpar)%nat.
Hypothesis Hl : (3 * n <= List.length cons)%nat.
Hypothesis H3 : rows3 cons.

(** The row of the second width of peak [a]: the row of the first one,
    with the second entry increased by one when the code is 4. *)
Let second_width (a : nat) : list num :=
  [cell cons (3 * a + 2) 0;
   (if cell cons (3 * a + 2) 0 =? of_Z 4
    then cell cons (3 * a + 2) 1 + one else cell cons (3 * a + 2) 1);
   cell cons (3 * a + 2) 2].

Lemma splitpvoigt_step_spec (a : nat) (newpar : list num) (nc : list (list num)) :
  (a < n)%nat -> List.length nc = (5 * n)%nat -> rows3 nc ->
  exists nc',
    splitpvoigt_step cfg fittedpar cons (newpar, nc) (Z.of_nat a)
    = Ok (newpar ++ [nth (3 * a) fittedpar zero; nth (3 * a + 1) fittedpar zero;
                     nth (3 * a + 2) fittedpar zero; nth (3 * a + 2) fittedpar zero;
                     dec 5 1], nc')
    /\ List.length nc' = (5 * n)%nat /\ rows3 nc'
    /\ (forall r, (r < 5 * a \/ 5 * a + 5 <= r)%nat -> nth r nc' [] = nth r nc [])
    /\ nth (5 * a) nc' [] = nth (3 * a) cons []
    /\ nth (5 * a + 1) nc' [] = nth (3 * a + 1) cons []
    /\ nth (5 * a + 2) nc' [] = nth (3 * a + 2) cons []
    /\ nth (5 * a + 3) nc' [] = second_width a
    /\ nth (5 * a + 4) nc' [] = eta_row (truthy qe).
Proof.
  intros Ha Hn Hr. unfold splitpvoigt_step.
  rewrite (@py_index_at _ fittedpar _ (3 * a) zero) by block_side. cbn [bind].
  rewrite (@py_index_at _ fittedpar _ (3 * a + 1) zero) by block_side. cbn [bind].
  rewrite (@py_index_at _ fittedpar _ (3 * a + 2) zero) by block_side. cbn [bind].
  rewrite (copy2_at (dr := 5 * a) (sr := 3 * a) (k := 0)) by block_side. cbn [bind].
  rewrite (copy2_at (dr := 5 * a + 1) (sr := 3 * a + 1) (k := 0)) by block_side. cbn [bind].
  rewrite (copy2_at (dr := 5 * a + 2) (sr := 3 * a + 2) (k := 0)) by block_side. cbn [bind].
  rewrite (copy2_at (dr := 5 * a + 3) (sr := 3 * a + 2) (k := 0)) by block_side. cbn [bind].
  rewrite (copy2_at (dr := 5 * a) (sr := 3 * a) (k := 1)) by block_side. cbn [bind].
  rewrite (copy2_at (dr := 5 * a + 1) (sr := 3 * a + 1) (k := 1)) by block_side. cbn [bind].
  rewrite (copy2_at (dr := 5 * a + 2) (sr := 3 * a + 2) (k := 1)) by block_side. cbn [bind].
  rewrite (copy2_at (dr := 5 * a + 3) (sr := 3 * a + 2) (k := 1)) by block_side. cbn [bind].
  rewrite (copy2_at (dr := 5 * a) (sr := 3 * a) (k := 2)) by block_side. cbn [bind].
  rewrite (copy2_at (dr := 5 * a + 1) (sr := 3 * a + 1) (k := 2)) by block_side. cbn [bind].
  rewrite (copy2_at (dr := 5 * a + 2) (sr := 3 * a + 2) (k := 2)) by block_side. cbn [bind].
  rewrite (copy2_at (dr := 5 * a + 3) (sr := 3 * a + 2) (k := 2)) by block_side. cbn [bind].
  rewrite (get2_at (c := cons) (r := 3 * a + 2) (k := 0)) by block_side. cbn [bind].
  unfold second_width.
  destruct (cell cons (3 * a + 2) 0 =? of_Z 4).
  - rewrite (get2_at (r := 5 * a + 2) (k := 1)) by block_side. cbn [bind].
    rewrite (set2_at (r := 5 * a + 3) (k := 1)) by block_side. cbn [bind].
    match goal with
    | |- context [eta_constraints cfg ?c _] =>
        destruct (@eta_constraints_at N cfg qe c (5 * Z.of_nat a + 4)%Z (5 * a + 4)%nat Hq)
          as (nc' & E & L' & R' & Heta & Hframe);
        [lia | rewrite ?length_put2; lia | repeat apply rows3_put2; exact Hr |]
    end.
    rewrite E. cbn [bind]. exists nc'. split; [reflexivity |].
    rewrite !length_put2 in L'.
    split; [congruence |]. split; [exact R' |].
    split; [| split; [| split; [| split; [| split]]]].
    + intros r Hr'. rewrite Hframe by lia. rewrite !put2_frame by lia. reflexivity.
    + rewrite Hframe by lia. rewrite row_of_cells by block_side.
      rewrite (row_of_cells (c := cons)) by block_side.
      f_equal; [| f_equal; [| f_equal]]; cells.
    + rewrite Hframe by lia. rewrite row_of_cells by block_side.
      rewrite (row_of_cells (c := cons)) by block_side.
      f_equal; [| f_equal; [| f_equal]]; cells.
    + rewrite Hframe by lia. rewrite row_of_cells by block_side.
      rewrite (row_of_cells (c := cons)) by block_side.
      f_equal; [| f_equal; [| f_equal]]; cells.
    + rewrite Hframe by lia. rewrite row_of_cells by block_side.
      f_equal; [| f_equal; [| f_equal]]; cells.
    + exact Heta.
  - cbn [bind].
    match goal with
    | |- context [eta_constraints cfg ?c _] =>
        destruct (@eta_constraints_at N cfg qe c (5 * Z.of_nat a + 4)%Z (5 * a + 4)%nat Hq)
          as (nc' & E & L' & R' & Heta & Hframe);
        [lia | rewrite ?length_put2; lia | repeat apply rows3_put2; exact Hr |]
    end.
    rewrite E. cbn [bind]. exists nc'. split; [reflexivity |].
    rewrite !length_put2 in L'.
    split; [congruence |]. split; [exact R' |].
    split; [| split; [| split; [| split; [| split]]]].
    + intros r Hr'. rewrite Hframe by lia. rewrite !put2_frame by lia. reflexivity.
    + rewrite Hframe by lia. rewrite row_of_cells by block_side.
      rewrite (row_of_cells (c := cons)) by block_side.
      f_equal; [| f_equal; [| f_equal]]; cells.
    + rewrite Hframe by lia. rewrite row_of_cells by block_side.
      rewrite (row_of_cells (c := cons)) by block_side.
      f_equal; [| f_equal; [| f_equal]]; cells.
    + rewrite Hframe by lia. rewrite row_of_cells by block_side.
      rewrite (row_of_cells (c := cons)) by block_side.
      f_equal; [| f_equal; [| f_equal]]; cells.
    + rewrite Hframe by lia. rewrite row_of_cells by block_side.
      f_equal; [| f_equal; [| f_equal]]; cells.
    + exact Heta.
Qed.

Let group (i : nat) : list num :=
  [nth (3 * i) fittedpar zero; nth (3 * i + 1) fittedpar zero;
   nth (3 * i + 2) fittedpar zero; nth (3 * i + 2) fittedpar zero; dec 5 1].

Let filled (a : nat) (nc : list (list num)) : Prop :=
  List.length nc = (5 * n)%nat /\ rows3 nc
  /\ forall i, (i < a)%nat ->
       nth (5 * i) nc [] = nth (3 * i) cons []
       /\ nth (5 * i + 1) nc [] = nth (3 * i + 1) cons []
       /\ nth (5 * i + 2) nc [] = nth (3 * i + 2) cons []
       /\ nth (5 * i + 3) nc [] = second_width i
       /\ nth (5 * i + 4) nc [] = eta_row (truthy qe).

Lemma splitpvoigt_loop (m : nat) :
  forall a newpar nc, (a + m <= n)%nat -> filled a nc ->
    exists nc',
      foldM (splitpvoigt_step cfg fittedpar cons) (map Z.of_nat (seq a m)) (newpar, nc)
      = Ok (newpar ++ flat_map group (seq a m), nc')
      /\ filled (a + m) nc'.
Proof.
  induction m as [| m IH]; intros a newpar nc Ha (L & R & F).
  - exists nc. cbn. rewrite app_nil_r, Nat.add_0_r.
    split; [reflexivity |]. split; [exact L |]. split; [exact R | exact F].
  - cbn [seq map foldM flat_map].
    destruct (@splitpvoigt_step_spec a newpar nc ltac:(lia) L R)
      as (nc1 & E & L1 & R1 & Fr & G0 & G1 & G2 & G3 & G4).
    rewrite E. cbn [bind].
    destruct (IH (S a) (newpar ++ group a) nc1 ltac:(lia)) as (nc' & E' & F').
    { split; [exact L1 |]. split; [exact R1 |]. intros i Hi.
      destruct (Nat.eq_dec i a) as [-> | Hne].
      - repeat split; assumption.
      - rewrite !Fr by lia. apply F. lia. }
    exists nc'. unfold group at 1 in E'. rewrite E'.
    split; [rewrite <- app_assoc; reflexivity |].
    replace (a + S m)%nat with (S a + m)%nat by lia. exact F'.
Qed.
End Steps.

(** [estimate_splitpvoigt] returns five values per peak - height,
    position, the width twice and [0.5] for eta - and five rows of
    constraints.  With [SameFwhmFlag] (and [NoConstraintsFlag] off) the
    second entry of the row of the first width of every peak but [j] is
    [4 * j + 2], as in [estimate_pvoigt], although the values come five
    per peak and the first width of peak [j] is the value at index
    [5 * j + 2]; [j] is the last peak whose width has not the code 4.
    The row of the second width is the row of the first one, with the
    second entry increased by one when the code is 4. *)
Theorem splitpvoigt_ties_widths_with_the_stride_of_pvoigt
        (self : t) (x y : list num) (bg : option (list num)) (yscaling : pyval)
        (h h1 : store) (fittedpar : list num) (cons : list (list num))
        (noc sv qe : pyval) :
  estimate_height_position_fwhm ext self x y bg yscaling h = (Ok (fittedpar, cons), h1) ->
  let cfg := load h1 (config self) in
  ditem cfg "NoConstraintsFlag" = Ok noc ->
  ditem cfg "SameFwhmFlag" = Ok sv ->
  ditem cfg "QuotedEtaFlag" = Ok qe ->
  let n := (List.length fittedpar / 3)%nat in
  let j := last_untied cons n in
  let same := andb (negb (truthy noc)) (truthy sv) in
  let tie i := if andb same (negb (Nat.eqb i j)) then of_Z (4 * Z.of_nat j + 2)
               else cell cons (3 * i + 2) 1 in
  exists newpar newcons,
    estimate_splitpvoigt ext self x y bg yscaling h = (Ok (newpar, newcons), h1)
    /\ newpar = flat_map (fun i => [nth (3 * i) fittedpar zero;
                                    nth (3 * i + 1) fittedpar zero;
                                    nth (3 * i + 2) fittedpar zero;
                                    nth (3 * i + 2) fittedpar zero; dec 5 1])
                         (seq 0 n)
    /\ List.length newcons = (5 * n)%nat
    /\ forall i, (i < n)%nat ->
         nth (5 * i + 2) newpar zero = nth (3 * i + 2) fittedpar zero
         /\ nth (5 * i) newcons [] = nth (3 * i) cons []
         /\ nth (5 * i + 1) newcons [] = nth (3 * i + 1) cons []
         /\ nth (5 * i + 2) newcons []
            = [cell cons (3 * i + 2) 0; tie i; cell cons (3 * i + 2) 2]
         /\ nth (5 * i + 3) newcons []
            = [cell cons (3 * i + 2) 0;
               (if cell cons (3 * i + 2) 0 =? of_Z 4 then tie i + one else tie i);
               cell cons (3 * i + 2) 2]
         /\ nth (5 * i + 4) newcons [] = eta_row (truthy qe).
Proof.
  intros Hcall cfg Hnoc Hsv Hq n j same tie.
  pose proof Hcall as Hs. apply estimated_block_shape in Hs. destruct Hs as [Lc R3].
  assert (Hn : (3 * n <= List.length fittedpar)%nat)
    by (subst n; apply Nat.Div0.mul_div_le).
  assert (Hl : (3 * n <= List.length cons)%nat) by lia.
  destruct (@related_index_spec N cfg noc sv cons n Hl R3 Hnoc Hsv) as (c & Hc & L & R & T).
  destruct (@splitpvoigt_loop cfg qe fittedpar c n Hq Hn ltac:(lia) R n 0%nat []
                              (zeros2 (5 * n) 3) ltac:(lia))
    as (nc & Hnc & Lnc & _ & F).
  { split; [apply length_zeros2 |]. split; [apply rows3_zeros2 |]. intros i Hi. lia. }
  eexists _, nc.
  split.
  - unfold estimate_splitpvoigt. unfold bindM at 1. rewrite Hcall. cbv iota beta.
    cbn [fst snd]. unfold bindM, lift. fold cfg. fold n. rewrite Hc. cbn [bind].
    unfold range. rewrite Hnc. reflexivity.
  - split; [reflexivity |]. split; [exact Lnc |].
    intros i Hi. destruct (F i Hi) as (F0 & F1 & F2 & F3 & F4).
    destruct (@related_rows N cons c n j same Hl R3 L R T i Hi) as (C0 & C1 & C2).
    split.
    { cbn [app]. rewrite (@nth_groups N 5 _ n i 2 zero) by (first [lia | intros; reflexivity]).
      reflexivity. }
    split; [congruence |]. split; [congruence |].
    split; [rewrite F2; exact C2 |]. split; [| exact F4].
    rewrite F3. unfold cell in C2 |- *. rewrite C2. cbn [nth]. reflexivity.
Qed.
End SplitPseudoVoigt.

Lemma tall_second_estimate :
  let ext := sample_externals (N := Float64.numeric) [4; 14]%Z 1%float 1%float in
  let self := SpecfitFunctions.init None in
  let h := snd (SpecfitFunctions.configure self [("SameFwhmFlag", VBool true)]
                                           SpecfitFunctions.module_store) in
  SpecfitFunctions.estimate_height_position_fwhm
    ext self (sample_x (N := Float64.numeric)) tall_second_y None VNone h
  = (Ok ([5; 4; 4.75; 9; 14; 4.75]%float,
         [[1; 0; 0]; [0; 0; 0]; [4; 5; 1]; [1; 0; 0]; [0; 0; 0]; [1; 0; 0]]%float), h).
Proof. reflexivity. Qed.

(** Two peaks, the second one the largest, with [SameFwhmFlag]: the
    width of the first peak is tied to the value at index 6, the width
    of the second peak. *)
Lemma pvoigt_ties_widths_to_the_last_untied_peak_run :
  let ext := sample_externals (N := Float64.numeric) [4; 14]%Z 1%float 1%float in
  let self := SpecfitFunctions.init None in
  let h := snd (SpecfitFunctions.configure self [("SameFwhmFlag", VBool true)]
                                           SpecfitFunctions.module_store) in
  exists newpar newcons,
    SpecfitFunctions.estimate_pvoigt
      ext self (sample_x (N := Float64.numeric)) tall_second_y None VNone h
    = (Ok (newpar, newcons), h)
    /\ nth 2 newcons [] = [4; 6; 1]%float
    /\ nth 6 newpar 0%float = 4.75%float.
Proof.
  intros ext self h.
  destruct (@pvoigt_ties_widths_to_the_last_untied_peak
              Float64.numeric ext self sample_x tall_second_y None VNone h h
              [5; 4; 4.75; 9; 14; 4.75]%float
              [[1; 0; 0]; [0; 0; 0]; [4; 5; 1]; [1; 0; 0]; [0; 0; 0]; [1; 0; 0]]%float
              (VBool false) (VBool true) (VBool false))
    as (newpar & newcons & E & Hp & _ & Hrows).
  - exact tall_second_estimate.
  - reflexivity.
  - reflexivity.
  - reflexivity.
  - exists newpar, newcons. split; [exact E |].
    destruct (Hrows 0%nat ltac:(cbn; lia)) as (_ & _ & H2 & _).
    split; [etransitivity; [exact H2 | reflexivity] |].
    rewrite Hp; reflexivity.
Defined.

(** The same peaks: the first width of the first peak is tied to the
    value at index 6, which is the position of the second peak, and its
    second width to the value at index 7, the first width of the second
    peak. *)
Lemma splitpvoigt_ties_widths_with_the_stride_of_pvoigt_run :
  let ext := sample_externals (N := Float64.numeric) [4; 14]%Z 1%float 1%float in
  let self := SpecfitFunctions.init None in
  let h := snd (SpecfitFunctions.configure self [("SameFwhmFlag", VBool true)]
                                           SpecfitFunctions.module_store) in
  exists newpar newcons,
    SpecfitFunctions.estimate_splitpvoigt
      ext self (sample_x (N := Float64.numeric)) tall_second_y None VNone h
    = (Ok (newpar, newcons), h)
    /\ nth 2 newcons [] = [4; 6; 1]%float
    /\ nth 3 newcons [] = [4; 7; 1]%float
    /\ nth 6 newpar 0%float = 14%float
    /\ nth 7 newpar 0%float = 4.75%float.
Proof.
  intros ext self h.
  destruct (@splitpvoigt_ties_widths_with_the_stride_of_pvoigt
              Float64.numeric ext self sample_x tall_second_y None VNone h h
              [5; 4; 4.75; 9; 14; 4.75]%float
              [[1; 0; 0]; [0; 0; 0]; [4; 5; 1]; [1; 0; 0]; [0; 0; 0]; [1; 0; 0]]%float
              (VBool false) (VBool true) (VBool false))
    as (newpar & newcons & E & Hp & _ & Hrows).
  - exact tall_second_estimate.
  - reflexivity.
  - reflexivity.
  - reflexivity.
  - exists newpar, newcons. split; [exact E |].
    destruct (Hrows 0%nat ltac:(cbn; lia)) as (_ & _ & _ & H2 & H3 & _).
    split; [etransitivity; [exact H2 | reflexivity] |].
    split; [etransitivity; [exact H3 | reflexivity] |].
    split; rewrite Hp; reflexivity.
Defined.

(** ** estimate_splitgauss *)

Section SplitGauss.
Context {N : Numeric} (ext : Externals).
Import SpecfitFunctions.
Local Open Scope num_scope.

Section Steps.
Variables (fittedpar : list num) (cons : list (list num)) (n : nat) (q : nat -> Z).
Hypothesis Hfp : (3 * n <= List.length fittedpar)%nat.
Hypothesis Hl : (3 * n <= List.length cons)%nat.
Hypothesis H3 : rows3 cons.
Hypothesis Hint : forall i, (i < n)%nat ->
  (cell cons (3 * i + 2) 0 =? of_Z 4) = true ->
  py_int (cell cons (3 * i + 2) 1 / of_Z 3) = Ok (q i).

(** The row of a width of peak [a], the first one ([o = 2]) or the
    second one ([o = 3]). *)
Let width_row (a o : nat) : list num :=
  [cell cons (3 * a + 2) 0;
   (if cell cons (3 * a + 2) 0 =? of_Z 4
    then of_Z (q a * 4 + Z.of_nat o) else cell cons (3 * a + 2) 1);
   cell cons (3 * a + 2) 2].

Lemma splitgauss_step_spec (a : nat) (newpar : list num) (nc : list (list num)) :
  (a < n)%nat -> List.length nc = (4 * n)%nat -> rows3 nc ->
  exists nc',
    splitgauss_step fittedpar cons (newpar, nc) (Z.of_nat a)
    = Ok (newpar ++ [nth (3 * a) fittedpar zero; nth (3 * a + 1) fittedpar zero;
                     nth (3 * a + 2) fittedpar zero; nth (3 * a + 2) fittedpar zero],
          nc')
    /\ List.length nc' = (4 * n)%nat /\ rows3 nc'
    /\ (forall r, (r < 4 * a \/ 4 * a + 4 <= r)%nat -> nth r nc' [] = nth r nc [])
    /\ nth (4 * a) nc' [] = nth (3 * a) cons []
    /\ nth (4 * a + 1) nc' [] = nth (3 * a + 1) cons []
    /\ nth (4 * a + 2) nc' [] = width_row a 2
    /\ nth (4 * a + 3) nc' [] = width_row a 3.
Proof.
  intros Ha Hn Hr. unfold splitgauss_step, range. cbn [seq map mapM].
  rewrite (@py_index_at _ fittedpar _ (3 * a) zero) by block_side. cbn [bind].
  rewrite (@py_index_at _ fittedpar _ (3 * a + 1) zero) by block_side. cbn [bind].
  rewrite (@py_index_at _ fittedpar _ (3 * a + 2) zero) by block_side. cbn [bind].
  rewrite (@py_index_at _ fittedpar _ (3 * a + 2) zero) by block_side. cbn [bind app].
  rewrite (copy2_at (dr := 4 * a) (sr := 3 * a) (k := 0)) by block_side. cbn [bind].
  rewrite (copy2_at (dr := 4 * a + 1) (sr := 3 * a + 1) (k := 0)) by block_side. cbn [bind].
  rewrite (copy2_at (dr := 4 * a + 2) (sr := 3 * a + 2) (k := 0)) by block_side. cbn [bind].
  rewrite (copy2_at (dr := 4 * a + 3) (sr := 3 * a + 2) (k := 0)) by block_side. cbn [bind].
  rewrite (copy2_at (dr := 4 * a) (sr := 3 * a) (k := 1)) by block_side. cbn [bind].
  rewrite (copy2_at (dr := 4 * a + 1) (sr := 3 * a + 1) (k := 1)) by block_side. cbn [bind].
  rewrite (copy2_at (dr := 4 * a + 2) (sr := 3 * a + 2) (k := 1)) by block_side. cbn [bind].
  rewrite (copy2_at (dr := 4 * a + 3) (sr := 3 * a + 2) (k := 1)) by block_side. cbn [bind].
  rewrite (copy2_at (dr := 4 * a) (sr := 3 * a) (k := 2)) by block_side. cbn [bind].
  rewrite (copy2_at (dr := 4 * a + 1) (sr := 3 * a + 1) (k := 2)) by block_side. cbn [bind].
  rewrite (copy2_at (dr := 4 * a + 2) (sr := 3 * a + 2) (k := 2)) by block_side. cbn [bind].
  rewrite (copy2_at (dr := 4 * a + 3) (sr := 3 * a + 2) (k := 2)) by block_side. cbn [bind].
  rewrite (get2_at (c := cons) (r := 3 * a + 2) (k := 0)) by block_side. cbn [bind].
  unfold width_row. pose proof (Hint Ha) as Hqa.
  destruct (cell cons (3 * a + 2) 0 =? of_Z 4).
  - rewrite (get2_at (c := cons) (r := 3 * a + 2) (k := 1)) by block_side. cbn [bind].
    rewrite (Hqa eq_refl). cbn [bind].
    rewrite (set2_at (r := 4 * a + 2) (k := 1)) by block_side. cbn [bind].
    rewrite (set2_at (r := 4 * a + 3) (k := 1)) by block_side. cbn [bind].
    eexists. split; [reflexivity |].
    split; [rewrite !length_put2; exact Hn |].
    split; [repeat apply rows3_put2; exact Hr |].
    split; [| split; [| split; [| split]]].
    + intros r Hr'. rewrite !put2_frame by lia. reflexivity.
    + rewrite row_of_cells by block_side.
      rewrite (row_of_cells (c := cons)) by block_side.
      f_equal; [| f_equal; [| f_equal]]; cells.
    + rewrite row_of_cells by block_side.
      rewrite (row_of_cells (c := cons)) by block_side.
      f_equal; [| f_equal; [| f_equal]]; cells.
    + rewrite row_of_cells by block_side.
      f_equal; [| f_equal; [| f_equal]]; cells.
    + rewrite row_of_cells by block_side.
      f_equal; [| f_equal; [| f_equal]]; cells.
  - eexists. split; [reflexivity |].
    split; [rewrite !length_put2; exact Hn |].
    split; [repeat apply rows3_put2; exact Hr |].
    split; [| split; [| split; [| split]]].
    + intros r Hr'. rewrite !put2_frame by lia. reflexivity.
    + rewrite row_of_cells by block_side.
      rewrite (row_of_cells (c := cons)) by block_side.
      f_equal; [| f_equal; [| f_equal]]; cells.
    + rewrite row_of_cells by block_side.
      rewrite (row_of_cells (c := cons)) by block_side.
      f_equal; [| f_equal; [| f_equal]]; cells.
    + rewrite row_of_cells by block_side.
      f_equal; [| f_equal; [| f_equal]]; cells.
    + rewrite row_of_cells by block_side.
      f_equal; [| f_equal; [| f_equal]]; cells.
Qed.

Let group (i : nat) : list num :=
  [nth (3 * i) fittedpar zero; nth (3 * i + 1) fittedpar zero;
   nth (3 * i + 2) fittedpar zero; nth (3 * i + 2) fittedpar zero].

Let filled (a : nat) (nc : list (list num)) : Prop :=
  List.length nc = (4 * n)%nat /\ rows3 nc
  /\ forall i, (i < a)%nat ->
       nth (4 * i) nc [] = nth (3 * i) cons []
       /\ nth (4 * i + 1) nc [] = nth (3 * i + 1) cons []
       /\ nth (4 * i + 2) nc [] = width_row i 2
       /\ nth (4 * i + 3) nc [] = width_row i 3.

Lemma splitgauss_loop (m : nat) :
  forall a newpar nc, (a + m <= n)%nat -> filled a nc ->
    exists nc',
      foldM (splitgauss_step fittedpar cons) (map Z.of_nat (seq a m)) (newpar, nc)
      = Ok (newpar ++ flat_map group (seq a m), nc')
      /\ filled (a + m) nc'.
Proof.
  induction m as [| m IH]; intros a newpar nc Ha (L & R & F).
  - exists nc. cbn. rewrite app_nil_r, Nat.add_0_r.
    split; [reflexivity |]. split; [exact L |]. split; [exact R | exact F].
  - cbn [seq map foldM flat_map].
    destruct (@splitgauss_step_spec a newpar nc ltac:(lia) L R)
      as (nc1 & E & L1 & R1 & Fr & G0 & G1 & G2 & G3).
    rewrite E. cbn [bind].
    destruct (IH (S a) (newpar ++ group a) nc1 ltac:(lia)) as (nc' & E' & F').
    { split; [exact L1 |]. split; [exact R1 |]. intros i Hi.
      destruct (Nat.eq_dec i a) as [-> | Hne].
      - repeat split; assumption.
      - rewrite !Fr by lia. apply F. lia. }
    exists nc'. unfold group at 1 in E'. rewrite E'.
    split; [rewrite <- app_assoc; reflexivity |].
    replace (a + S m)%nat with (S a + m)%nat by lia. exact F'.
Qed.
End Steps.

(** [estimate_splitgauss] returns four values per peak - height,
    position and the width twice - and four rows of constraints: those
    of height and position as [estimate_height_position_fwhm] gave
    them, and the row of the width twice.  In a width row of code 4
    whose second entry [c] has the integer part [q] of [c / 3], the
    second entry becomes [4 * q + 2] for the first width and
    [4 * q + 3] for the second: the widths of peak [q] among the
    returned values. *)
Theorem splitgauss_reindexes_tied_widths
        (self : t) (x y : list num) (bg : option (list num)) (yscaling : pyval)
        (h h1 : store) (fittedpar : list num) (cons : list (list num)) (q : nat -> Z) :
  estimate_height_position_fwhm ext self x y bg yscaling h = (Ok (fittedpar, cons), h1) ->
  let n := (List.length fittedpar / 3)%nat in
  (forall i, (i < n)%nat ->
     (cell cons (3 * i + 2) 0 =? of_Z 4) = true ->
     py_int (cell cons (3 * i + 2) 1 / of_Z 3) = Ok (q i)) ->
  let width i o :=
    [cell cons (3 * i + 2) 0;
     (if cell cons (3 * i + 2) 0 =? of_Z 4
      then of_Z (q i * 4 + Z.of_nat o) else cell cons (3 * i + 2) 1);
     cell cons (3 * i + 2) 2] in
  exists newpar newcons,
    estimate_splitgauss ext self x y bg yscaling h = (Ok (newpar, newcons), h1)
    /\ newpar = flat_map (fun i => [nth (3 * i) fittedpar zero;
                                    nth (3 * i + 1) fittedpar zero;
                                    nth (3 * i + 2) fittedpar zero;
                                    nth (3 * i + 2) fittedpar zero])
                         (seq 0 n)
    /\ List.length newcons = (4 * n)%nat
    /\ forall i, (i < n)%nat ->
         nth (4 * i) newcons [] = nth (3 * i) cons []
         /\ nth (4 * i + 1) newcons [] = nth (3 * i + 1) cons []
         /\ nth (4 * i + 2) newcons [] = width i 2%nat
         /\ nth (4 * i + 3) newcons [] = width i 3%nat.
Proof.
  intros Hcall n Hint width.
  pose proof Hcall as Hs. apply estimated_block_shape in Hs. destruct Hs as [Lc R3].
  assert (Hn : (3 * n <= List.length fittedpar)%nat)
    by (subst n; apply Nat.Div0.mul_div_le).
  assert (Hl : (3 * n <= List.length cons)%nat) by lia.
  destruct (@splitgauss_loop fittedpar cons n q Hn Hl R3 Hint n 0%nat []
                             (zeros2 (4 * n) 3) ltac:(lia))
    as (nc & Hnc & Lnc & _ & F).
  { split; [apply length_zeros2 |]. split; [apply rows3_zeros2 |]. intros i Hi. lia. }
  eexists _, nc.
  split.
  - unfold estimate_splitgauss. unfold bindM at 1. rewrite Hcall. cbv iota beta.
    cbn [fst snd]. unfold lift. fold n. unfold range. rewrite Hnc. reflexivity.
  - split; [reflexivity |]. split; [exact Lnc |]. exact F.
Qed.
End SplitGauss.

(** Two peaks, the second one the largest, with [SameFwhmFlag]: the
    widths of the first peak are tied to the values at the indices 6
    and 7, the widths of the second peak. *)
Lemma splitgauss_reindexes_tied_widths_run :
  let ext := sample_externals (N := Float64.numeric) [4; 14]%Z 1%float 1%float in
  let self := SpecfitFunctions.init None in
  let h := snd (SpecfitFunctions.configure self [("SameFwhmFlag", VBool true)]
                                           SpecfitFunctions.module_store) in
  exists newpar newcons,
    SpecfitFunctions.estimate_splitgauss
      ext self (sample_x (N := Float64.numeric)) tall_second_y None VNone h
    = (Ok (newpar, newcons), h)
    /\ nth 2 newcons [] = [4; 6; 1]%float
    /\ nth 3 newcons [] = [4; 7; 1]%float
    /\ nth 6 newpar 0%float = 4.75%float
    /\ nth 7 newpar 0%float = 4.75%float.
Proof.
  intros ext self h.
  destruct (@splitgauss_reindexes_tied_widths
              Float64.numeric ext self sample_x tall_second_y None VNone h h
              [5; 4; 4.75; 9; 14; 4.75]%float
              [[1; 0; 0]; [0; 0; 0]; [4; 5; 1]; [1; 0; 0]; [0; 0; 0]; [1; 0; 0]]%float
              (fun _ => 1%Z))
    as (newpar & newcons & E & Hp & _ & Hrows).
  - exact tall_second_estimate.
  - intros [| [| i]] Hi Hc; [reflexivity | discriminate Hc |].
    exfalso. change (S (S i) < 2)%nat in Hi. lia.
  - exists newpar, newcons. split; [exact E |].
    destruct (Hrows 0%nat ltac:(cbn; lia)) as (_ & _ & H2 & H3).
    split; [etransitivity; [exact H2 | reflexivity] |].
    split; [etransitivity; [exact H3 | reflexivity] |].
    split; rewrite Hp; reflexivity.
Defined.

(** ** squarefilter *)

Section SquareFilter.
Context {N : Numeric}.
Import Specfit.
Local Open Scope num_scope.

Lemma length_slice {A} (l : list A) (a b : nat) :
  List.length (slice l a b) = Nat.min (b - a) (List.length l - a).
Proof. unfold slice. rewrite length_firstn, length_skipn. reflexivity. Qed.

Lemma length_fill (l : list num) (a b : nat) (v : num) :
  (a <= b)%nat -> (a <= List.length l)%nat -> List.length (fill l a b v) = List.length l.
Proof.
  intros Hab Ha. unfold fill.
  rewrite !length_app, length_firstn, repeat_length, length_skipn. lia.
Qed.

Lemma length_convolve_full (a v : list num) :
  List.length (convolve_full a v) = (List.length a + List.length v - 1)%nat.
Proof. unfold convolve_full. rewrite length_map, length_seq. reflexivity. Qed.

Lemma nth_fill (l : list num) (a b : nat) (v d : num) (k : nat) :
  (a <= b)%nat -> (b <= List.length l)%nat ->
  nth k (fill l a b v) d = if andb (a <=? k)%nat (k <? b)%nat then v else nth k l d.
Proof.
  intros Hab Hb. unfold fill.
  destruct (Nat.leb_spec a k) as [Hak | Hak]; cbn [andb].
  - rewrite app_nth2 by (rewrite length_firstn; lia).
    rewrite length_firstn. replace (Nat.min a (List.length l)) with a by lia.
    destruct (Nat.ltb_spec k b) as [Hkb | Hkb].
    + rewrite app_nth1 by (rewrite repeat_length; lia).
      apply nth_repeat_lt. lia.
    + rewrite app_nth2 by (rewrite repeat_length; lia).
      rewrite repeat_length.
      replace (Nat.max a b) with b by lia.
      rewrite nth_skipn. f_equal. lia.
  - rewrite app_nth1 by (rewrite length_firstn; lia).
    rewrite nth_firstn. destruct (Nat.ltb_spec k a); [reflexivity | lia].
Qed.

Lemma convolve_valid_nonempty (a v : list num) :
  a <> [] -> v <> [] ->
  convolve_valid a v
  = Ok (slice (convolve_full a v)
              (Nat.min (List.length a) (List.length v) - 1)
              (Nat.max (List.length a) (List.length v))).
Proof. destruct a, v; intros Ha Hv; try congruence. reflexivity. Qed.

Lemma py_index_pos {A} (l : list A) (z : Z) (d : A) :
  (0 <= z < Z.of_nat (List.length l))%Z -> py_index l z = Ok (nth (Z.to_nat z) l d).
Proof.
  intros H. unfold py_index.
  destruct (Z.leb_spec 0 z); [| lia].
  rewrite (nth_error_nth' l d) by lia. reflexivity.
Qed.

Lemma py_index_neg {A} (l : list A) (z : Z) (d : A) :
  (0 < z <= Z.of_nat (List.length l))%Z ->
  py_index l (- z) = Ok (nth (List.length l - Z.to_nat z) l d).
Proof.
  intros H. unfold py_index.
  destruct (Z.leb_spec 0 (- z)); [lia |].
  destruct (Z.leb_spec (- Z.of_nat (List.length l)) (- z)); [| lia].
  replace (Z.to_nat (Z.of_nat (List.length l) + - z))
    with (List.length l - Z.to_nat z)%nat by lia.
  rewrite (nth_error_nth' l d) by lia. reflexivity.
Qed.

Lemma odd_width (w : Z) :
  (2 <= w)%Z ->
  exists hw : nat,
    (1 <= hw)%nat
    /\ (w + (w + 1) mod 2)%Z = Z.of_nat (2 * hw + 1)
    /\ Z.quot (w + (w + 1) mod 2) 2 = Z.of_nat hw.
Proof.
  intros Hw.
  assert (Hm : ((w + 1) mod 2 = 0 \/ (w + 1) mod 2 = 1)%Z)
    by (pose proof (Z.mod_pos_bound (w + 1) 2 ltac:(lia)); lia).
  pose proof (Z.div_mod (w + 1) 2 ltac:(lia)) as Hd.
  exists (Z.to_nat ((w + (w + 1) mod 2) / 2)).
  rewrite Z.quot_div_nonneg by lia.
  pose proof (Z.div_mod (w + (w + 1) mod 2) 2 ltac:(lia)) as Hd2.
  assert (Hodd : ((w + (w + 1) mod 2) mod 2 = 1)%Z).
  { destruct Hm as [E | E]; rewrite E in *.
    - replace (w + 0)%Z with (1 + ((w + 1) / 2 - 1) * 2)%Z by lia.
      rewrite Z.mod_add by lia. reflexivity.
    - replace (w + 1)%Z with (0 + ((w + 1) / 2) * 2 + 1)%Z at 1 by lia.
      replace (0 + (w + 1) / 2 * 2 + 1)%Z with (1 + ((w + 1) / 2) * 2)%Z by lia.
      rewrite Z.mod_add by lia. reflexivity. }
  assert (0 <= (w + (w + 1) mod 2) / 2)%Z by (apply Z.div_pos; lia).
  repeat split; lia.
Qed.

(** [squarefilter] rounds the width up to an odd number [wd].  With a
    width below 2 it raises on any data that is not empty (the half
    width is zero and the side coefficients are [-0.5 / 0]).  With a
    width of 2 or more it returns an array of the length of [y]: [y]
    itself when there are fewer than [2 * wd - 1] samples, and otherwise
    an array whose first [wd - 1] entries repeat the entry at [wd - 1]
    and whose last [wd - 1] entries repeat the entry at
    [len(y) - wd - 1]. *)
Theorem squarefilter_keeps_the_length (y : list num) (width : num) (w : Z) :
  py_int width = Ok w ->
  (0 <= w)%Z ->
  let wd := Z.to_nat (w + (w + 1) mod 2) in
  let n := List.length y in
  ((w <= 1)%Z -> y <> [] -> squarefilter y width = Raise ZeroDivisionError)
  /\ ((2 <= w)%Z ->
      exists r,
        squarefilter y width = Ok r
        /\ List.length r = n
        /\ ((n < 2 * wd - 1)%nat -> r = y)
        /\ ((2 * wd - 1 <= n)%nat ->
            forall k d, (k < wd - 1)%nat ->
              nth k r d = nth (wd - 1) r d
              /\ nth (n - 1 - k) r d = nth (n - wd - 1) r d)).
Proof.
  intros Hint Hw0 wd n. split.
  - intros Hw Hy. unfold squarefilter. destruct y as [| y0 y']; [congruence |].
    rewrite Hint. cbn [bind].
    assert (E : (w + (w + 1) mod 2 = 1)%Z).
    { assert (w = 0 \/ w = 1)%Z as [-> | ->] by lia; reflexivity. }
    cbv zeta. rewrite E. change (Z.quot 1 2) with 0%Z.
    change (2 * 0 + 1)%Z with 1%Z. change (0 =? 0)%Z with true.
    change (1 <? 0)%Z with false.
    destruct (Z.ltb_spec (Z.of_nat (List.length (y0 :: y'))) 1) as [H | H];
      [cbn [List.length] in H; lia |].
    reflexivity.
  - intros Hw. destruct (odd_width Hw) as (hw & Hhw & EW & EQ).
    assert (Ewd : wd = (2 * hw + 1)%nat) by (subst wd; rewrite EW; lia).
    assert (Hn : n = List.length y) by reflexivity. clearbody n.
    unfold squarefilter. destruct y as [| y0 y'] eqn:Ey.
    { exists []. cbn [List.length] in *. repeat split; intros; lia. }
    rewrite <- Ey in *. rewrite Hint. cbn [bind]. cbv zeta. rewrite EQ, EW.
    destruct (Z.ltb_spec (Z.of_nat (List.length y)) (2 * Z.of_nat hw + Z.of_nat (2 * hw + 1)))
      as [Hshort | Hlong].
    { exists y. repeat split; intros; lia. }
    destruct (Z.ltb_spec (2 * Z.of_nat hw + Z.of_nat (2 * hw + 1)) 0); [lia |].
    destruct (Z.eqb_spec (Z.of_nat hw) 0); [lia |].
    rewrite !Nat2Z.id.
    set (side := dec (-5) 1 / of_Z (Z.of_nat hw)).
    set (mid := one / of_Z (Z.of_nat (2 * hw + 1))).
    set (coef := repeat side hw ++ repeat mid (2 * hw + 1) ++ repeat side hw).
    assert (Lcoef : List.length coef = (4 * hw + 1)%nat)
      by (subst coef; rewrite !length_app, !repeat_length; lia).
    rewrite convolve_valid_nonempty;
      [| rewrite Ey; discriminate
       | intros E0; rewrite E0 in Lcoef; cbn in Lcoef; lia].
    cbn [bind]. rewrite Lcoef.
    set (c := slice (convolve_full y coef) _ _).
    assert (Lc : List.length c = (List.length y - 4 * hw)%nat).
    { subst c. rewrite length_slice, length_convolve_full, Lcoef. lia. }
    set (r0 := zeros (2 * hw + 1 - 1) ++ c ++ zeros (2 * hw + 1 - 1)).
    assert (L0 : List.length r0 = List.length y).
    { subst r0. unfold zeros. rewrite !length_app, !repeat_length, Lc. lia. }
    rewrite (py_index_pos r0 zero) by lia. cbn [bind].
    set (v1 := nth (Z.to_nat (Z.of_nat (2 * hw + 1) - 1)) r0 zero).
    set (r1 := fill r0 0 (2 * hw + 1 - 1) v1).
    assert (L1 : List.length r1 = List.length y)
      by (subst r1; rewrite length_fill by lia; exact L0).
    rewrite (py_index_neg r1 zero) by lia. cbn [bind].
    set (v2 := nth (List.length r1 - Z.to_nat (Z.of_nat (2 * hw + 1) + 1)) r1 zero).
    eexists. split; [reflexivity |].
    split; [rewrite length_fill by lia; lia |].
    split; [intros; lia |].
    intros _ k d Hk.
    assert (Ev1 : forall j, j = (2 * hw)%nat -> nth j r0 d = v1).
    { intros j ->. subst v1. transitivity (nth (2 * hw) r0 zero);
        [apply nth_indep; lia | f_equal; lia]. }
    assert (E1 : forall j, (j < List.length y)%nat ->
                           nth j r1 d = if (j <? 2 * hw)%nat then v1 else nth j r0 d).
    { intros j Hj. subst r1. rewrite nth_fill by lia.
      replace (2 * hw + 1 - 1)%nat with (2 * hw)%nat by lia. reflexivity. }
    assert (Ev2 : v2 = nth (n - (2 * hw + 1) - 1) r1 d).
    { subst v2. rewrite L1, <- Hn. transitivity (nth (n - (2 * hw + 1) - 1) r1 zero);
        [f_equal; lia | apply nth_indep; lia]. }
    rewrite !nth_fill by lia. rewrite L1, <- Hn, Ewd.
    split.
    + destruct (Nat.leb_spec (n - (2 * hw + 1 - 1)) k); [lia |].
      destruct (Nat.leb_spec (n - (2 * hw + 1 - 1)) (2 * hw + 1 - 1)); [lia |].
      cbn [andb]. rewrite !E1 by lia.
      destruct (Nat.ltb_spec k (2 * hw)); [| lia].
      destruct (Nat.ltb_spec (2 * hw + 1 - 1) (2 * hw)); [lia |].
      symmetry. apply Ev1. lia.
    + destruct (Nat.leb_spec (n - (2 * hw + 1 - 1)) (n - 1 - k)); [| lia].
      destruct (Nat.ltb_spec (n - 1 - k) n); [| lia].
      destruct (Nat.leb_spec (n - (2 * hw + 1 - 1)) (n - (2 * hw + 1) - 1)); [lia |].
      cbn [andb]. exact Ev2.
Qed.
End SquareFilter.

(** Seven samples and a width of 2, rounded up to 3. *)
Lemma squarefilter_keeps_the_length_run :
  exists r,
    Specfit.squarefilter (N := Float64.numeric) [1; 2; 4; 8; 4; 2; 1]%float 2%float = Ok r
    /\ List.length r = 7%nat
    /\ nth 0 r 0%float = nth 2 r 0%float.
Proof.
  destruct (@squarefilter_keeps_the_length
              Float64.numeric [1; 2; 4; 8; 4; 2; 1]%float 2%float 2%Z eq_refl ltac:(lia))
    as [_ H].
  destruct (H ltac:(lia)) as (r & E & L & _ & Hedge).
  exists r. split; [exact E |]. split; [exact L |].
  apply (Hedge ltac:(cbn; lia) 0%nat 0%float). cbn. lia.
Defined.

(** ** bkg_internal: the baseline of the last call *)

Section BaselineCache.
Context {N : Numeric}.
Import Specfit.
Local Open Scope num_scope.

(** The test of [bkg_internal] on the arguments of the last call. *)
Let same_call (pars x : list num) (self : t) (o0 p0 : num) : M t bool :=
  if o0 =? p0 then
    o1 <~ lift (py_index (bkg_internal_oldpars self) 1) ;;
    p1 <~ lift (py_index pars 1) ;;
    if o1 =? p1 then
      if andb (Nat.eqb (List.length x) (List.length (bkg_internal_oldx self)))
              (Nat.eqb (List.length (ydata self))
                       (List.length (bkg_internal_oldy self)))
      then
        ex <~ lift (all_equal (bkg_internal_oldx self) x (List.length x)) ;;
        if ex then
          lift (all_equal (bkg_internal_oldy self) (ydata self)
                          (List.length (ydata self)))
        else ret false
      else ret false
    else ret false
  else ret false.

Lemma same_call_pure (pars x : list num) (self : t) (o0 p0 : num) (s s' : t)
      (r : res bool) :
  same_call pars x self o0 p0 s = (r, s') -> s' = s.
Proof.
  unfold same_call, bindM, lift, ret. intros H.
  repeat match type of H with
         | (if ?b then _ else _) _ = _ => destruct b
         | (if ?b then _ else _) = _ => destruct b
         | (match ?e with Ok _ => _ | Raise _ => _ end) = _ => destruct e
         | (_, _) = (_, _) => inversion H; reflexivity
         end.
Qed.

Lemma zip_same (f : num -> num -> num) (a : list num) :
  zip_with f a a = Ok (map (fun u => f u u) a).
Proof.
  induction a as [| u a IH]; [reflexivity |]. cbn [zip_with map].
  rewrite IH. reflexivity.
Qed.

Lemma all_equal_refl (a : list num) :
  (one =? one) = true -> Forall (fun v => (v =? v) = true) a ->
  all_equal a a (List.length a) = Ok true.
Proof.
  intros H1 Ha. unfold all_equal. rewrite zip_same. cbn [bind]. f_equal.
  apply Nat.eqb_eq. induction Ha as [| u a Hu Ha IH]; [reflexivity |].
  cbn [map filter]. rewrite Hu, H1. cbn [List.length]. rewrite IH. reflexivity.
Qed.

Section Calls.
Context (ext : Externals).

Let reuse (pars x : list num) (self : t) : M t (list num) :=
  p2 <~ lift (py_index pars 2) ;;
  lift (vadd (bkg_internal_oldbkg self) (map (fun o => p2 * o) (ones (List.length x)))).

Let recompute (pars x : list num) (self : t) (p0 : num) : M t (list num) :=
  modify (set_bkg_internal_oldy (ydata self)) ;;;
  modify (set_bkg_internal_oldx x) ;;;
  modify (set_bkg_internal_oldpars pars) ;;;
  x0 <~ lift (py_index x 0) ;;
  xl <~ lift (py_last x) ;;
  let idx := nonzero (map (fun v => andb (geb v x0) (leb v xl)) (xdata self)) in
  yy <~ lift (take (ydata self) idx) ;;
  p1 <~ lift (py_index pars 1) ;;
  let nrx := List.length x in
  let nry := List.length yy in
  b <~ lift (if Nat.eqb nrx nry then subac ext yy p0 p1
             else (half <- take yy (map (fun i => (2 * Z.of_nat i)%Z)
                                        (seq 0 ((nry + 1) / 2))) ;;
                   subac ext half p0 p1)) ;;
  modify (set_bkg_internal_oldbkg b) ;;;
  p2 <~ lift (py_index pars 2) ;;
  lift (vadd b (map (fun o => p2 * o) (ones (List.length x)))).

Lemma bkg_internal_cases (pars x : list num) (st : t) :
  bkg_internal ext pars x st
  = match py_index (bkg_internal_oldpars st) 0 with
    | Raise e => (Raise e, st)
    | Ok o0 =>
        match py_index pars 0 with
        | Raise e => (Raise e, st)
        | Ok p0 =>
            match same_call pars x st o0 p0 st with
            | (Raise e, s) => (Raise e, s)
            | (Ok hit, s) => (if hit then reuse pars x st else recompute pars x st p0) s
            end
        end
    end.
Proof.
  unfold bkg_internal. unfold bindM at 1. unfold get at 1. cbv iota beta.
  unfold bindM at 1. unfold lift at 1.
  destruct (py_index (bkg_internal_oldpars st) 0) as [o0 | e]; [| reflexivity].
  unfold bindM at 1. unfold lift at 1.
  destruct (py_index pars 0) as [p0 | e]; [| reflexivity].
  unfold bindM at 1. fold (same_call pars x st o0 p0).
  destruct (same_call pars x st o0 p0 st) as [[hit | e] s]; [| reflexivity].
  destruct hit; reflexivity.
Qed.
End Calls.

(** When a call of [bkg_internal] has returned, the same call again
    returns the same array and leaves the object as it is, without the
    baseline being computed: this holds whatever the imported routines
    do at the second call.  The arrays are compared entry by entry, so
    this needs every number of [pars], [x] and [ydata] to be equal to
    itself (none is a NaN), as is 1.0. *)
Theorem bkg_internal_reuses_the_baseline
        (ext ext' : Externals) (pars x : list num) (st st1 : t) (r : list num) :
  bkg_internal ext pars x st = (Ok r, st1) ->
  (one =? one) = true ->
  (forall v, In v pars \/ In v x \/ In v (ydata st) -> (v =? v) = true) ->
  bkg_internal ext' pars x st1 = (Ok r, st1)
  /\ ydata st1 = ydata st /\ xdata st1 = xdata st /\ paramlist st1 = paramlist st.
Proof.
  intros H H1 Hrefl. rewrite bkg_internal_cases in H.
  destruct (py_index (bkg_internal_oldpars st) 0) as [o0 | e] eqn:Eo0; [| discriminate].
  destruct (py_index pars 0) as [p0 | e] eqn:Ep0; [| discriminate].
  destruct (same_call pars x st o0 p0 st) as [[hit | e] s] eqn:Ehit; [| discriminate].
  pose proof (same_call_pure _ _ _ _ _ _ Ehit) as ->.
  destruct hit.
  - (* the baseline was reused *)
    assert (st1 = st) as ->.
    { cbv beta delta [bindM lift] in H.
      destruct (py_index pars 2); [| discriminate].
      inversion H; reflexivity. }
    split; [| repeat split].
    rewrite bkg_internal_cases, Eo0, Ep0, Ehit. exact H.
  - (* the baseline was computed *)
    cbv beta delta [bindM modify lift] in H. cbv beta iota zeta in H.
    destruct (py_index x 0) as [x0 | e]; [| discriminate].
    destruct (py_last x) as [xl | e]; [| discriminate].
    destruct (take _ _) as [yy | e]; [| discriminate].
    destruct (py_index pars 1) as [p1 | e] eqn:Ep1; [| discriminate].
    match type of H with
    | context [match ?e with Ok _ => _ | Raise _ => _ end] =>
        destruct e as [b | e0] eqn:Eb; [| discriminate]
    end.
    destruct (py_index pars 2) as [p2 | e] eqn:Ep2; [| discriminate].
    destruct (vadd b _) as [r' | e] eqn:Er; [| discriminate].
    inversion H; subst r' st1. clear H.
    split; [| repeat split].
    rewrite bkg_internal_cases.
    cbn [bkg_internal_oldpars set_bkg_internal_oldbkg set_bkg_internal_oldpars
         set_bkg_internal_oldx set_bkg_internal_oldy].
    rewrite Ep0.
    assert (Hp0 : (p0 =? p0) = true)
      by (apply Hrefl; left; eapply py_index_In; exact Ep0).
    assert (Hp1 : (p1 =? p1) = true)
      by (apply Hrefl; left; eapply py_index_In; exact Ep1).
    unfold same_call.
    cbn [bkg_internal_oldpars bkg_internal_oldx bkg_internal_oldy ydata
         set_bkg_internal_oldbkg set_bkg_internal_oldpars
         set_bkg_internal_oldx set_bkg_internal_oldy].
    rewrite Hp0. unfold bindM at 1. unfold lift at 1. rewrite Ep1.
    unfold bindM at 1. unfold lift at 1. rewrite Hp1, !Nat.eqb_refl. cbn [andb].
    unfold bindM at 1. unfold lift at 1.
    rewrite all_equal_refl by (try assumption; apply Forall_forall; intros v Hv;
                               apply Hrefl; auto).
    unfold lift at 1.
    rewrite all_equal_refl by (try assumption; apply Forall_forall; intros v Hv;
                               apply Hrefl; auto).
    cbv beta delta [bindM lift]. cbv beta iota.
    cbn [bkg_internal_oldbkg set_bkg_internal_oldbkg].
    rewrite Ep2, Er. reflexivity.
Qed.
End BaselineCache.

Lemma baseline_first_call :
  fst (Specfit.bkg_internal (sample_externals (N := Float64.numeric) [] 3%float 0%float)
                            [1; 1; 2]%float sample_x residual_fit)
  = Ok (repeat 5%float 20).
Proof. reflexivity. Qed.

(** A baseline of 3 plus a constant of 2 on the twenty samples, and the
    same call again with routines that raise. *)
Lemma bkg_internal_reuses_the_baseline_run :
  let ext := sample_externals (N := Float64.numeric) [] 3%float 0%float in
  let st1 := snd (Specfit.bkg_internal ext [1; 1; 2]%float sample_x residual_fit) in
  fst (Specfit.bkg_internal (failing_externals (N := Float64.numeric)) [1; 1; 2]%float sample_x st1)
  = Ok (repeat 5%float 20).
Proof.
  intros ext st1.
  destruct (@bkg_internal_reuses_the_baseline
              Float64.numeric ext (failing_externals (N := Float64.numeric))
              [1; 1; 2]%float (sample_x (N := Float64.numeric)) residual_fit
              (snd (Specfit.bkg_internal ext [1; 1; 2]%float sample_x residual_fit))
              (repeat 5%float 20))
    as (E & _).
  - apply pair_of_fst. exact baseline_first_call.
  - reflexivity.
  - intros v [Hv | [Hv | Hv]].
    + repeat (destruct Hv as [<- | Hv]; [reflexivity |]). destruct Hv.
    + repeat (destruct Hv as [<- | Hv]; [reflexivity |]). destruct Hv.
    + repeat (destruct Hv as [<- | Hv]; [reflexivity |]). destruct Hv.
  - unfold st1. rewrite E. reflexivity.
Defined.

(** ** Specfit.configure *)

Section DriverConfigure.
Context {N : Numeric}.
Import Specfit.

Lemma dkeys_dset_in {V} (d : dict V) (k : string) (v : V) :
  In k (dkeys d) -> dkeys (dset d k v) = dkeys d.
Proof.
  unfold dkeys. induction d as [| [k' w] d IH]; cbn; [intros [] |].
  destruct (String.eqb_spec k' k) as [-> | Hne]; cbn; [reflexivity |].
  intros [E | Hin]; [congruence |]. rewrite IH by exact Hin. reflexivity.
Qed.

Lemma dget_dset_again {V} (d : dict V) (k k' : string) (v : V) :
  dget d k = Some v -> dget (dset d k v) k' = dget d k'.
Proof.
  intros H. destruct (String.eqb_spec k' k) as [-> | Hne].
  - rewrite dget_dset_same. symmetry. exact H.
  - apply dget_dset_other. exact Hne.
Qed.

Lemma dget_In_keys {V} (d : dict V) (k : string) (v : V) :
  dget d k = Some v -> In k (dkeys d).
Proof.
  unfold dkeys. induction d as [| [k' w] d IH]; cbn; [discriminate |].
  destruct (String.eqb_spec k' k) as [-> | Hne]; [auto |].
  intros H. right. apply IH. exact H.
Qed.

Lemma dget_not_In {V} (d : dict V) (k : string) :
  ~ In k (dkeys d) -> dget d k = None.
Proof.
  intros H. destruct (dget d k) eqn:E; [| reflexivity].
  contradiction H. eapply dget_In_keys. exact E.
Qed.

Lemma update_get {V} (d2 : dict V) :
  NoDup (dkeys d2) ->
  forall d k, dget (update d d2) k = match dget d2 k with
                                     | Some v => Some v
                                     | None => dget d k
                                     end.
Proof.
  unfold update. induction d2 as [| [k0 v0] d2 IH]; intros Hnd d k; [reflexivity |].
  cbn [fold_left fst snd]. cbn [dkeys map fst] in Hnd. inversion Hnd as [| ? ? Hnot Hnd']; subst.
  rewrite IH by exact Hnd'. cbn [dget].
  destruct (String.eqb_spec k0 k) as [-> | Hne].
  - rewrite (dget_not_In d2 k Hnot). apply dget_dset_same.
  - destruct (dget d2 k); [reflexivity |]. apply dget_dset_other. congruence.
Qed.

Lemma same_settings_refl (s : t) : same_settings s s.
Proof. repeat split. Qed.

Lemma same_settings_trans (s1 s2 s3 : t) :
  same_settings s1 s2 -> same_settings s2 s3 -> same_settings s1 s3.
Proof.
  unfold same_settings. intros H1 H2.
  repeat match goal with H : _ /\ _ |- _ => destruct H end.
  repeat split; congruence.
Qed.

(** On an object whose [fitconfig] has the keys [K], [m] keeps the
    settings, whether it returns or raises. *)
Let keeps (K : list string) {A} (m : M t A) : Prop :=
  forall s r s', dkeys (fitconfig s) = K -> m s = (r, s') -> same_settings s s'.

Lemma keeps_pure (K : list string) {A} (m : M t A) :
  (forall s, snd (m s) = s) -> keeps K m.
Proof.
  intros Hm s r s' _ H. pose proof (Hm s) as E. rewrite H in E. cbn in E. subst s'.
  apply same_settings_refl.
Qed.

Lemma keeps_bind (K : list string) {A B} (m : M t A) (k : A -> M t B) :
  keeps K m -> (forall a, keeps K (k a)) -> keeps K (bindM m k).
Proof.
  intros Hm Hk s r s' HK. unfold bindM.
  destruct (m s) as [[a | e] s1] eqn:E; intros H.
  - pose proof (Hm _ _ _ HK E) as R1.
    eapply same_settings_trans; [exact R1 |].
    eapply Hk; [| exact H]. destruct R1 as [R1 _]. congruence.
  - injection H as <- <-. eapply Hm; eassumption.
Qed.

Lemma keeps_get (K : list string) {B} (k : t -> M t B) :
  (forall self, dkeys (fitconfig self) = K -> keeps K (k self)) ->
  keeps K (bindM get k).
Proof.
  intros Hk s r s' HK H. unfold bindM, get in H. eapply Hk; eassumption.
Qed.

Lemma keeps_assign (K : list string) (key : string) (v : pyval) :
  In key K ->
  keeps K (modify (fun self => set_fitconfig (dset (fitconfig self) key v) self)).
Proof.
  intros Hin s r s' HK H. unfold modify in H. injection H as <- <-.
  split; [| repeat split]. cbn [fitconfig set_fitconfig]. apply dkeys_dset_in.
  rewrite HK. exact Hin.
Qed.

Lemma keeps_forM (K : list string) {A} (body : A -> M t unit) (l : list A) :
  (forall a, In a l -> keeps K (body a)) -> keeps K (forM l body).
Proof.
  induction l as [| a l IH]; intros Hb; cbn [forM].
  - apply keeps_pure. reflexivity.
  - apply keeps_bind; [apply Hb; left; reflexivity |].
    intros _. apply IH. intros b Hb'. apply Hb. right. exact Hb'.
Qed.

Lemma keeps_take_from (K : list string) (d : dict pyval) : keeps K (take_from d).
Proof.
  unfold take_from. apply keeps_get. intros self HK.
  apply keeps_forM. intros key Hin. rewrite HK in Hin.
  destruct (dget d key); [apply keeps_assign; exact Hin | apply keeps_pure; reflexivity].
Qed.

Lemma keeps_setbackground (K : list string) (name : string) :
  In "fitbkg" K -> keeps K (setbackground name).
Proof.
  intros Hin. unfold setbackground. apply keeps_get. intros self HK.
  destruct (dget (bkgdict self) name).
  - apply keeps_bind; [apply keeps_assign; exact Hin |].
    intros _ s r s' _ H. unfold modify in H. injection H as <- <-. repeat split.
  - apply keeps_pure. reflexivity.
Qed.

Lemma keeps_settheory (K : list string) (name : string) :
  In "fittheory" K -> keeps K (settheory name).
Proof.
  intros Hin. unfold settheory. apply keeps_get. intros self HK.
  destruct (dget (theorydict self) name).
  - apply keeps_bind; [apply keeps_assign; exact Hin |]. intros _.
    apply keeps_bind;
      [intros s r s' _ H; unfold modify in H; injection H as <- <-; repeat split |].
    intros _.
    apply keeps_bind;
      [intros s r s' _ H; unfold modify in H; injection H as <- <-; repeat split |].
    intros _. destruct (5 <? theory_len)%Z.
    + intros s r s' _ H. unfold modify in H. injection H as <- <-. repeat split.
    + apply keeps_pure. reflexivity.
  - apply keeps_pure. reflexivity.
Qed.

Lemma keeps_configure_turn (K : list string) (kw : dict pyval) (key : string) :
  In key K -> keeps K (configure_turn kw key).
Proof.
  intros Hin. unfold configure_turn.
  apply keeps_bind.
  { destruct (dget kw key); [apply keeps_assign; exact Hin | apply keeps_pure; reflexivity]. }
  intros _. apply keeps_bind.
  { destruct (String.eqb_spec key "fitbkg") as [-> |]; [| apply keeps_pure; reflexivity].
    apply keeps_get. intros self HK.
    apply keeps_bind; [apply keeps_pure; reflexivity |].
    intros v. destruct v; try (apply keeps_pure; reflexivity).
    apply keeps_setbackground. exact Hin. }
  intros _.
  destruct (String.eqb_spec key "fittheory") as [-> |]; [| apply keeps_pure; reflexivity].
  apply keeps_get. intros self HK.
  apply keeps_bind; [apply keeps_pure; reflexivity |].
  intros ft.
  assert (Hset : keeps K (v <~ lift (ditem (fitconfig self) "fittheory") ;;
                          settheory_value v)).
  { apply keeps_bind; [apply keeps_pure; reflexivity |].
    intros v. destruct v; try (apply keeps_pure; reflexivity).
    apply keeps_settheory. exact Hin. }
  destruct ft; try exact Hset. apply keeps_pure. reflexivity.
Qed.

(** Lines 944-953 of [configure]: the configuration of the theory. *)
Let theory_part (kw : dict pyval) (self : t) (ft : pyval) : M t (dict pyval) :=
  match ft with
  | VNone => ret (update [] (fitconfig self))
  | _ =>
      match (match ft with
             | VStr s => dget (theorydict self) s
             | _ => None
             end) with
      | Some th =>
          match t_configure th with
          | Some f =>
              r <~ (fun self0 => let '(r, h) := f kw (objects self0) in
                                 (r, set_objects h self0)) ;;
              take_from (update (update [] (fitconfig self)) r) ;;;
              ret (update (update [] (fitconfig self)) r)
          | None => ret (update [] (fitconfig self))
          end
      | None => ret (update [] (fitconfig self))
      end
  end.

Lemma configure_parts (kw : dict pyval) :
  configure kw
  = (take_from kw ;;;
     self <~ get ;;
     ft <~ lift (ditem (fitconfig self) "fittheory") ;;
     result <~ theory_part kw self ft ;;
     self <~ get ;;
     forM (dkeys (fitconfig self)) (configure_turn kw) ;;;
     self <~ get ;;
     ret (update result (fitconfig self))).
Proof. reflexivity. Qed.

Lemma keeps_theory_part (K : list string) (kw : dict pyval) (self : t) (ft : pyval) :
  keeps K (theory_part kw self ft).
Proof.
  unfold theory_part.
  assert (Hcall : forall th,
             keeps K (match t_configure th with
                      | Some f =>
                          r <~ (fun self0 => let '(r, h) := f kw (objects self0) in
                                             (r, set_objects h self0)) ;;
                          take_from (update (update [] (fitconfig self)) r) ;;;
                          ret (update (update [] (fitconfig self)) r)
                      | None => ret (update [] (fitconfig self))
                      end)).
  { intros th. destruct (t_configure th) as [f |]; [| apply keeps_pure; reflexivity].
    apply keeps_bind.
    - intros s r s' _ H. destruct (f kw (objects s)) as [r0 h]. injection H as <- <-.
      repeat split.
    - intros r. apply keeps_bind; [apply keeps_take_from |].
      intros _. apply keeps_pure. reflexivity. }
  destruct ft; try (apply keeps_pure; reflexivity).
  destruct (dget (theorydict self) s) as [th |]; [apply Hcall |].
  apply keeps_pure. reflexivity.
Qed.

Lemma keeps_configure (K : list string) (kw : dict pyval) : keeps K (configure kw).
Proof.
  rewrite configure_parts.
  apply keeps_bind; [apply keeps_take_from |]. intros _.
  apply keeps_get. intros self HK.
  apply keeps_bind; [apply keeps_pure; reflexivity |]. intros ft.
  apply keeps_bind; [apply keeps_theory_part |].
  intros result. apply keeps_get. intros self2 HK2.
  apply keeps_bind.
  { apply keeps_forM. intros key Hin. apply keeps_configure_turn. congruence. }
  intros _. apply keeps_get. intros self3 _. apply keeps_pure. reflexivity.
Qed.

(** [configure] never adds a key to [fitconfig] and never removes
    one: a keyword that is no key of [fitconfig] is not stored there.
    Whether [configure] returns or raises, the registered theories and
    backgrounds, the working data and the parameter list are as they
    were. *)
Theorem configure_keeps_the_keys_of_fitconfig
        (kw : dict pyval) (st st' : t) (r : res (dict pyval)) :
  configure kw st = (r, st') ->
  same_settings st st'
  /\ forall key, ~ In key (dkeys (fitconfig st)) -> dget (fitconfig st') key = None.
Proof.
  intros H. pose proof (@keeps_configure (dkeys (fitconfig st)) kw st r st' eq_refl H) as R.
  split; [exact R |]. intros key Hnot. apply dget_not_In.
  destruct R as [E _]. rewrite E. exact Hnot.
Qed.

Lemma setbackground_Ok (name : string) (s s' : t) :
  setbackground name s = (Ok tt, s') ->
  exists entry,
    dget (bkgdict s) name = Some entry
    /\ s' = set_bkgfun (Some (b_function entry))
                       (set_fitconfig (dset (fitconfig s) "fitbkg" (VStr name)) s).
Proof.
  unfold setbackground, bindM, get, modify. intros H.
  destruct (dget (bkgdict s) name) as [entry |]; [| discriminate].
  exists entry. split; [reflexivity |]. injection H as <-. reflexivity.
Qed.

Lemma settheory_Ok (name : string) (s s' : t) :
  settheory name s = (Ok tt, s') ->
  fitconfig s' = dset (fitconfig s) "fittheory" (VStr name)
  /\ bkgfun s' = bkgfun s /\ bkgdict s' = bkgdict s.
Proof.
  unfold settheory, bindM, get, modify, ret. intros H.
  destruct (dget (theorydict s) name) as [entry |]; [| discriminate].
  destruct (5 <? theory_len)%Z; injection H as <-; repeat split.
Qed.

(** What one turn of the last loop leaves, when it returns. *)
Lemma configure_turn_Ok (kw : dict pyval) (key : string) (s s' : t) :
  configure_turn kw key s = (Ok tt, s') ->
  (forall k v, dget kw k = Some v -> k = key \/ dget (fitconfig s) k = Some v ->
               dget (fitconfig s') k = Some v)
  /\ bkgdict s' = bkgdict s
  /\ (key <> "fitbkg" ->
      bkgfun s' = bkgfun s
      /\ dget (fitconfig s') "fitbkg" = dget (fitconfig s) "fitbkg")
  /\ (key = "fitbkg" ->
      exists name entry,
        dget (fitconfig s') "fitbkg" = Some (VStr name)
        /\ dget (bkgdict s) name = Some entry
        /\ bkgfun s' = Some (b_function entry)).
Proof.
  unfold configure_turn. intros H.
  apply bindM_Ok in H. destruct H as ([] & sa & Ha & H).
  apply bindM_Ok in H. destruct H as ([] & sb & Hb & H).
  (* the assignment from the keywords *)
  assert (Fa : (forall k v, dget kw k = Some v ->
                            k = key \/ dget (fitconfig s) k = Some v ->
                            dget (fitconfig sa) k = Some v)
               /\ bkgdict sa = bkgdict s /\ bkgfun sa = bkgfun s
               /\ (key <> "fitbkg" ->
                   dget (fitconfig sa) "fitbkg" = dget (fitconfig s) "fitbkg")).
  { destruct (dget kw key) as [w |] eqn:Ekw.
    - unfold modify in Ha. injection Ha as <-. cbn [fitconfig set_fitconfig bkgdict bkgfun].
      split; [| split; [reflexivity | split; [reflexivity |]]].
      + intros k v Hk [-> | Hs].
        * rewrite dget_dset_same. congruence.
        * destruct (String.eqb_spec k key) as [-> | Hne].
          -- rewrite dget_dset_same. congruence.
          -- rewrite dget_dset_other by exact Hne. exact Hs.
      + intros Hne. apply dget_dset_other. congruence.
    - unfold ret in Ha. injection Ha as <-.
      split; [| split; [reflexivity | split; [reflexivity | reflexivity]]].
      intros k v Hk [-> | Hs]; [congruence | exact Hs]. }
  destruct Fa as (Fa1 & Fa2 & Fa3 & Fa4).
  (* the background *)
  assert (Fb : (forall k, dget (fitconfig sb) k = dget (fitconfig sa) k)
               /\ bkgdict sb = bkgdict sa
               /\ (key <> "fitbkg" -> bkgfun sb = bkgfun sa)
               /\ (key = "fitbkg" ->
                   exists name entry,
                     dget (fitconfig sb) "fitbkg" = Some (VStr name)
                     /\ dget (bkgdict sa) name = Some entry
                     /\ bkgfun sb = Some (b_function entry))).
  { destruct (String.eqb_spec key "fitbkg") as [-> | Hne].
    - apply bindM_Ok in Hb. destruct Hb as (self & s1 & E1 & Hb).
      apply get_Ok in E1. destruct E1; subst self s1.
      apply bindM_Ok in Hb. destruct Hb as (v & s1 & E1 & Hb).
      apply lift_Ok in E1. destruct E1 as [Ev ->].
      destruct v; try discriminate. cbn [setbackground_value] in Hb.
      apply setbackground_Ok in Hb. destruct Hb as (entry & He & ->).
      cbn [fitconfig set_fitconfig set_bkgfun bkgdict bkgfun].
      assert (Hcur : dget (fitconfig sa) "fitbkg" = Some (VStr s0)).
      { unfold ditem in Ev. destruct (dget (fitconfig sa) "fitbkg"); [| discriminate].
        cbn in Ev. congruence. }
      split; [intros k; apply dget_dset_again; exact Hcur |].
      split; [reflexivity |]. split; [congruence |].
      intros _. exists s0, entry. rewrite dget_dset_same. auto.
    - unfold ret in Hb. injection Hb as <-.
      split; [reflexivity |]. split; [reflexivity |]. split; [reflexivity | congruence]. }
  destruct Fb as (Fb1 & Fb2 & Fb3 & Fb4).
  (* the theory *)
  assert (Fc : (forall k, dget (fitconfig s') k = dget (fitconfig sb) k)
               /\ bkgdict s' = bkgdict sb /\ bkgfun s' = bkgfun sb).
  { destruct (String.eqb_spec key "fittheory") as [-> | Hne].
    - apply bindM_Ok in H. destruct H as (self & s1 & E1 & H).
      apply get_Ok in E1. destruct E1; subst self s1.
      apply bindM_Ok in H. destruct H as (ft & s1 & E1 & H).
      apply lift_Ok in E1. destruct E1 as [Eft ->].
      assert (Hset : (v <~ lift (ditem (fitconfig sb) "fittheory") ;; settheory_value v) sb
                     = (Ok tt, s') ->
                     (forall k, dget (fitconfig s') k = dget (fitconfig sb) k)
                     /\ bkgdict s' = bkgdict sb /\ bkgfun s' = bkgfun sb).
      { intros H'. apply bindM_Ok in H'. destruct H' as (v & s1 & E1 & H').
        apply lift_Ok in E1. destruct E1 as [Ev ->].
        destruct v; try discriminate. cbn [settheory_value] in H'.
        apply settheory_Ok in H'. destruct H' as (Hf & Hg & Hd).
        assert (Hcur : dget (fitconfig sb) "fittheory" = Some (VStr s0)).
        { unfold ditem in Ev. destruct (dget (fitconfig sb) "fittheory"); [| discriminate].
          cbn in Ev. congruence. }
        split; [intros k; rewrite Hf; apply dget_dset_again; exact Hcur |].
        split; assumption. }
      destruct ft; try (apply Hset; exact H).
      unfold ret in H. injection H as <-. repeat split.
    - unfold ret in H. injection H as <-. repeat split. }
  destruct Fc as (Fc1 & Fc2 & Fc3).
  split; [| split; [| split]].
  - intros k v Hk Hor. rewrite Fc1, Fb1. apply Fa1; assumption.
  - congruence.
  - intros Hne. split; [rewrite Fc3, Fb3 by exact Hne; exact Fa3 |].
    rewrite Fc1, Fb1. apply Fa4. exact Hne.
  - intros He. destruct (Fb4 He) as (name & entry & H1 & H2 & H3).
    exists name, entry. rewrite Fc1, Fc3. split; [exact H1 |].
    split; [congruence | exact H3].
Qed.

Lemma configure_loop_Ok (kw : dict pyval) (l : list string) :
  forall s s',
    forM l (configure_turn kw) s = (Ok tt, s') ->
    (forall k v, dget kw k = Some v -> In k l \/ dget (fitconfig s) k = Some v ->
                 dget (fitconfig s') k = Some v)
    /\ bkgdict s' = bkgdict s
    /\ (~ In "fitbkg" l ->
        bkgfun s' = bkgfun s
        /\ dget (fitconfig s') "fitbkg" = dget (fitconfig s) "fitbkg")
    /\ (NoDup l -> In "fitbkg" l ->
        exists name entry,
          dget (fitconfig s') "fitbkg" = Some (VStr name)
          /\ dget (bkgdict s) name = Some entry
          /\ bkgfun s' = Some (b_function entry)).
Proof.
  induction l as [| key l IH]; intros s s' H; cbn [forM] in H.
  - unfold ret in H. injection H as <-.
    split; [intros k v _ [[] | Hs]; exact Hs |].
    split; [reflexivity |]. split; [intros _; split; reflexivity | intros _ []].
  - apply bindM_Ok in H. destruct H as ([] & s1 & E1 & H).
    apply configure_turn_Ok in E1. destruct E1 as (T1 & T2 & T3 & T4).
    destruct (IH _ _ H) as (L1 & L2 & L3 & L4).
    split; [| split; [| split]].
    + intros k v Hk [[<- | Hin] | Hs].
      * apply L1; [exact Hk |]. right. apply T1; auto.
      * apply L1; auto.
      * apply L1; [exact Hk |]. right. apply T1; auto.
    + congruence.
    + intros Hnot. assert (key <> "fitbkg") as Hne by (intros ->; apply Hnot; left; reflexivity).
      assert (~ In "fitbkg" l) as Hnl by (intros Hin; apply Hnot; right; exact Hin).
      destruct (T3 Hne) as [A1 A2]. destruct (L3 Hnl) as [B1 B2]. split; congruence.
    + intros Hnd Hin. inversion Hnd as [| ? ? Hnk Hnd']; subst.
      destruct (String.eqb_spec key "fitbkg") as [-> | Hne].
      * destruct (T4 eq_refl) as (name & entry & A1 & A2 & A3).
        destruct (L3 Hnk) as [B1 B2].
        exists name, entry. split; [congruence |]. split; [exact A2 | congruence].
      * destruct Hin as [E | Hin]; [congruence |].
        destruct (L4 Hnd' Hin) as (name & entry & A1 & A2 & A3).
        exists name, entry. split; [exact A1 |]. split; [congruence | exact A3].
Qed.

Lemma In_keys_dget {V} (d : dict V) (k : string) :
  In k (dkeys d) -> exists v, dget d k = Some v.
Proof.
  unfold dkeys. induction d as [| [k' w] d IH]; cbn; [intros [] |].
  destruct (String.eqb_spec k' k) as [-> | Hne]; [eauto |].
  intros [E | Hin]; [congruence | apply IH; exact Hin].
Qed.

(** What [configure] leaves and returns, when it returns. *)
Lemma configure_Ok (kw result : dict pyval) (st st' : t) :
  configure kw st = (Ok result, st') ->
  NoDup (dkeys (fitconfig st)) ->
  (forall key v, In key (dkeys (fitconfig st)) -> dget kw key = Some v ->
                 dget (fitconfig st') key = Some v)
  /\ (forall key, In key (dkeys (fitconfig st)) ->
                  dget result key = dget (fitconfig st') key)
  /\ (In "fitbkg" (dkeys (fitconfig st)) ->
      exists name entry,
        dget (fitconfig st') "fitbkg" = Some (VStr name)
        /\ dget (bkgdict st) name = Some entry
        /\ bkgfun st' = Some (b_function entry)).
Proof.
  intros H Hnd. set (K := dkeys (fitconfig st)) in *.
  rewrite configure_parts in H.
  apply bindM_Ok in H. destruct H as ([] & s1 & E1 & H).
  pose proof (@keeps_take_from K kw st _ _ eq_refl E1) as R1.
  apply bindM_Ok in H. destruct H as (self & s1' & E & H).
  apply get_Ok in E. destruct E; subst self s1'.
  apply bindM_Ok in H. destruct H as (ft & s1' & E & H).
  apply lift_Ok in E. destruct E as [_ ->].
  apply bindM_Ok in H. destruct H as (result1 & s2 & E2 & H).
  assert (K1 : dkeys (fitconfig s1) = K) by (destruct R1 as [E _]; exact E).
  pose proof (@keeps_theory_part K kw s1 ft s1 _ _ K1 E2) as R2.
  assert (K2 : dkeys (fitconfig s2) = K) by (destruct R2 as [E _]; congruence).
  apply bindM_Ok in H. destruct H as (self & s2' & E & H).
  apply get_Ok in E. destruct E; subst self s2'.
  apply bindM_Ok in H. destruct H as ([] & s3 & E3 & H).
  apply bindM_Ok in H. destruct H as (self & s3' & E & H).
  apply get_Ok in E. destruct E; subst self s3'.
  unfold ret in H. injection H as <- <-.
  rewrite K2 in E3.
  pose proof (@keeps_forM K _ (configure_turn kw) K
                          (fun key Hin => @keeps_configure_turn K kw key Hin)
                          s2 _ _ K2 E3) as R3.
  assert (K3 : dkeys (fitconfig s3) = K) by (destruct R3 as [E _]; congruence).
  pose proof E3 as HL. apply configure_loop_Ok in HL. destruct HL as (L1 & L2 & _ & L4).
  split; [| split].
  - intros key v Hin Hk. apply (L1 key v Hk). left. exact Hin.
  - intros key Hin. rewrite update_get by (rewrite K3; exact Hnd).
    rewrite <- K3 in Hin. apply In_keys_dget in Hin. destruct Hin as (v & ->). reflexivity.
  - intros Hin. destruct (L4 Hnd Hin) as (name & entry & A1 & A2 & A3).
    exists name, entry. split; [exact A1 |]. split; [| exact A3].
    destruct R1 as (_ & _ & B1 & _). destruct R2 as (_ & _ & B2 & _). congruence.
Qed.

(** When [configure] returns, every keyword that is a key of
    [fitconfig] is stored there with its value, the dictionary returned
    has, for each key of [fitconfig], the value that [fitconfig] now
    has, and the background named by [fitconfig['fitbkg']] is a
    registered one whose function is now [bkgfun]. *)
Theorem configure_stores_the_keywords_and_selects_the_background
        (kw result : dict pyval) (st st' : t) :
  configure kw st = (Ok result, st') ->
  NoDup (dkeys (fitconfig st)) ->
  In "fitbkg" (dkeys (fitconfig st)) ->
  (forall key v, In key (dkeys (fitconfig st)) -> dget kw key = Some v ->
                 dget (fitconfig st') key = Some v /\ dget result key = Some v)
  /\ (forall key, In key (dkeys (fitconfig st)) ->
                  dget result key = dget (fitconfig st') key)
  /\ exists name entry,
       dget (fitconfig st') "fitbkg" = Some (VStr name)
       /\ dget (bkgdict st') name = Some entry
       /\ bkgfun st' = Some (b_function entry).
Proof.
  intros H Hnd Hin.
  destruct (@configure_Ok kw result st st' H Hnd) as (C1 & C2 & C3).
  pose proof (@keeps_configure (dkeys (fitconfig st)) kw st _ _ eq_refl H) as R.
  split; [| split; [exact C2 |]].
  - intros key v Hk Hv. split; [apply C1; assumption |].
    rewrite C2 by exact Hk. apply C1; assumption.
  - destruct (C3 Hin) as (name & entry & A1 & A2 & A3).
    exists name, entry. split; [exact A1 |]. split; [| exact A3].
    destruct R as (_ & _ & B & _). congruence.
Qed.

(** [configure] with a background that is not registered never
    returns: it raises, after [fitconfig] has taken the keywords. *)
Theorem configure_with_an_unknown_background_never_returns
        (kw : dict pyval) (name : string) (st st' : t) (r : res (dict pyval)) :
  NoDup (dkeys (fitconfig st)) ->
  In "fitbkg" (dkeys (fitconfig st)) ->
  dget kw "fitbkg" = Some (VStr name) ->
  dget (bkgdict st) name = None ->
  configure kw st = (r, st') ->
  (exists e, r = Raise e) /\ same_settings st st'.
Proof.
  intros Hnd Hin Hkw Hno H.
  split; [| exact (@keeps_configure (dkeys (fitconfig st)) kw st _ _ eq_refl H)].
  destruct r as [result | e]; [| eauto]. exfalso.
  destruct (@configure_Ok kw result st st' H Hnd) as (C1 & _ & C3).
  destruct (C3 Hin) as (name' & entry & A1 & A2 & _).
  rewrite (C1 _ _ Hin Hkw) in A1. injection A1 as <-. congruence.
Qed.
End DriverConfigure.

(** The keywords of [mcafit] on a new object: [autoscaling], in lower
    case, is no key of [fitconfig]. *)
Lemma configure_keeps_the_keys_of_fitconfig_run :
  let kw := [("Yscaling", @VFloat Float64.numeric 2%float); ("autoscaling", VInt 0)] in
  dget (Specfit.fitconfig
          (snd (Specfit.configure kw (fresh_driver (N := Float64.numeric)))))
       "autoscaling"
  = None.
Proof.
  intros kw.
  destruct (@configure_keeps_the_keys_of_fitconfig
              Float64.numeric kw fresh_driver
              (snd (Specfit.configure kw fresh_driver))
              (fst (Specfit.configure kw fresh_driver))
              (surjective_pairing _)) as [_ H].
  apply H. intros Hin.
  repeat (destruct Hin as [Hin | Hin]; [discriminate Hin |]). exact Hin.
Defined.

Lemma fresh_driver_keys :
  NoDup (dkeys (Specfit.fitconfig (fresh_driver (N := Float64.numeric)))).
Proof.
  repeat (constructor;
          [intros Hin; repeat (destruct Hin as [Hin | Hin]; [discriminate Hin |]);
           exact Hin |]).
  constructor.
Qed.

Lemma fresh_driver_has_fitbkg :
  In "fitbkg" (dkeys (Specfit.fitconfig (fresh_driver (N := Float64.numeric)))).
Proof. do 7 right. left. reflexivity. Qed.

(** A scaling and the linear background on a new object. *)
Lemma configure_stores_the_keywords_and_selects_the_background_run :
  let kw := [("Yscaling", @VFloat Float64.numeric 2%float); ("fitbkg", VStr "Linear")] in
  let st' := snd (Specfit.configure kw (fresh_driver (N := Float64.numeric))) in
  dget (Specfit.fitconfig st') "Yscaling" = Some (@VFloat Float64.numeric 2%float)
  /\ exists name entry,
       dget (Specfit.fitconfig st') "fitbkg" = Some (VStr name)
       /\ dget (Specfit.bkgdict st') name = Some entry
       /\ Specfit.bkgfun st' = Some (Specfit.b_function entry).
Proof.
  intros kw st'.
  destruct (@configure_stores_the_keywords_and_selects_the_background
              Float64.numeric kw
              (match fst (Specfit.configure kw fresh_driver) with
               | Ok result => result
               | Raise _ => []
               end)
              fresh_driver
              (snd (Specfit.configure kw fresh_driver)))
    as (H1 & _ & H3).
  - apply pair_of_fst. reflexivity.
  - exact fresh_driver_keys.
  - exact fresh_driver_has_fitbkg.
  - split; [| exact H3].
    apply (H1 "Yscaling" (@VFloat Float64.numeric 2%float)); [do 3 right; left; reflexivity | reflexivity].
Defined.

(** A background that is not registered, on a new object. *)
Lemma configure_with_an_unknown_background_never_returns_run :
  exists e,
    fst (Specfit.configure [("fitbkg", VStr "Cubic")] (fresh_driver (N := Float64.numeric)))
    = Raise e.
Proof.
  destruct (@configure_with_an_unknown_background_never_returns
              Float64.numeric [("fitbkg", VStr "Cubic")] "Cubic" fresh_driver
              (snd (Specfit.configure [("fitbkg", VStr "Cubic")] fresh_driver))
              (fst (Specfit.configure [("fitbkg", VStr "Cubic")] fresh_driver)))
    as [[e He] _].
  - exact fresh_driver_keys.
  - exact fresh_driver_has_fitbkg.
  - reflexivity.
  - reflexivity.
  - apply surjective_pairing.
  - exists e. exact He.
Defined.
